(** * hypercloud-multi-operator: cluster registration, secret bootstrap and
      cluster-claim admission, embedded from the Go sources.

    Sources embedded here:
    - [controllers/cluster/clusterregistration_controller.go]
      (the ClusterRegistration reconciler and its watch on ClusterManager),
    - the SecretReconciler phases [UpdateClusterManagerControlPlaneEndpoint],
      [DeployRolebinding] and [DeployArgocdResources], with the helpers
      [getKubeConfig] and [createClusterRole],
    - the ClusterClaim admission webhook ([ValidateCreate], [ValidateUpdate],
      [ValidateDelete]).

    Go values are modelled as follows.  A Go [error] is [option error]
    ([None] is [nil]).  Kubernetes objects are records; the API server is a
    [World] of finite maps indexed by namespace and name.  A controller method
    is a state transformer on [World]; a Go panic is an explicit outcome.
    Calls into libraries and into packages that are not part of the embedded
    sources are fields of an environment record [Env].  The API servers of the
    remote clusters are a second store, [Remote], with an environment
    [RemoteEnv] of its own. *)

From Stdlib Require Import ZArith String Ascii Lia.
From stdpp Require Import base option strings gmap list.

Open Scope string_scope.
Open Scope Z_scope.

(* ===================================================================== *)
(** ** Go and apimachinery basics *)
(* ===================================================================== *)

(** [metav1.StatusReason] of an API error, as far as the controllers read it. *)
Inductive StatusReason : Type :=
| StatusReasonNotFound
| StatusReasonAlreadyExists
| StatusReasonConflict
| StatusReasonBadRequest
| StatusReasonInternalError.

#[local] Set Warnings "-register-all".

(** Go errors: API status errors, plain errors ([errors.New], decoding
    errors, ...) and [kerrors.Aggregate]. *)
Inductive error : Type :=
| StatusError (reason : StatusReason) (msg : string)
| PlainError (msg : string)
| Aggregate (errs : list error).

(** [errors.IsNotFound] *)
Definition IsNotFound (e : error) : bool :=
  match e with
  | StatusError StatusReasonNotFound _ => true
  | _ => false
  end.

(** [kerrors.NewAggregate]: [nil] for an empty list.  The list handed over by
    [reconcile] never holds a nil error, so nothing is filtered out. *)
Definition NewAggregate (errs : list error) : option error :=
  match errs with
  | [] => None
  | _ :: _ => Some (Aggregate errs)
  end.

(** [ctrl.Result] *)
Record Result : Type := mkResult { Requeue : bool; RequeueAfter : Z }.

(** [ctrl.Result{}] *)
Definition ResultZero : Result := mkResult false 0.

(** [metav1.Time]: nanoseconds since the zero instant of Go's [time.Time]. *)
Definition Time : Type := Z.

(** [IsZero] on a pointer to [metav1.Time]: true for a nil pointer and for
    the zero instant. *)
Definition IsZero (t : option Time) : bool :=
  match t with
  | None => true
  | Some v => Z.eqb v 0
  end.

(** [types.NamespacedName] as the pair (namespace, name). *)
Abbreviation NamespacedName := (string * string)%type.

(** [metav1.ObjectMeta], the fields the controllers touch. *)
Record metav1_ObjectMeta : Type := mkMeta {
  Name : string;
  Namespace : string;
  Annotations : gmap string string;
  Labels : gmap string string;
  Finalizers : list string;
  DeletionTimestamp : option Time
}.

(** Reading a Go [map[string]string]: the zero value for an absent key. *)
Definition mapGet (m : gmap string string) (k : string) : string :=
  default "" (m !! k).

(** A Kubernetes object with a spec and a status. *)
Record Object (SpecT StatusT : Type) : Type := mkObject {
  ObjectMeta : metav1_ObjectMeta;
  Spec : SpecT;
  Status : StatusT
}.
Arguments mkObject {SpecT StatusT} _ _ _.
Arguments ObjectMeta {SpecT StatusT} _.
Arguments Spec {SpecT StatusT} _.
Arguments Status {SpecT StatusT} _.

Definition keyOf {SpecT StatusT : Type} (o : Object SpecT StatusT) : NamespacedName :=
  (Namespace (ObjectMeta o), Name (ObjectMeta o)).

(* ===================================================================== *)
(** ** apis/claim/v1alpha1: the ClusterClaim admission webhook *)
(* ===================================================================== *)

Module claimv1alpha1.
Section Webhook.

(** The struct [ClusterClaimSpec] is declared in a file that is not among
    the embedded sources; the webhook only compares two specs with
    [reflect.DeepEqual], so the type is a parameter with decidable
    equality. *)
Context {ClusterClaimSpec : Type} `{EqDecision ClusterClaimSpec}.

(** [ClusterClaimStatus], as far as the webhook reads it. *)
Record ClusterClaimStatus : Type := mkClaimStatus {
  Phase : string;
  Reason : string
}.

Definition ClusterClaim : Type := Object ClusterClaimSpec ClusterClaimStatus.

(** [reflect.DeepEqual] on two specs. *)
Definition DeepEqual (a b : ClusterClaimSpec) : bool := bool_decide (a = b).

(** [func (r *ClusterClaim) ValidateCreate() error] *)
Definition ValidateCreate (r : ClusterClaim) : option error := None.

(** [func (r *ClusterClaim) ValidateUpdate(old runtime.Object) error] *)
Definition ValidateUpdate (r old : ClusterClaim) : option error :=
  let oldClusterClaim := old in
  if negb (IsZero (DeletionTimestamp (ObjectMeta r))) then None
  else if String.eqb (Phase (Status oldClusterClaim)) "Approved"
       || String.eqb (Phase (Status oldClusterClaim)) "Rejected"
       || String.eqb (Phase (Status oldClusterClaim)) "ClusterDeleted"
  then
    if negb (DeepEqual (Spec oldClusterClaim) (Spec r))
    then Some (PlainError "Cannot modify clusterClaim after approval")
    else None
  else None.

(** [func (r *ClusterClaim) ValidateDelete() error] *)
Definition ValidateDelete (r : ClusterClaim) : option error := None.

End Webhook.
Arguments ClusterClaim : clear implicits.
End claimv1alpha1.

(* ===================================================================== *)
(** ** apis/cluster/v1alpha1: ClusterRegistration and ClusterManager *)
(* ===================================================================== *)

(** The structs of [clusterv1alpha1] are declared outside the embedded
    sources; the records hold the fields the controllers read and write. *)
Record ClusterRegistrationSpec : Type := mkRegistrationSpec {
  ClusterName : string;
  KubeConfig : string
}.

(** [ClusterRegistrationStatus]: both fields are strings in the sources
    ([Status.Phase] is compared with string literals and assigned the
    conversion of a typed phase). *)
Record ClusterRegistrationStatus : Type := mkRegistrationStatus {
  Phase : string;
  Reason : string
}.

Abbreviation ClusterRegistration :=
  (Object ClusterRegistrationSpec ClusterRegistrationStatus).

(** [ClusterManagerStatus], the field the endpoint phase maintains. *)
Record ClusterManagerStatus : Type := mkManagerStatus {
  ControlPlaneEndpoint : string
}.

(** [ClusterManagerSpec] is only ever built as the empty struct literal. *)
Abbreviation ClusterManager := (Object unit ClusterManagerStatus).

(** Modelled from the spec: the typed phase constants of [clusterv1alpha1]
    are declared outside the embedded sources; the spec lists the phase
    values [Validated], [SecretCreated], [Success], [Failed] and [Deleted]. *)
Definition ClusterRegistrationPhaseValidated : string := "Validated".

(** Modelled from the spec: the phase value [SecretCreated]. *)
Definition ClusterRegistrationPhaseSecretCreated : string := "SecretCreated".

(** Modelled from the spec: the phase value [Success]. *)
Definition ClusterRegistrationPhaseSuccess : string := "Success".

(** Modelled from the spec: the phase value [Failed]. *)
Definition ClusterRegistrationPhaseFailed : string := "Failed".

(** Modelled from the spec: the phase value [Deleted]. *)
Definition ClusterRegistrationPhaseDeleted : string := "Deleted".

(** Modelled from the spec: the typed reason constants of [clusterv1alpha1]
    are declared outside the embedded sources; the spec lists
    [InvalidKubeconfig], [ClusterNotFound] and [ClusterNameDuplicated]. *)
Definition ClusterRegistrationReasonInvalidKubeconfig : string := "InvalidKubeconfig".

(** Modelled from the spec: the reason value [ClusterNotFound]. *)
Definition ClusterRegistrationReasonClusterNotFound : string := "ClusterNotFound".

(** Modelled from the spec: the reason value [ClusterNameDuplicated]. *)
Definition ClusterRegistrationReasonClusterNameDuplicated : string := "ClusterNameDuplicated".

(** Modelled from the spec: [SetTypedPhase] of [ClusterRegistrationStatus]
    (declared with the type, outside the embedded sources) stores the string
    of the typed phase in [Status.Phase]. *)
Definition SetTypedPhase (p : string) (cr : ClusterRegistration) : ClusterRegistration :=
  mkObject (ObjectMeta cr) (Spec cr) (mkRegistrationStatus p (Reason (Status cr))).

(** Modelled from the spec: [SetTypedReason] stores the string of the typed
    reason in [Status.Reason]. *)
Definition SetTypedReason (r : string) (cr : ClusterRegistration) : ClusterRegistration :=
  mkObject (ObjectMeta cr) (Spec cr) (mkRegistrationStatus (Phase (Status cr)) r).

(** [corev1.Secret] *)
Record Secret : Type := mkSecret {
  secret_ObjectMeta : metav1_ObjectMeta;
  Data : gmap string string;
  StringData : gmap string string
}.

Definition secretKey (s : Secret) : NamespacedName :=
  (Namespace (secret_ObjectMeta s), Name (secret_ObjectMeta s)).

(** [clientcmdapi.Config]: the maps hold pointers in Go; an absent key reads
    as a nil pointer. *)
Record api_Context : Type := mkContext { Cluster : string }.
Record api_Cluster : Type := mkCluster { Server : string }.
Record api_Config : Type := mkConfig {
  CurrentContext : string;
  Contexts : gmap string api_Context;
  Clusters : gmap string api_Cluster
}.

(** A client set for a remote cluster; only its identity matters here. *)
Inductive Clientset : Type := RemoteClientset (id : nat).

(** [corev1.NodeList]: [Items] is [None] for a nil slice. *)
Record NodeList : Type := mkNodeList { Items : option (list string) }.

#[global] Instance StatusReason_eq_dec : EqDecision StatusReason.
Proof. solve_decision. Defined.
#[global] Instance metav1_ObjectMeta_eq_dec : EqDecision metav1_ObjectMeta.
Proof. solve_decision. Defined.
#[global] Instance ClusterRegistrationSpec_eq_dec : EqDecision ClusterRegistrationSpec.
Proof. solve_decision. Defined.
#[global] Instance ClusterRegistrationStatus_eq_dec : EqDecision ClusterRegistrationStatus.
Proof. solve_decision. Defined.
#[global] Instance ClusterManagerStatus_eq_dec : EqDecision ClusterManagerStatus.
Proof. solve_decision. Defined.
#[global] Instance Object_eq_dec {SpecT StatusT : Type}
  `{EqDecision SpecT} `{EqDecision StatusT} : EqDecision (Object SpecT StatusT).
Proof. solve_decision. Defined.

(* ===================================================================== *)
(** ** controllers/util: constants *)
(* ===================================================================== *)

(** Modelled from the spec: the string constants of package [util], which is
    not among the embedded sources.  The spec fixes the secret name as
    [<clusterName>-kubeconfig]. *)
Definition KubeconfigSuffix : string := "-kubeconfig".

(** Modelled from the spec: the cluster-type label value [registered]. *)
Definition ClusterTypeRegistered : string := "registered".

(** Modelled from the spec: the key of the cluster-type label. *)
Definition LabelKeyClmClusterType : string := "cluster-type".

(** Modelled from the spec: the key of the parent-link label, which carries
    the name of the onboarding resource. *)
Definition LabelKeyClmParent : string := "parent-link".

(** Modelled from the spec: the key of the owner annotation. *)
Definition AnnotationKeyOwner : string := "owner".

(** Modelled from the spec: the key of the creator annotation. *)
Definition AnnotationKeyCreator : string := "creator".

(** Modelled from the spec: the key of the annotation that carries the
    external-system secret name. *)
Definition AnnotationKeyArgoClusterSecret : string := "external-secret-name".

(** Modelled from the spec: the key of the annotation that carries the
    discovered endpoint. *)
Definition AnnotationKeyClmApiserverEndpoint : string := "endpoint".

(** Modelled from the spec: the key of the annotation that carries the
    cluster DNS suffix. *)
Definition AnnotationKeyClmDns : string := "dns-suffix".

(** Modelled from the spec: the finalizer reserved for the secret
    controller. *)
Definition SecretFinalizer : string := "secret-finalizer".

(* ===================================================================== *)
(** ** Strings: the endpoint pattern, slicing and [strings.Split] *)
(* ===================================================================== *)

(** The character class [[0-9a-zA-Z./-]] of the pattern in
    [CreateClusterManager]. *)
Definition isEndpointChar (c : ascii) : bool :=
  let n := nat_of_ascii c in
  ((48 <=? n)%nat && (n <=? 57)%nat)
  || ((97 <=? n)%nat && (n <=? 122)%nat)
  || ((65 <=? n)%nat && (n <=? 90)%nat)
  || (n =? 46)%nat || (n =? 47)%nat || (n =? 45)%nat.

Fixpoint takeWhile (p : ascii → bool) (s : string) : string :=
  match s with
  | EmptyString => EmptyString
  | String c t => if p c then String c (takeWhile p t) else EmptyString
  end.

Fixpoint dropString (n : nat) (s : string) : string :=
  match n, s with
  | O, _ => s
  | S n', String _ t => dropString n' t
  | S _, EmptyString => EmptyString
  end.

(** A match of [https://[0-9a-zA-Z./-]+] anchored at the start of [s]: the
    literal, then the longest non-empty run of class characters. *)
Definition matchEndpointHere (s : string) : option string :=
  if String.prefix "https://" s then
    match takeWhile isEndpointChar (dropString 8 s) with
    | EmptyString => None
    | body => Some ("https://" ++ body)
    end
  else None.

(** [regexp.MustCompile("https://[0-9a-zA-Z./-]+").FindString]: the leftmost
    match, or the empty string when nothing matches. *)
Fixpoint FindString (s : string) : string :=
  match matchEndpointHere s with
  | Some m => m
  | None =>
    match s with
    | EmptyString => EmptyString
    | String _ t => FindString t
    end
  end.

(** The Go slice expression [s[n:]]: [None] is the run-time panic "slice
    bounds out of range". *)
Definition sliceFrom (s : string) (n : nat) : option string :=
  if (n <=? String.length s)%nat then Some (dropString n s) else None.

(** [strings.Split(s, sep)[0]] for a non-empty [sep]: the text before the
    first occurrence of [sep], the whole of [s] when there is none. *)
Fixpoint splitHead (sep s : string) : string :=
  if String.prefix sep s then EmptyString
  else
    match s with
    | EmptyString => EmptyString
    | String c t => String c (splitHead sep t)
    end.

(* ===================================================================== *)
(** ** The environment of the controllers *)
(* ===================================================================== *)

Inductive Kind : Type := KindClusterRegistration | KindClusterManager | KindSecret.
Inductive Verb : Type := VerbGet | VerbCreate | VerbPatch | VerbStatusUpdate.

(** Library calls and the functions of package [util], which is not among
    the embedded sources.  Every field is what the call returns for its
    arguments; nothing is assumed about it. *)
Record Env : Type := mkEnv {
  (** [b64.StdEncoding.DecodeString]: the decoded bytes and the error. *)
  b64_DecodeString : string → string * option error;
  (** Modelled from the spec: [util.GetRemoteK8sClientByKubeConfig] (the
      remote cluster gateway) returns a client for the raw credential bytes or
      fails; it never returns a partially initialised client. *)
  util_GetRemoteK8sClientByKubeConfig : string → Clientset + error;
  (** [clientset.CoreV1().Nodes().List] on the remote cluster. *)
  Nodes_List : Clientset → NodeList * option error;
  (** [clientcmd.Load] *)
  clientcmd_Load : string → api_Config + error;
  (** Modelled from the spec: [util.URIToSecretName] derives the name of the
      external-system secret from the server URI, or fails to parse it. *)
  util_URIToSecretName : string → string → string * option error;
  (** Modelled from the spec: [util.Insert] registers the new tracking
      resource in the external membership index, or fails. *)
  util_Insert : ClusterManager → option error;
  (** [os.Getenv] *)
  os_Getenv : string → string;
  (** [strings.EqualFold] *)
  strings_EqualFold : string → string → bool;
  (** [util.LowestNonZeroResult], whose code is not among the embedded
      sources: how the results of two phases are merged. *)
  util_LowestNonZeroResult : Result → Result → Result;
  (** [patch.NewHelper]: the error it returns for an object, if any. *)
  patch_NewHelper : Kind → NamespacedName → option error;
  (** The error with which the API server, or the client's cache, answers a
      request instead of serving it (conflict, time-out, stale read, ...). *)
  api_fault : Verb → Kind → NamespacedName → option error
}.

(** Calls issued by the controllers, recorded in order. *)
Inductive Call : Type :=
| CallDecodeString
| CallGetRemoteK8sClient
| CallNodesList
| CallLoad
| CallURIToSecretName
| CallInsert (key : NamespacedName)
| CallAPI (v : Verb) (k : Kind) (key : NamespacedName).

(** The state outside the controller process: the objects held by the API
    server, the external membership table written by [util.Insert], and the
    record of calls made so far. *)
Record World : Type := mkWorld {
  clusterRegistrations : gmap NamespacedName ClusterRegistration;
  clusterManagers : gmap NamespacedName ClusterManager;
  secrets : gmap NamespacedName Secret;
  cluster_member : list ClusterManager;
  calls : list Call
}.

(** The state monad of the controllers. *)
Definition M (A : Type) : Type := World → A * World.

Definition ret {A : Type} (a : A) : M A := λ w, (a, w).

Definition bind {A B : Type} (m : M A) (k : A → M B) : M B :=
  λ w, let (a, w') := m w in k a w'.

Notation "'let*' x ':=' m 'in' k" := (bind m (λ x, k))
  (at level 10, x pattern, m at level 100, k at level 200, only parsing).

Definition logCall (c : Call) : M unit :=
  λ w, (tt, mkWorld (clusterRegistrations w) (clusterManagers w) (secrets w)
                    (cluster_member w) (calls w ++ [c])).

(* ===================================================================== *)
(** ** The client: reads and writes against the API server *)
(* ===================================================================== *)

Definition notFound : error := StatusError StatusReasonNotFound "not found".
Definition alreadyExists : error := StatusError StatusReasonAlreadyExists "already exists".

(** [r.Get(ctx, key, obj)]: the object read, or the error. *)
Definition apiGet {A : Type} (E : Env) (k : Kind)
    (store : World → gmap NamespacedName A) (key : NamespacedName) : M (A + error) :=
  let* _ := logCall (CallAPI VerbGet k key) in
  λ w, match api_fault E VerbGet k key with
       | Some e => (inr e, w)
       | None =>
         match store w !! key with
         | Some o => (inl o, w)
         | None => (inr notFound, w)
         end
       end.

Definition getClusterRegistration (E : Env) : NamespacedName → M (ClusterRegistration + error) :=
  apiGet E KindClusterRegistration clusterRegistrations.
Definition getClusterManager (E : Env) : NamespacedName → M (ClusterManager + error) :=
  apiGet E KindClusterManager clusterManagers.
Definition getSecret (E : Env) : NamespacedName → M (Secret + error) :=
  apiGet E KindSecret secrets.

(** [r.Create(ctx, secret)] *)
Definition createSecret (E : Env) (s : Secret) : M (option error) :=
  let* _ := logCall (CallAPI VerbCreate KindSecret (secretKey s)) in
  λ w, match api_fault E VerbCreate KindSecret (secretKey s) with
       | Some e => (Some e, w)
       | None =>
         match secrets w !! secretKey s with
         | Some _ => (Some alreadyExists, w)
         | None =>
           (None, mkWorld (clusterRegistrations w) (clusterManagers w)
                          (<[secretKey s := s]> (secrets w))
                          (cluster_member w) (calls w))
         end
       end.

(** [r.Create(ctx, clm)] *)
Definition createClusterManager (E : Env) (clm : ClusterManager) : M (option error) :=
  let* _ := logCall (CallAPI VerbCreate KindClusterManager (keyOf clm)) in
  λ w, match api_fault E VerbCreate KindClusterManager (keyOf clm) with
       | Some e => (Some e, w)
       | None =>
         match clusterManagers w !! keyOf clm with
         | Some _ => (Some alreadyExists, w)
         | None =>
           (None, mkWorld (clusterRegistrations w)
                          (<[keyOf clm := clm]> (clusterManagers w))
                          (secrets w) (cluster_member w) (calls w))
         end
       end.

(** Writing the status of a stored ClusterRegistration; the rest of the
    stored object is kept. *)
Definition writeRegistrationStatus (v : Verb) (E : Env) (cr : ClusterRegistration)
    : M (option error) :=
  let* _ := logCall (CallAPI v KindClusterRegistration (keyOf cr)) in
  λ w, match api_fault E v KindClusterRegistration (keyOf cr) with
       | Some e => (Some e, w)
       | None =>
         match clusterRegistrations w !! keyOf cr with
         | None => (Some notFound, w)
         | Some stored =>
           (None, mkWorld (<[keyOf cr := mkObject (ObjectMeta stored) (Spec stored) (Status cr)]>
                             (clusterRegistrations w))
                          (clusterManagers w) (secrets w) (cluster_member w) (calls w))
         end
       end.

(** [r.Status().Update(ctx, clr)] *)
Definition statusUpdate : Env → ClusterRegistration → M (option error) :=
  writeRegistrationStatus VerbStatusUpdate.

(** [patchHelper.Patch(ctx, obj)] for a helper made from [before]: nothing is
    sent when the object did not change; the controllers change the status
    only, so the patch carries the status. *)
Definition patchClusterRegistration (E : Env) (before after : ClusterRegistration)
    : M (option error) :=
  if decide (before = after) then ret None
  else writeRegistrationStatus VerbPatch E after.

(** [helper.Patch(ctx, clm)] for a helper made from [before]. *)
Definition patchClusterManager (E : Env) (before after : ClusterManager)
    : M (option error) :=
  if decide (before = after) then ret None
  else
    let* _ := logCall (CallAPI VerbPatch KindClusterManager (keyOf after)) in
    λ w, match api_fault E VerbPatch KindClusterManager (keyOf after) with
         | Some e => (Some e, w)
         | None =>
           match clusterManagers w !! keyOf after with
           | None => (Some notFound, w)
           | Some stored =>
             (None, mkWorld (clusterRegistrations w)
                            (<[keyOf after := mkObject (ObjectMeta stored) (Spec stored) (Status after)]>
                               (clusterManagers w))
                            (secrets w) (cluster_member w) (calls w))
           end
         end.

(** The library calls, recorded. *)
Definition decodeString (E : Env) (s : string) : M (string * option error) :=
  let* _ := logCall CallDecodeString in ret (b64_DecodeString E s).

Definition GetRemoteK8sClientByKubeConfig (E : Env) (kubeConfig : string)
    : M (Clientset + error) :=
  let* _ := logCall CallGetRemoteK8sClient in
  ret (util_GetRemoteK8sClientByKubeConfig E kubeConfig).

Definition nodesList (E : Env) (c : Clientset) : M (NodeList * option error) :=
  let* _ := logCall CallNodesList in ret (Nodes_List E c).

Definition Load (E : Env) (data : string) : M (api_Config + error) :=
  let* _ := logCall CallLoad in ret (clientcmd_Load E data).

Definition URIToSecretName (E : Env) (prefix uri : string) : M (string * option error) :=
  let* _ := logCall CallURIToSecretName in ret (util_URIToSecretName E prefix uri).

(** [util.Insert(clm)]: on success the row is in the membership table. *)
Definition Insert (E : Env) (clm : ClusterManager) : M (option error) :=
  let* _ := logCall (CallInsert (keyOf clm)) in
  λ w, match util_Insert E clm with
       | Some e => (Some e, w)
       | None =>
         (None, mkWorld (clusterRegistrations w) (clusterManagers w) (secrets w)
                        (cluster_member w ++ [clm]) (calls w))
       end.

(* ===================================================================== *)
(** ** controllers/cluster: the ClusterRegistration reconciler *)
(* ===================================================================== *)

(** What a phase function, or the phase loop, hands back: the receiver
    object as the call left it, with the returned pair or a panic. *)
Inductive PhaseOutcome : Type :=
| PhaseReturn (cr : ClusterRegistration) (res : Result) (err : option error)
| PhasePanic (cr : ClusterRegistration) (msg : string).

Definition outcomeObject (o : PhaseOutcome) : ClusterRegistration :=
  match o with
  | PhaseReturn cr _ _ => cr
  | PhasePanic cr _ => cr
  end.

Definition nilPointerDereference : string :=
  "invalid memory address or nil pointer dereference".
Definition sliceOutOfRange : string := "slice bounds out of range".

(** Lines 164-185 of [CheckValidation]: the duplication check, reached from
    both branches of the reachability probe that do not return. *)
Definition CheckValidation_duplication (E : Env) (cr : ClusterRegistration)
    : M PhaseOutcome :=
  let clmKey := (Namespace (ObjectMeta cr), ClusterName (Spec cr)) in
  let* g := getClusterManager E clmKey in
  match g with
  | inr err =>
    if IsNotFound err then
      ret (PhaseReturn (SetTypedPhase ClusterRegistrationPhaseValidated cr) ResultZero None)
    else ret (PhaseReturn cr ResultZero (Some err))
  | inl clm =>
    (* [return ctrl.Result{Requeue: false}, err] where [err] is the nil
       error of the successful Get *)
    ret (PhaseReturn
           (SetTypedReason ClusterRegistrationReasonClusterNameDuplicated
              (SetTypedPhase ClusterRegistrationPhaseFailed cr))
           (mkResult false 0) None)
  end.

(** [func (r *ClusterRegistrationReconciler) CheckValidation] *)
Definition CheckValidation (E : Env) (cr : ClusterRegistration) : M PhaseOutcome :=
  if negb (String.eqb (Phase (Status cr)) "") then
    ret (PhaseReturn cr (mkResult false 0) None)
  else
    let* dec := decodeString E (KubeConfig (Spec cr)) in
    match dec with
    | (_, Some err) =>
      ret (PhaseReturn
             (SetTypedReason ClusterRegistrationReasonInvalidKubeconfig
                (SetTypedPhase ClusterRegistrationPhaseFailed cr))
             (mkResult false 0) (Some err))
    | (encodedKubeConfig, None) =>
      let* rc := GetRemoteK8sClientByKubeConfig E encodedKubeConfig in
      match rc with
      | inr err =>
        ret (PhaseReturn
               (SetTypedReason ClusterRegistrationReasonInvalidKubeconfig
                  (SetTypedPhase ClusterRegistrationPhaseFailed cr))
               (mkResult false 0) (Some err))
      | inl remoteClientset =>
        let* nl := nodesList E remoteClientset in
        match nl with
        | (nodeList, Some _) =>
          match Items nodeList with
          | None =>
            ret (PhaseReturn
                   (SetTypedReason ClusterRegistrationReasonClusterNotFound
                      (SetTypedPhase ClusterRegistrationPhaseFailed cr))
                   (mkResult false 0) None)
          | Some _ => CheckValidation_duplication E cr
          end
        | (_, None) => CheckValidation_duplication E cr
        end
      end
    end.

(** [kubeConfig.Clusters[kubeConfig.Contexts[kubeConfig.CurrentContext].Cluster].Server]:
    [None] when one of the two map reads yields a nil pointer, whose field
    access panics. *)
Definition currentServer (kubeConfig : api_Config) : option string :=
  match Contexts kubeConfig !! CurrentContext kubeConfig with
  | None => None
  | Some context =>
    match Clusters kubeConfig !! Cluster context with
    | None => None
    | Some cluster => Some (Server cluster)
    end
  end.

(** [func (r *ClusterRegistrationReconciler) CreateKubeconfigSecret] *)
Definition CreateKubeconfigSecret (E : Env) (cr : ClusterRegistration) : M PhaseOutcome :=
  if negb (String.eqb (Phase (Status cr)) ClusterRegistrationPhaseValidated) then
    ret (PhaseReturn cr ResultZero None)
  else
    let* dec := decodeString E (KubeConfig (Spec cr)) in
    let decodedKubeConfig := fst dec in
    let* loaded := Load E decodedKubeConfig in
    match loaded with
    | inr err => ret (PhaseReturn cr ResultZero (Some err))
    | inl kubeConfig =>
      match currentServer kubeConfig with
      | None => ret (PhasePanic cr nilPointerDereference)
      | Some serverURI =>
        let* named := URIToSecretName E "cluster" serverURI in
        match named with
        | (_, Some err) => ret (PhaseReturn cr ResultZero (Some err))
        | (argoSecretName, None) =>
          let kubeconfigSecretName := ClusterName (Spec cr) ++ KubeconfigSuffix in
          let kubeconfigSecretKey := (Namespace (ObjectMeta cr), kubeconfigSecretName) in
          let* g := getSecret E kubeconfigSecretKey in
          match g with
          | inr err =>
            if IsNotFound err then
              let creator := mapGet (Annotations (ObjectMeta cr)) AnnotationKeyCreator in
              let kubeconfigSecret :=
                mkSecret
                  (mkMeta kubeconfigSecretName (Namespace (ObjectMeta cr))
                     (<[AnnotationKeyArgoClusterSecret := argoSecretName]>
                        (<[AnnotationKeyCreator := creator]>
                           (<[AnnotationKeyOwner := creator]> ∅)))
                     ∅ [SecretFinalizer] None)
                  ∅ (<["value" := decodedKubeConfig]> ∅) in
              let* cerr := createSecret E kubeconfigSecret in
              match cerr with
              | Some err => ret (PhaseReturn cr ResultZero (Some err))
              | None =>
                ret (PhaseReturn (SetTypedPhase ClusterRegistrationPhaseSecretCreated cr)
                       ResultZero None)
              end
            else ret (PhaseReturn cr ResultZero (Some err))
          | inl _ =>
            ret (PhaseReturn (SetTypedPhase ClusterRegistrationPhaseSecretCreated cr)
                   ResultZero None)
          end
        end
      end
    end.

(** [func (r *ClusterRegistrationReconciler) CreateClusterManager] *)
Definition CreateClusterManager (E : Env) (cr : ClusterRegistration) : M PhaseOutcome :=
  if negb (String.eqb (Phase (Status cr)) ClusterRegistrationPhaseSecretCreated) then
    ret (PhaseReturn cr ResultZero None)
  else
    let* dec := decodeString E (KubeConfig (Spec cr)) in
    let decodedKubeConfig := fst dec in
    match sliceFrom (FindString decodedKubeConfig) (String.length "https://") with
    | None => ret (PhasePanic cr sliceOutOfRange)
    | Some endpoint =>
      let clmKey := (Namespace (ObjectMeta cr), ClusterName (Spec cr)) in
      let* g := getClusterManager E clmKey in
      match g with
      | inr err =>
        if IsNotFound err then
          let creator := mapGet (Annotations (ObjectMeta cr)) AnnotationKeyCreator in
          let clm : ClusterManager :=
            mkObject
              (mkMeta (ClusterName (Spec cr)) (Namespace (ObjectMeta cr))
                 (<[AnnotationKeyClmDns := os_Getenv E "HC_DOMAIN"]>
                    (<[AnnotationKeyClmApiserverEndpoint := endpoint]>
                       (<[AnnotationKeyCreator := creator]>
                          (<[AnnotationKeyOwner := creator]> ∅))))
                 (<[LabelKeyClmParent := Name (ObjectMeta cr)]>
                    (<[LabelKeyClmClusterType := ClusterTypeRegistered]> ∅))
                 [] None)
              tt (mkManagerStatus "") in
          let* cerr := createClusterManager E clm in
          match cerr with
          | Some err => ret (PhaseReturn cr ResultZero (Some err))
          | None =>
            let* ierr := Insert E clm in
            match ierr with
            | Some err => ret (PhaseReturn cr ResultZero (Some err))
            | None =>
              ret (PhaseReturn (SetTypedPhase ClusterRegistrationPhaseSuccess cr)
                     ResultZero None)
            end
          end
        else ret (PhaseReturn cr ResultZero (Some err))
      | inl _ =>
        ret (PhaseReturn (SetTypedPhase ClusterRegistrationPhaseSuccess cr) ResultZero None)
      end
    end.

(** The loop of [reconcile] over the remaining [phases], with the loop
    variables [res] and [errs].  A phase that returns an error does not stop
    the loop: the later phases are still called, only their results are no
    longer merged.  A panic leaves the loop. *)
Fixpoint runPhases (E : Env) (phases : list (ClusterRegistration → M PhaseOutcome))
    (cr : ClusterRegistration) (res : Result) (errs : list error) : M PhaseOutcome :=
  match phases with
  | [] => ret (PhaseReturn cr res (NewAggregate errs))
  | phase :: rest =>
    let* o := phase cr in
    match o with
    | PhasePanic cr' msg => ret (PhasePanic cr' msg)
    | PhaseReturn cr' phaseResult err =>
      let errs' := match err with Some e => (errs ++ [e])%list | None => errs end in
      if (0 <? length errs')%nat then runPhases E rest cr' res errs'
      else runPhases E rest cr' (util_LowestNonZeroResult E res phaseResult) errs'
    end
  end.

(** [func (r *ClusterRegistrationReconciler) reconcile] *)
Definition reconcile (E : Env) (cr : ClusterRegistration) : M PhaseOutcome :=
  let phases := [CheckValidation E; CreateKubeconfigSecret E; CreateClusterManager E] in
  runPhases E phases cr ResultZero [].

(** [func (r *ClusterRegistrationReconciler) reconcilePhase] *)
Definition reconcilePhase (cr : ClusterRegistration) : ClusterRegistration :=
  if String.eqb (Phase (Status cr)) "validated"
  then SetTypedPhase ClusterRegistrationPhaseSuccess cr
  else cr.

(** What a whole controller method hands back. *)
Inductive Outcome : Type :=
| Returned (res : Result) (err : option error)
| Panicked (msg : string).

(** [func (r *ClusterRegistrationReconciler) Reconcile].  The deferred
    function runs when the body returns and when it panics; a failing patch
    overwrites the named result [reterr]. *)
Definition Reconcile (E : Env) (req : NamespacedName) : M Outcome :=
  let* g := getClusterRegistration E req in
  match g with
  | inr err =>
    if IsNotFound err then ret (Returned ResultZero None)
    else ret (Returned ResultZero (Some err))
  | inl ClusterRegistration0 =>
    match patch_NewHelper E KindClusterRegistration (keyOf ClusterRegistration0) with
    | Some err => ret (Returned ResultZero (Some err))
    | None =>
      let* body := reconcile E ClusterRegistration0 in
      let* perr :=
        patchClusterRegistration E ClusterRegistration0
          (reconcilePhase (outcomeObject body)) in
      match body with
      | PhasePanic _ msg => ret (Panicked msg)
      | PhaseReturn _ res reterr =>
        match perr with
        | Some err => ret (Returned res (Some err))
        | None => ret (Returned res reterr)
        end
      end
    end
  end.

(** [func (r *ClusterRegistrationReconciler)
    requeueClusterRegistrationsForClusterManager]: the requests it returns
    (always none). *)
Definition requeueClusterRegistrationsForClusterManager (E : Env) (o : ClusterManager)
    : M (list NamespacedName) :=
  let clm := o in
  let key := (Namespace (ObjectMeta clm), mapGet (Labels (ObjectMeta clm)) LabelKeyClmParent) in
  let* g := getClusterRegistration E key in
  match g with
  | inr err => if IsNotFound err then ret [] else ret []
  | inl clr =>
    if negb (String.eqb (Phase (Status clr)) "Success") then ret []
    else
      let clr' := mkObject (ObjectMeta clr) (Spec clr)
                    (mkRegistrationStatus "Deleted" "cluster is deleted") in
      let* err := statusUpdate E clr' in
      match err with
      | Some _ => ret []
      | None => ret []
      end
  end.

(** The event filter of [SetupWithManager] on ClusterRegistration events. *)
Definition registration_CreateFunc (clr : ClusterRegistration) : bool :=
  if String.eqb (Phase (Status clr)) "" then true else false.
Definition registration_UpdateFunc (old new : ClusterRegistration) : bool := false.
Definition registration_DeleteFunc (clr : ClusterRegistration) : bool := false.
Definition registration_GenericFunc (clr : ClusterRegistration) : bool := false.

(** The predicate of the watch on ClusterManager in [SetupWithManager]. *)
Definition manager_UpdateFunc (old new : ClusterManager) : bool := false.
Definition manager_CreateFunc (clm : ClusterManager) : bool := false.
Definition manager_GenericFunc (clm : ClusterManager) : bool := false.
Definition manager_DeleteFunc (clm : ClusterManager) : bool :=
  match Labels (ObjectMeta clm) !! LabelKeyClmClusterType with
  | Some val => if String.eqb val ClusterTypeRegistered then true else false
  | None => false
  end.

(** A delete event of the ClusterManager watch: the map function is called
    for the events the predicate lets through. *)
Definition onClusterManagerDeleted (E : Env) (clm : ClusterManager)
    : M (list NamespacedName) :=
  if manager_DeleteFunc clm then requeueClusterRegistrationsForClusterManager E clm
  else ret [].

(* ===================================================================== *)
(** ** controllers: the SecretReconciler's endpoint phase *)
(* ===================================================================== *)

(** [func (r *SecretReconciler) UpdateClusterManagerControlPlaneEndpoint].
    The helper's error is dropped; the deferred patch then runs on a nil
    helper.  An error of the deferred patch is logged only. *)
Definition UpdateClusterManagerControlPlaneEndpoint (E : Env) (secret : Secret) : M Outcome :=
  let* loaded := Load E (mapGet (Data secret) "value") in
  match loaded with
  | inr err => ret (Returned ResultZero (Some err))
  | inl kubeConfig =>
    let key := (Namespace (secret_ObjectMeta secret),
                splitHead KubeconfigSuffix (Name (secret_ObjectMeta secret))) in
    let* g := getClusterManager E key in
    match g with
    | inr err =>
      if IsNotFound err then ret (Returned ResultZero None)
      else ret (Returned ResultZero (Some err))
    | inl clm =>
      match currentServer kubeConfig with
      | None => ret (Panicked nilPointerDereference)
      | Some server =>
        if negb (strings_EqualFold E (ControlPlaneEndpoint (Status clm)) server) then
          let clm' : ClusterManager :=
            mkObject (ObjectMeta clm) (Spec clm) (mkManagerStatus server) in
          match patch_NewHelper E KindClusterManager (keyOf clm) with
          | Some _ => ret (Panicked nilPointerDereference)
          | None =>
            let* _ := patchClusterManager E clm clm' in
            ret (Returned ResultZero None)
          end
        else ret (Returned ResultZero None)
      end
    end
  end.

(* ===================================================================== *)
(** ** k8s.io/api/rbac/v1 and the API of a remote cluster *)
(* ===================================================================== *)

(** The constants of [rbacv1] that the sources name. *)
Definition rbacv1_GroupName : string := "rbac.authorization.k8s.io".
Definition rbacv1_UserKind : string := "User".
Definition rbacv1_ServiceAccountKind : string := "ServiceAccount".
Definition rbacv1_VerbAll : string := "*".
Definition rbacv1_ResourceAll : string := "*".
Definition rbacv1_APIGroupAll : string := "*".
Definition rbacv1_NonResourceAll : string := "*".

(** [rbacv1.PolicyRule]; a field the literal leaves out is the nil slice. *)
Record rbacv1_PolicyRule : Type := mkPolicyRule {
  APIGroups : list string;
  Resources : list string;
  NonResourceURLs : list string;
  Verbs : list string
}.

(** [rbacv1.ClusterRole] *)
Record rbacv1_ClusterRole : Type := mkClusterRole {
  clusterRole_ObjectMeta : metav1_ObjectMeta;
  Rules : list rbacv1_PolicyRule
}.

(** [rbacv1.RoleRef] *)
Record rbacv1_RoleRef : Type := mkRoleRef {
  roleRef_APIGroup : string;
  roleRef_Kind : string;
  roleRef_Name : string
}.

(** [rbacv1.Subject] *)
Record rbacv1_Subject : Type := mkSubject {
  subject_Kind : string;
  subject_APIGroup : string;
  subject_Name : string;
  subject_Namespace : string
}.

(** [rbacv1.ClusterRoleBinding] *)
Record rbacv1_ClusterRoleBinding : Type := mkClusterRoleBinding {
  clusterRoleBinding_ObjectMeta : metav1_ObjectMeta;
  RoleRef : rbacv1_RoleRef;
  Subjects : list rbacv1_Subject
}.

(** [corev1.ServiceAccount] *)
Record corev1_ServiceAccount : Type := mkServiceAccount {
  serviceAccount_ObjectMeta : metav1_ObjectMeta
}.

(** [metav1.ObjectMeta{Name: name}] *)
Definition metaNamed (name : string) : metav1_ObjectMeta := mkMeta name "" ∅ ∅ [] None.

(** The resources of a remote cluster that the secret controller reads and
    creates. *)
Inductive RemoteKind : Type :=
| KindClusterRoleBinding
| KindClusterRole
| KindServiceAccount.

#[global] Instance RemoteKind_eq_dec : EqDecision RemoteKind.
Proof. solve_decision. Defined.

#[global] Instance RemoteKind_countable : Countable RemoteKind.
Proof.
  refine (inj_countable'
            (λ k, match k with
                  | KindClusterRoleBinding => 0%nat
                  | KindClusterRole => 1%nat
                  | KindServiceAccount => 2%nat
                  end)
            (λ n, match n with
                  | O => KindClusterRoleBinding
                  | S O => KindClusterRole
                  | _ => KindServiceAccount
                  end) _).
  intros []; reflexivity.
Defined.

Inductive RemoteObject : Type :=
| ObjClusterRoleBinding (crb : rbacv1_ClusterRoleBinding)
| ObjClusterRole (cr : rbacv1_ClusterRole)
| ObjServiceAccount (sa : corev1_ServiceAccount).

(** The remote cluster a client set talks to. *)
Definition clusterOf (c : Clientset) : nat :=
  match c with RemoteClientset id => id end.

(** An object of a remote cluster is filed under the cluster, the resource,
    and the namespace and name; cluster-scoped objects have the empty
    namespace. *)
Abbreviation RemoteKey := (nat * RemoteKind * NamespacedName)%type.

(** Calls that leave for a remote cluster, recorded in order. *)
Inductive RemoteCall : Type :=
| CallGetRemoteK8sClientOfSecret
| CallRemoteAPI (c : Clientset) (v : Verb) (k : RemoteKind) (key : NamespacedName).

(** The objects held by the API servers of the remote clusters, and the
    record of the calls made to them. *)
Record Remote : Type := mkRemote {
  remote_objects : gmap RemoteKey RemoteObject;
  remote_calls : list RemoteCall
}.

(** What the remote phases of the secret controller depend on besides
    [Env]. *)
Record RemoteEnv : Type := mkRemoteEnv {
  (** Modelled from the spec: [util.GetRemoteK8sClient] builds a client for
      the remote cluster from the credential secret, or fails. *)
  util_GetRemoteK8sClient : Secret → Clientset + error;
  (** The error with which a remote API server answers a request instead of
      serving it. *)
  remote_fault : Clientset → Verb → RemoteKind → NamespacedName → option error;
  (** Modelled from the spec: the names of the GitOps service account, role
      and binding and the two namespaces are fixed constants of package
      [util]; the spec does not give their values, which are left open. *)
  ArgoServiceAccount : string;
  ArgoClusterRole : string;
  ArgoClusterRoleBinding : string;
  ArgoNamespace : string;
  KubeNamespace : string
}.

(** The state monad of the secret controller's remote phases: the local API
    server and the remote clusters. *)
Definition MS (A : Type) : Type := World * Remote → A * (World * Remote).

Definition retS {A : Type} (a : A) : MS A := λ s, (a, s).

Definition bindS {A B : Type} (m : MS A) (k : A → MS B) : MS B :=
  λ s, let (a, s') := m s in k a s'.

Notation "'let+' x ':=' m 'in' k" := (bindS m (λ x, k))
  (at level 10, x pattern, m at level 100, k at level 200, only parsing).

(** A call on the local API server. *)
Definition onLocal {A : Type} (m : M A) : MS A :=
  λ s, let (a, w') := m s.1 in (a, (w', s.2)).

Definition logRemote (c : RemoteCall) : MS unit :=
  λ s, (tt, (s.1, mkRemote (remote_objects s.2) (remote_calls s.2 ++ [c]))).

(** [util.GetRemoteK8sClient(secret)], recorded. *)
Definition GetRemoteK8sClient (RE : RemoteEnv) (secret : Secret) : MS (Clientset + error) :=
  let+ _ := logRemote CallGetRemoteK8sClientOfSecret in
  retS (util_GetRemoteK8sClient RE secret).

(** A [Get] on a remote cluster, as the sources use it: the object is
    dropped, the error is kept. *)
Definition remoteGet (RE : RemoteEnv) (c : Clientset) (k : RemoteKind) (key : NamespacedName)
    : MS (option error) :=
  let+ _ := logRemote (CallRemoteAPI c VerbGet k key) in
  λ s, match remote_fault RE c VerbGet k key with
       | Some e => (Some e, s)
       | None =>
         match remote_objects s.2 !! (clusterOf c, k, key) with
         | Some _ => (None, s)
         | None => (Some notFound, s)
         end
       end.

(** A [Create] on a remote cluster. *)
Definition remoteCreate (RE : RemoteEnv) (c : Clientset) (k : RemoteKind)
    (key : NamespacedName) (o : RemoteObject) : MS (option error) :=
  let+ _ := logRemote (CallRemoteAPI c VerbCreate k key) in
  λ s, match remote_fault RE c VerbCreate k key with
       | Some e => (Some e, s)
       | None =>
         match remote_objects s.2 !! (clusterOf c, k, key) with
         | Some _ => (Some alreadyExists, s)
         | None =>
           (None, (s.1, mkRemote (<[(clusterOf c, k, key) := o]> (remote_objects s.2))
                                 (remote_calls s.2)))
         end
       end.

(** [clientset.RbacV1().ClusterRoleBindings().Get] and [.Create] *)
Definition ClusterRoleBindings_Get (RE : RemoteEnv) (c : Clientset) (name : string)
    : MS (option error) :=
  remoteGet RE c KindClusterRoleBinding ("", name).
Definition ClusterRoleBindings_Create (RE : RemoteEnv) (c : Clientset)
    (crb : rbacv1_ClusterRoleBinding) : MS (option error) :=
  remoteCreate RE c KindClusterRoleBinding ("", Name (clusterRoleBinding_ObjectMeta crb))
    (ObjClusterRoleBinding crb).

(** [clientset.RbacV1().ClusterRoles().Get] and [.Create] *)
Definition ClusterRoles_Get (RE : RemoteEnv) (c : Clientset) (name : string)
    : MS (option error) :=
  remoteGet RE c KindClusterRole ("", name).
Definition ClusterRoles_Create (RE : RemoteEnv) (c : Clientset) (cr : rbacv1_ClusterRole)
    : MS (option error) :=
  remoteCreate RE c KindClusterRole ("", Name (clusterRole_ObjectMeta cr)) (ObjClusterRole cr).

(** [clientset.CoreV1().ServiceAccounts(namespace).Get] and [.Create] *)
Definition ServiceAccounts_Get (RE : RemoteEnv) (c : Clientset) (namespace name : string)
    : MS (option error) :=
  remoteGet RE c KindServiceAccount (namespace, name).
Definition ServiceAccounts_Create (RE : RemoteEnv) (c : Clientset) (namespace : string)
    (sa : corev1_ServiceAccount) : MS (option error) :=
  remoteCreate RE c KindServiceAccount (namespace, Name (serviceAccount_ObjectMeta sa))
    (ObjServiceAccount sa).

(* ===================================================================== *)
(** ** controllers: the remote phases of the SecretReconciler *)
(* ===================================================================== *)

(** [errors.NewBadRequest] *)
Definition NewBadRequest (reason : string) : error := StatusError StatusReasonBadRequest reason.

Section KubeConfig.

(** [clientcmd.ClientConfig] and [rest.Config] are library types of which
    the sources only pass values on. *)
Context {clientcmd_ClientConfig rest_Config : Type}.

(** [clientcmd.NewClientConfigFromBytes] and the method [ClientConfig]. *)
Variable NewClientConfigFromBytes : string → clientcmd_ClientConfig + error.
Variable ClientConfig : clientcmd_ClientConfig → rest_Config + error.

(** [func getKubeConfig(secret corev1.Secret)]: the pair it returns, the
    pointer to a [rest.Config] ([None] is nil) and the error. *)
Definition getKubeConfig (secret : Secret) : option rest_Config * option error :=
  match Data secret !! "value" with
  | Some value =>
    match NewClientConfigFromBytes value with
    | inl clientConfig =>
      match ClientConfig clientConfig with
      | inl restConfig => (Some restConfig, None)
      | inr _ => (None, Some (NewBadRequest "getClientConfig Error"))
      end
    | inr _ => (None, Some (NewBadRequest "getClientConfig Error"))
    end
  | None => (None, Some (NewBadRequest "getClientConfig Error"))
  end.

End KubeConfig.

(** [func createClusterRole(name string, targetGroup []string, verbList
    []string)]: the cluster role it returns a pointer to. *)
Definition createClusterRole (name : string) (targetGroup verbList : list string)
    : rbacv1_ClusterRole :=
  mkClusterRole (metaNamed name)
    [ mkPolicyRule targetGroup [rbacv1_ResourceAll] [] verbList;
      mkPolicyRule ["apiregistration.k8s.io"] [rbacv1_ResourceAll] [] ["get"; "list"; "watch"] ].

(** The slice [targetGroup] of [DeployRolebinding]. *)
Definition targetGroup : list string :=
  [""; "apps"; "autoscaling"; "batch"; "extensions"; "policy"; "networking.k8s.io";
   "snapshot.storage.k8s.io"; "storage.k8s.io"; "apiextensions.k8s.io"; "metrics.k8s.io"].

(** The binding [clusterAdminCRB] that [DeployRolebinding] builds for the
    owner recorded on the tracking resource. *)
Definition clusterAdminCRB (clm : ClusterManager) : rbacv1_ClusterRoleBinding :=
  let owner := mapGet (Annotations (ObjectMeta clm)) AnnotationKeyOwner in
  mkClusterRoleBinding (metaNamed ("cluster-owner-crb-" +:+ owner))
    (mkRoleRef rbacv1_GroupName "ClusterRole" "cluster-admin")
    [mkSubject rbacv1_UserKind rbacv1_GroupName owner ""].

(** The slice [crList] of [DeployRolebinding]. *)
Definition crList : list rbacv1_ClusterRole :=
  [ createClusterRole "developer" targetGroup [rbacv1_VerbAll];
    createClusterRole "guest" targetGroup ["get"; "list"; "watch"] ].

(** The loop of [DeployRolebinding] over [crList]: the error with which the
    function returns from inside the loop, [None] when the loop runs to its
    end. *)
Fixpoint deployClusterRoles (RE : RemoteEnv) (remoteClientset : Clientset)
    (crList : list rbacv1_ClusterRole) : MS (option error) :=
  match crList with
  | [] => retS None
  | targetCr :: rest =>
    let+ err := ClusterRoles_Get RE remoteClientset (Name (clusterRole_ObjectMeta targetCr)) in
    let+ stop :=
      match err with
      | Some e =>
        if IsNotFound e then ClusterRoles_Create RE remoteClientset targetCr
        else retS (Some e)
      | None => retS None
      end in
    match stop with
    | Some e => retS (Some e)
    | None => deployClusterRoles RE remoteClientset rest
    end
  end.

(** [func (r *SecretReconciler) DeployRolebinding] *)
Definition DeployRolebinding (E : Env) (RE : RemoteEnv) (secret : Secret) : MS Outcome :=
  let key := (Namespace (secret_ObjectMeta secret),
              splitHead KubeconfigSuffix (Name (secret_ObjectMeta secret))) in
  let+ g := onLocal (getClusterManager E key) in
  match g with
  | inr err => retS (Returned ResultZero (Some err))
  | inl clm =>
    let+ rc := GetRemoteK8sClient RE secret in
    match rc with
    | inr err => retS (Returned ResultZero (Some err))
    | inl remoteClientset =>
      let clusterAdminCRBName :=
        "cluster-owner-crb-" +:+ mapGet (Annotations (ObjectMeta clm)) AnnotationKeyOwner in
      let+ err := ClusterRoleBindings_Get RE remoteClientset clusterAdminCRBName in
      let+ stop :=
        match err with
        | Some e =>
          if IsNotFound e
          then ClusterRoleBindings_Create RE remoteClientset (clusterAdminCRB clm)
          else retS (Some e)
        | None => retS None
        end in
      match stop with
      | Some e => retS (Returned ResultZero (Some e))
      | None =>
        let+ looped := deployClusterRoles RE remoteClientset crList in
        match looped with
        | Some e => retS (Returned ResultZero (Some e))
        | None => retS (Returned ResultZero None)
        end
      end
    end
  end.

(** The objects [argocdManager], [argocdManagerRole] and
    [argocdManagerRoleBinding] that [DeployArgocdResources] builds. *)
Definition argocdManager (RE : RemoteEnv) : corev1_ServiceAccount :=
  mkServiceAccount (metaNamed (ArgoServiceAccount RE)).

Definition argocdManagerRole (RE : RemoteEnv) : rbacv1_ClusterRole :=
  mkClusterRole (metaNamed (ArgoClusterRole RE))
    [ mkPolicyRule [rbacv1_APIGroupAll] [rbacv1_ResourceAll] [] [rbacv1_VerbAll];
      mkPolicyRule [] [] [rbacv1_NonResourceAll] [rbacv1_VerbAll] ].

Definition argocdManagerRoleBinding (RE : RemoteEnv) : rbacv1_ClusterRoleBinding :=
  mkClusterRoleBinding (metaNamed (ArgoClusterRoleBinding RE))
    (mkRoleRef rbacv1_GroupName "ClusterRole" (ArgoClusterRole RE))
    [mkSubject rbacv1_ServiceAccountKind "" (ArgoServiceAccount RE) (ArgoNamespace RE)].

(** [func (r *SecretReconciler) DeployArgocdResources] *)
Definition DeployArgocdResources (RE : RemoteEnv) (secret : Secret) : MS Outcome :=
  let+ rc := GetRemoteK8sClient RE secret in
  match rc with
  | inr err => retS (Returned ResultZero (Some err))
  | inl remoteClientset =>
    let+ err := ServiceAccounts_Get RE remoteClientset (KubeNamespace RE) (ArgoServiceAccount RE) in
    let+ stop :=
      match err with
      | Some e =>
        if IsNotFound e
        then ServiceAccounts_Create RE remoteClientset (KubeNamespace RE) (argocdManager RE)
        else retS (Some e)
      | None => retS None
      end in
    match stop with
    | Some e => retS (Returned ResultZero (Some e))
    | None =>
      let+ err := ClusterRoles_Get RE remoteClientset (ArgoClusterRole RE) in
      let+ stop :=
        match err with
        | Some e =>
          if IsNotFound e then ClusterRoles_Create RE remoteClientset (argocdManagerRole RE)
          else retS (Some e)
        | None => retS None
        end in
      match stop with
      | Some e => retS (Returned ResultZero (Some e))
      | None =>
        let+ err := ClusterRoleBindings_Get RE remoteClientset (ArgoClusterRoleBinding RE) in
        let+ stop :=
          match err with
          | Some e =>
            if IsNotFound e
            then ClusterRoleBindings_Create RE remoteClientset (argocdManagerRoleBinding RE)
            else retS (Some e)
          | None => retS None
          end in
        match stop with
        | Some e => retS (Returned ResultZero (Some e))
        | None => retS (Returned ResultZero None)
        end
      end
    end
  end.

(* ===================================================================== *)
(** ** Vocabulary of the properties *)
(* ===================================================================== *)

(** The forward order on phases, [""] before [Validated] before
    [SecretCreated] before [Success]; other strings have no rank. *)
Definition phaseRank (p : string) : option nat :=
  if String.eqb p "" then Some 0%nat
  else if String.eqb p ClusterRegistrationPhaseValidated then Some 1%nat
  else if String.eqb p ClusterRegistrationPhaseSecretCreated then Some 2%nat
  else if String.eqb p ClusterRegistrationPhaseSuccess then Some 3%nat
  else None.

Definition terminalPhase (p : string) : bool :=
  String.eqb p ClusterRegistrationPhaseFailed
  || String.eqb p ClusterRegistrationPhaseDeleted.

(** From phase [p] to phase [q] nothing moved backward: two ranked phases are
    in order, and a terminal phase is never left. *)
Definition phaseAdvance (p q : string) : Prop :=
  (∀ a b : nat, phaseRank p = Some a → phaseRank q = Some b → (a ≤ b)%nat)
  ∧ (terminalPhase p = true → q = p).

(** A measure that no call decreases: the rank, with the terminal phases on
    top and unranked strings at the bottom. *)
Definition phaseMeasure (p : string) : nat :=
  match phaseRank p with
  | Some n => n
  | None => if terminalPhase p then 4%nat else 0%nat
  end.

Definition phaseStep (p q : string) : Prop :=
  q = p ∨ (phaseMeasure p < phaseMeasure q)%nat.

(** The calls that work on a ClusterRegistration held in memory. *)
Inductive Invocation : Type :=
| InvokeCheckValidation
| InvokeCreateKubeconfigSecret
| InvokeCreateClusterManager
| InvokeReconcile
| InvokeReconcilePhase.

(** The object after one call, whether the call returned or panicked. *)
Definition invoke (E : Env) (i : Invocation) (cr : ClusterRegistration)
    : M ClusterRegistration :=
  match i with
  | InvokeCheckValidation => let* o := CheckValidation E cr in ret (outcomeObject o)
  | InvokeCreateKubeconfigSecret =>
    let* o := CreateKubeconfigSecret E cr in ret (outcomeObject o)
  | InvokeCreateClusterManager =>
    let* o := CreateClusterManager E cr in ret (outcomeObject o)
  | InvokeReconcile => let* o := reconcile E cr in ret (outcomeObject o)
  | InvokeReconcilePhase => ret (reconcilePhase cr)
  end.

(** A sequence of calls on the same object, each in an environment and a
    world of its own. *)
Fixpoint invokeAll (steps : list (Env * World * Invocation)) (cr : ClusterRegistration)
    : ClusterRegistration :=
  match steps with
  | [] => cr
  | (E, w, i) :: rest => invokeAll rest (fst (invoke E i cr w))
  end.

(** What happens to the stored objects: runs of the controllers, and
    changes made by others to the objects around the registration. *)
Inductive Event : Type :=
| EvReconcile (E : Env) (req : NamespacedName)
| EvClusterManagerDeleted (E : Env) (clm : ClusterManager)
| EvSecretEndpoint (E : Env) (secret : Secret)
| EvPutClusterManager (clm : ClusterManager)
| EvRemoveClusterManager (key : NamespacedName)
| EvPutSecret (s : Secret)
| EvRemoveSecret (key : NamespacedName)
| EvEditSpec (key : NamespacedName) (spec : ClusterRegistrationSpec).

Definition editSpec (spec : ClusterRegistrationSpec) (cr : ClusterRegistration)
    : ClusterRegistration :=
  mkObject (ObjectMeta cr) spec (Status cr).

Definition step (ev : Event) (w : World) : World :=
  match ev with
  | EvReconcile E req => snd (Reconcile E req w)
  | EvClusterManagerDeleted E clm => snd (onClusterManagerDeleted E clm w)
  | EvSecretEndpoint E secret => snd (UpdateClusterManagerControlPlaneEndpoint E secret w)
  | EvPutClusterManager clm =>
    mkWorld (clusterRegistrations w) (<[keyOf clm := clm]> (clusterManagers w))
            (secrets w) (cluster_member w) (calls w)
  | EvRemoveClusterManager key =>
    mkWorld (clusterRegistrations w) (delete key (clusterManagers w))
            (secrets w) (cluster_member w) (calls w)
  | EvPutSecret s =>
    mkWorld (clusterRegistrations w) (clusterManagers w)
            (<[secretKey s := s]> (secrets w)) (cluster_member w) (calls w)
  | EvRemoveSecret key =>
    mkWorld (clusterRegistrations w) (clusterManagers w)
            (delete key (secrets w)) (cluster_member w) (calls w)
  | EvEditSpec key spec =>
    mkWorld (alter (editSpec spec) key (clusterRegistrations w)) (clusterManagers w)
            (secrets w) (cluster_member w) (calls w)
  end.

Fixpoint run (evs : list Event) (w : World) : World :=
  match evs with
  | [] => w
  | ev :: rest => run rest (step ev w)
  end.

(** The stored objects are filed under their own namespace and name. *)
Definition registrationsIndexed (w : World) : Prop :=
  map_Forall (λ k (cr : ClusterRegistration), keyOf cr = k) (clusterRegistrations w).

Definition managersIndexed (w : World) : Prop :=
  map_Forall (λ k (clm : ClusterManager), keyOf clm = k) (clusterManagers w).

(** The stored objects of two worlds agree (the record of calls aside). *)
Definition sameObjects (w w' : World) : Prop :=
  clusterRegistrations w' = clusterRegistrations w
  ∧ clusterManagers w' = clusterManagers w
  ∧ secrets w' = secrets w
  ∧ cluster_member w' = cluster_member w.

(** The API server serves every request of the given kind under [key]. *)
Definition served (E : Env) (k : Kind) (key : NamespacedName) : Prop :=
  ∀ v : Verb, api_fault E v k key = None.

(** The phase moved forward, the object is otherwise as it was, and the
    stored registrations were left alone. *)
Definition forward (a b : ClusterRegistration * World) : Prop :=
  phaseStep (Phase (Status a.1)) (Phase (Status b.1))
  ∧ ObjectMeta b.1 = ObjectMeta a.1
  ∧ Spec b.1 = Spec a.1
  ∧ clusterRegistrations b.2 = clusterRegistrations a.2.

(** Every call of [f] relates the object and world before to those after. *)
Definition respects (R : relation (ClusterRegistration * World))
    (f : ClusterRegistration → M PhaseOutcome) : Prop :=
  ∀ cr w, R (cr, w) (outcomeObject (f cr w).1, (f cr w).2).

(** From one state of the registration store to a later one: the same
    objects are stored, each with its metadata and a phase that moved
    forward. *)
Definition registrationsEvolve (m m' : gmap NamespacedName ClusterRegistration) : Prop :=
  ∀ k, option_Forall2
         (λ cr cr', ObjectMeta cr' = ObjectMeta cr
                    ∧ phaseStep (Phase (Status cr)) (Phase (Status cr')))
         (m !! k) (m' !! k).

(** The residue of a failed registration in the membership index: the
    object [cr1] stands at [SecretCreated], the tracking resource is stored,
    [util.Insert] refuses it, and [cr2] is [cr1] moved to [Success]. *)
Definition registrationLost (E : Env) (w1 : World) (cr1 cr2 : ClusterRegistration) : Prop :=
  Phase (Status cr1) = ClusterRegistrationPhaseSecretCreated
  ∧ cr2 = SetTypedPhase ClusterRegistrationPhaseSuccess cr1
  ∧ ∃ clm, clusterManagers w1 !! (Namespace (ObjectMeta cr1), ClusterName (Spec cr1)) = Some clm
           ∧ util_Insert E clm ≠ None.

(** The object and the world after a call of a phase function. *)
Definition after (f : ClusterRegistration → M PhaseOutcome)
    (x : ClusterRegistration * World) : ClusterRegistration * World :=
  (outcomeObject (f x.1 x.2).1, (f x.1 x.2).2).

(** The idempotence of the pipeline as the spec words it: after a second
    run the status is that of the first, and the stored objects are those
    the first run left. *)
Definition pipelineIdempotent (E : Env) (cr : ClusterRegistration) (w : World) : Prop :=
  let x1 := after (reconcile E) (cr, w) in
  let x2 := after (reconcile E) x1 in
  Status x2.1 = Status x1.1 ∧ sameObjects x1.2 x2.2.

(** A run of the pipeline attempts something when it issues a call. *)
Definition attempts (E : Env) (cr : ClusterRegistration) (w : World) : Prop :=
  calls (reconcile E cr w).2 ≠ calls w.

(** The reading of the spec under which a failed registration is taken up
    again by the next run. *)
Definition failedIsRetried : Prop :=
  ∀ (E : Env) (cr : ClusterRegistration) (w : World),
    Phase (Status cr) = ClusterRegistrationPhaseFailed → attempts E cr w.

(** The reading of the spec under which a run that records a failure
    returns an error. *)
Definition failureIsReturned : Prop :=
  ∀ (E : Env) (cr c : ClusterRegistration) (w : World) (res : Result) (err : option error),
    Phase (Status cr) = "" →
    (reconcile E cr w).1 = PhaseReturn c res err →
    Phase (Status c) = ClusterRegistrationPhaseFailed →
    err ≠ None.

(** The status the map function writes to the parent registration. *)
Definition markedDeleted (parent : ClusterRegistration) : ClusterRegistration :=
  mkObject (ObjectMeta parent) (Spec parent)
           (mkRegistrationStatus "Deleted" "cluster is deleted").

(** The key under which the map function looks for the parent. *)
Definition parentKey (clm : ClusterManager) : NamespacedName :=
  (Namespace (ObjectMeta clm), mapGet (Labels (ObjectMeta clm)) LabelKeyClmParent).

(** The reading of the spec under which the map function's status write is
    never lost: once the parent is read at [Success], either the store shows
    it deleted or a request is returned so that the write is tried again. *)
Definition cascadeWriteKept : Prop :=
  ∀ (E : Env) (clm : ClusterManager) (w : World) (parent : ClusterRegistration),
    registrationsIndexed w →
    api_fault E VerbGet KindClusterRegistration (parentKey clm) = None →
    clusterRegistrations w !! parentKey clm = Some parent →
    Phase (Status parent) = "Success" →
    let r := requeueClusterRegistrationsForClusterManager E clm w in
    clusterRegistrations r.2 !! parentKey clm = Some (markedDeleted parent) ∨ r.1 ≠ [].

(** A kubeconfig whose current context is not declared, or names a cluster
    that is not declared. *)
Definition dangling (kubeConfig : api_Config) : Prop :=
  Contexts kubeConfig !! CurrentContext kubeConfig = None
  ∨ ∃ context, Contexts kubeConfig !! CurrentContext kubeConfig = Some context
               ∧ Clusters kubeConfig !! Cluster context = None.

(** The secret that [CreateKubeconfigSecret] builds for a registration. *)
Definition newKubeconfigSecret (cr : ClusterRegistration) (decodedKubeConfig argoSecretName : string)
    : Secret :=
  mkSecret
    (mkMeta (ClusterName (Spec cr) ++ KubeconfigSuffix) (Namespace (ObjectMeta cr))
       (<[AnnotationKeyArgoClusterSecret := argoSecretName]>
          (<[AnnotationKeyCreator := mapGet (Annotations (ObjectMeta cr)) AnnotationKeyCreator]>
             (<[AnnotationKeyOwner := mapGet (Annotations (ObjectMeta cr)) AnnotationKeyCreator]>
                ∅)))
       ∅ [SecretFinalizer] None)
    ∅ (<["value" := decodedKubeConfig]> ∅).

(** The tracking resource that [CreateClusterManager] builds. *)
Definition newClusterManager (E : Env) (cr : ClusterRegistration) (endpoint : string)
    : ClusterManager :=
  mkObject
    (mkMeta (ClusterName (Spec cr)) (Namespace (ObjectMeta cr))
       (<[AnnotationKeyClmDns := os_Getenv E "HC_DOMAIN"]>
          (<[AnnotationKeyClmApiserverEndpoint := endpoint]>
             (<[AnnotationKeyCreator := mapGet (Annotations (ObjectMeta cr)) AnnotationKeyCreator]>
                (<[AnnotationKeyOwner := mapGet (Annotations (ObjectMeta cr)) AnnotationKeyCreator]>
                   ∅))))
       (<[LabelKeyClmParent := Name (ObjectMeta cr)]>
          (<[LabelKeyClmClusterType := ClusterTypeRegistered]> ∅))
       [] None)
    tt (mkManagerStatus "").

(* ===================================================================== *)
(** ** Vocabulary of the further properties *)
(* ===================================================================== *)

(** [strings.Contains(s, sep)] *)
Fixpoint contains (sep s : string) : bool :=
  if String.prefix sep s then true
  else
    match s with
    | EmptyString => false
    | String _ t => contains sep t
    end.

(** The key under which the phases of the secret controller look for the
    tracking resource of a secret. *)
Definition managerKey (secret : Secret) : NamespacedName :=
  (Namespace (secret_ObjectMeta secret),
   splitHead KubeconfigSuffix (Name (secret_ObjectMeta secret))).

(** From one call of a phase function to its return the stores only grow:
    the object keeps its metadata and spec, no registration is written, every
    secret, tracking resource and membership row is still there, and only the
    secret and the tracking resource named after the cluster can be new. *)
Definition grows (a b : ClusterRegistration * World) : Prop :=
  ObjectMeta b.1 = ObjectMeta a.1
  ∧ Spec b.1 = Spec a.1
  ∧ clusterRegistrations b.2 = clusterRegistrations a.2
  ∧ secrets a.2 ⊆ secrets b.2
  ∧ clusterManagers a.2 ⊆ clusterManagers b.2
  ∧ cluster_member a.2 `prefix_of` cluster_member b.2
  ∧ (∀ k, k ≠ (Namespace (ObjectMeta a.1), ClusterName (Spec a.1) +:+ KubeconfigSuffix) →
          secrets b.2 !! k = secrets a.2 !! k)
  ∧ (∀ k, k ≠ (Namespace (ObjectMeta a.1), ClusterName (Spec a.1)) →
          clusterManagers b.2 !! k = clusterManagers a.2 !! k).

(** Every character of [s] satisfies [p]. *)
Fixpoint allChars (p : ascii → bool) (s : string) : bool :=
  match s with
  | EmptyString => true
  | String c t => p c && allChars p t
  end.

(** [ep] is what the pattern [https://[0-9a-zA-Z./-]+] captures after the
    scheme at its leftmost match in [s]: [s] is [pre], the scheme, [ep] and
    [post]; [ep] is a non-empty run of class characters that [post] does not
    continue; and no match of the pattern starts before the end of [pre]. *)
Definition firstEndpoint (s ep : string) : Prop :=
  ∃ pre post,
    s = pre +:+ "https://" +:+ ep +:+ post
    ∧ ep ≠ ""
    ∧ allChars isEndpointChar ep = true
    ∧ (∀ c post', post = String c post' → isEndpointChar c = false)
    ∧ (∀ pre1 b rest1,
         s = pre1 +:+ "https://" +:+ String b rest1 → isEndpointChar b = true →
         (String.length pre ≤ String.length pre1)%nat).

(** Every result a phase function returns is the zero result. *)
Definition zeroResult (f : ClusterRegistration → M PhaseOutcome) : Prop :=
  ∀ cr w c r e, (f cr w).1 = PhaseReturn c r e → r = ResultZero.

(** A get-or-create block of the remote phases: the resource, the key and
    the object to create when the read answers not-found. *)
Abbreviation RemoteStep := (RemoteKind * NamespacedName * RemoteObject)%type.

(** A row of get-or-create blocks on one remote cluster, each block written
    as in the sources: the first error ends the row. *)
Fixpoint ensureAll (RE : RemoteEnv) (c : Clientset) (steps : list RemoteStep)
    : MS (option error) :=
  match steps with
  | [] => retS None
  | (k, key, o) :: rest =>
    let+ err := remoteGet RE c k key in
    let+ stop :=
      match err with
      | Some e => if IsNotFound e then remoteCreate RE c k key o else retS (Some e)
      | None => retS None
      end in
    match stop with
    | Some e => retS (Some e)
    | None => ensureAll RE c rest
    end
  end.

(** The blocks of [DeployRolebinding] and of [DeployArgocdResources]. *)
Definition rolebindingSteps (clm : ClusterManager) : list RemoteStep :=
  (KindClusterRoleBinding, ("", Name (clusterRoleBinding_ObjectMeta (clusterAdminCRB clm))),
   ObjClusterRoleBinding (clusterAdminCRB clm))
  :: ((λ cr, (KindClusterRole, ("", Name (clusterRole_ObjectMeta cr)), ObjClusterRole cr))
        <$> crList).

Definition argocdSteps (RE : RemoteEnv) : list RemoteStep :=
  [ (KindServiceAccount, (KubeNamespace RE, ArgoServiceAccount RE),
     ObjServiceAccount (argocdManager RE));
    (KindClusterRole, ("", ArgoClusterRole RE), ObjClusterRole (argocdManagerRole RE));
    (KindClusterRoleBinding, ("", ArgoClusterRoleBinding RE),
     ObjClusterRoleBinding (argocdManagerRoleBinding RE)) ].

(** Where a block files its object on the cluster of client [c]. *)
Definition stepKey (c : Clientset) (step : RemoteStep) : RemoteKey :=
  (clusterOf c, step.1.1, step.1.2).

(** The reads of a row of blocks. *)
Definition stepReads (c : Clientset) (steps : list RemoteStep) : list RemoteCall :=
  (λ step : RemoteStep, CallRemoteAPI c VerbGet step.1.1 step.1.2) <$> steps.

(** How a block ends: the object was found, it was created, or the block
    returned an error. *)
Inductive Ensured : Type :=
| Present
| Created
| Refused (e : error) (tried : bool).

Definition tryCreate (RE : RemoteEnv) (c : Clientset) (k : RemoteKind) (key : NamespacedName)
    (stored : bool) : Ensured :=
  match remote_fault RE c VerbCreate k key with
  | Some e => Refused e true
  | None => if stored then Refused alreadyExists true else Created
  end.

Definition ensured (RE : RemoteEnv) (c : Clientset) (k : RemoteKind) (key : NamespacedName)
    (stored : bool) : Ensured :=
  match remote_fault RE c VerbGet k key with
  | Some e => if IsNotFound e then tryCreate RE c k key stored else Refused e false
  | None => if stored then Present else tryCreate RE c k key stored
  end.

Definition has (m : gmap RemoteKey RemoteObject) (K : RemoteKey) : bool :=
  match m !! K with Some _ => true | None => false end.

(** The state a block leaves. *)
Definition ensuredState (c : Clientset) (step : RemoteStep) (r : Ensured)
    (s : World * Remote) : World * Remote :=
  (s.1,
   mkRemote
     match r with
     | Created => <[stepKey c step := step.2]> (remote_objects s.2)
     | _ => remote_objects s.2
     end
     (remote_calls s.2
      ++ CallRemoteAPI c VerbGet step.1.1 step.1.2
         :: match r with
            | Present | Refused _ false => []
            | _ => [CallRemoteAPI c VerbCreate step.1.1 step.1.2]
            end)).

(* ===================================================================== *)
(** ** A concrete environment for examples *)
(* ===================================================================== *)

Module Demo.

(** The value of a character of the standard base64 alphabet. *)
Definition b64Value (c : ascii) : option N :=
  let n := N_of_ascii c in
  if ((65 <=? n) && (n <=? 90))%N then Some (n - 65)%N
  else if ((97 <=? n) && (n <=? 122))%N then Some (n - 71)%N
  else if ((48 <=? n) && (n <=? 57))%N then Some (n + 4)%N
  else if (n =? 43)%N then Some 62%N
  else if (n =? 47)%N then Some 63%N
  else None.

Definition isPad (c : ascii) : bool := (N_of_ascii c =? 61)%N.

Definition byteOf (n : N) : ascii := ascii_of_N (n mod 256).

(** Padded standard base64, four characters at a time; [false] on malformed
    input. *)
Fixpoint decodeQuanta (l : list ascii) : list ascii * bool :=
  match l with
  | [] => ([], true)
  | a :: b :: c :: d :: rest =>
    match b64Value a, b64Value b with
    | Some va, Some vb =>
      let b1 := byteOf (va * 4 + vb / 16) in
      if isPad c then
        if isPad d then match rest with [] => ([b1], true) | _ => ([], false) end
        else ([], false)
      else
        match b64Value c with
        | None => ([], false)
        | Some vc =>
          let b2 := byteOf ((vb mod 16) * 16 + vc / 4) in
          if isPad d then match rest with [] => ([b1; b2], true) | _ => ([], false) end
          else
            match b64Value d with
            | None => ([], false)
            | Some vd =>
              let b3 := byteOf ((vc mod 4) * 64 + vd) in
              let (t, ok) := decodeQuanta rest in (b1 :: b2 :: b3 :: t, ok)
            end
        end
    | _, _ => ([], false)
    end
  | _ => ([], false)
  end.

Definition DecodeString (s : string) : string * option error :=
  let (bytes, ok) := decodeQuanta (list_ascii_of_string s) in
  (string_of_list_ascii bytes,
   if ok then None else Some (PlainError "illegal base64 data")).

(** A kubeconfig whose current context names a cluster with a server. *)
Definition kubeconfigText : string :=
"apiVersion: v1
kind: Config
current-context: admin
contexts:
- name: admin
  context: {cluster: prod, user: admin}
clusters:
- name: prod
  cluster: {server: https://10.0.0.1:6443}
".

Definition kubeconfigBase64 : string :=
  "YXBpVmVyc2lvbjogdjEKa2luZDogQ29uZmlnCmN1cnJlbnQtY29udGV4dDogYWRtaW4KY29udGV4dHM6Ci0gbmFtZTogYWRtaW4KICBjb250ZXh0OiB7Y2x1c3RlcjogcHJvZCwgdXNlcjogYWRtaW59CmNsdXN0ZXJzOgotIG5hbWU6IHByb2QKICBjbHVzdGVyOiB7c2VydmVyOiBodHRwczovLzEwLjAuMC4xOjY0NDN9Cg==".

(** A kubeconfig that names a current context and declares none. *)
Definition danglingText : string :=
"apiVersion: v1
kind: Config
current-context: admin
".

Definition danglingBase64 : string :=
  "YXBpVmVyc2lvbjogdjEKa2luZDogQ29uZmlnCmN1cnJlbnQtY29udGV4dDogYWRtaW4K".

(** [clientcmd.Load] on the texts above; empty data loads as the empty
    configuration. *)
Definition LoadConfig (data : string) : api_Config + error :=
  if String.eqb data kubeconfigText then
    inl (mkConfig "admin" (<["admin" := mkContext "prod"]> ∅)
           (<["prod" := mkCluster "https://10.0.0.1:6443"]> ∅))
  else if String.eqb data danglingText then inl (mkConfig "admin" ∅ ∅)
  else if String.eqb data "" then inl (mkConfig "" ∅ ∅)
  else inr (PlainError "yaml: cannot unmarshal").

Definition foldASCII (c : ascii) : ascii :=
  let n := nat_of_ascii c in
  if ((65 <=? n) && (n <=? 90))%nat then ascii_of_nat (n + 32) else c.

Fixpoint EqualFold (s t : string) : bool :=
  match s, t with
  | EmptyString, EmptyString => true
  | String a s', String b t' =>
    if Ascii.eqb (foldASCII a) (foldASCII b) then EqualFold s' t' else false
  | _, _ => false
  end.

Definition IsZeroResult (r : Result) : bool :=
  negb (Requeue r) && (RequeueAfter r =? 0).

Definition LowestNonZeroResult (i j : Result) : Result :=
  if IsZeroResult i then j
  else if IsZeroResult j then i
  else if Requeue i then i
  else if Requeue j then j
  else if RequeueAfter i <? RequeueAfter j then i else j.

Definition noFault : Verb → Kind → NamespacedName → option error := λ _ _ _, None.

Definition conflict : error := StatusError StatusReasonConflict "the object has been modified".

(** The environment, with the reachability probe, the membership index and
    the API faults left open. *)
Definition env (nodes : NodeList * option error) (insert : option error)
    (fault : Verb → Kind → NamespacedName → option error) : Env :=
  mkEnv DecodeString
        (λ kubeConfig,
           if String.eqb kubeConfig kubeconfigText then inl (RemoteClientset 0)
           else inr (StatusError StatusReasonBadRequest "getClientConfig Error"))
        (λ _, nodes)
        LoadConfig
        (λ prefix uri, ((prefix ++ "-" ++ uri)%string, None))
        (λ _, insert)
        (λ _, "example.org")
        EqualFold
        LowestNonZeroResult
        (λ _ _, None)
        fault.

(** Everything answers. *)
Definition healthy : Env := env (mkNodeList (Some ["node-1"]), None) None noFault.

(** The remote API server does not answer the reachability probe. *)
Definition unreachable : Env :=
  env (mkNodeList None, Some (PlainError "dial tcp 10.0.0.1:6443: i/o timeout")) None noFault.

(** The API server answers every status update with a conflict. *)
Definition conflicted : Env :=
  env (mkNodeList (Some ["node-1"]), None) None
      (λ v _ _, match v with VerbStatusUpdate => Some conflict | _ => None end).

(** The API server answers every patch with a conflict. *)
Definition patchConflicted : Env :=
  env (mkNodeList (Some ["node-1"]), None) None
      (λ v _ _, match v with VerbPatch => Some conflict | _ => None end).

(** The membership index refuses every row. *)
Definition indexDown : Env :=
  env (mkNodeList (Some ["node-1"]), None) (Some (PlainError "cluster_member: insert failed"))
      noFault.

Definition emptyWorld : World := mkWorld ∅ ∅ ∅ [] [].

Definition registration (name clusterName kubeConfig phase reason : string)
    : ClusterRegistration :=
  mkObject (mkMeta name "ns" (<[AnnotationKeyCreator := "alice"]> ∅) ∅ [] None)
           (mkRegistrationSpec clusterName kubeConfig)
           (mkRegistrationStatus phase reason).

Definition fresh : ClusterRegistration := registration "reg" "prod" kubeconfigBase64 "" "".

(** A registration whose credential is not base64, and what validation
    leaves of it. *)
Definition garbled : ClusterRegistration := registration "reg" "prod" "%%%" "" "".
Definition garbledFailed : ClusterRegistration :=
  registration "reg" "prod" "%%%" "Failed" "InvalidKubeconfig".

(** A registration at [SecretCreated] whose credential decodes to a text
    with no https URI, and one at [Validated] whose credential is the
    kubeconfig without contexts. *)
Definition patternless : ClusterRegistration :=
  registration "reg" "prod" "aGVsbG8=" "SecretCreated" "".
Definition contextless : ClusterRegistration :=
  registration "reg" "prod" danglingBase64 "Validated" "".

(** A registration that failed validation earlier. *)
Definition failed : ClusterRegistration :=
  registration "reg" "prod" kubeconfigBase64 "Failed" "ClusterNotFound".

(** An onboarded registration, and the world that stores it. *)
Definition succeeded : ClusterRegistration :=
  registration "reg" "prod" kubeconfigBase64 "Success" "".
Definition onboarded : World := mkWorld (<[("ns", "reg") := succeeded]> ∅) ∅ ∅ [] [].

(** The world in which [fresh] has just been submitted. *)
Definition submitted : World := mkWorld (<[("ns", "reg") := fresh]> ∅) ∅ ∅ [] [].

(** The tracking resource of cluster [prod], as the delete event of the
    watch carries it. *)
Definition manager (endpoint : string) : ClusterManager :=
  mkObject
    (mkMeta "prod" "ns" ∅
       (<[LabelKeyClmParent := "reg"]> (<[LabelKeyClmClusterType := ClusterTypeRegistered]> ∅))
       [] None)
    tt (mkManagerStatus endpoint).

(** The credential secret of cluster [prod], and a world whose tracking
    resource records an endpoint. *)
Definition credential : Secret :=
  mkSecret (mkMeta "prod-kubeconfig" "ns" ∅ ∅ [SecretFinalizer] None)
           (<["value" := kubeconfigText]> ∅) ∅.

(** The same secret holding the kubeconfig without contexts. *)
Definition credentialDangling : Secret :=
  mkSecret (mkMeta "prod-kubeconfig" "ns" ∅ ∅ [SecretFinalizer] None)
           (<["value" := danglingText]> ∅) ∅.

Definition tracked (endpoint : string) : World :=
  mkWorld ∅ (<[("ns", "prod") := manager endpoint]> ∅) ∅ [] [].

(** The registration is reconciled, then its tracking resource is removed
    and the watch delivers the delete event. *)
Definition lifecycle : list Event :=
  [EvReconcile healthy ("ns", "reg");
   EvRemoveClusterManager ("ns", "prod");
   EvClusterManagerDeleted healthy (manager "")].

(** The node probe fails and still hands back an item list. *)
Definition flaky : Env :=
  env (mkNodeList (Some []), Some (PlainError "etcdserver: request timed out")) None noFault.

(** A registration whose secret exists, ready for [CreateClusterManager]. *)
Definition secretCreated : ClusterRegistration :=
  registration "reg" "prod" kubeconfigBase64 "SecretCreated" "".

(** A registration whose cluster name holds the suffix of the secret names. *)
Definition suffixed : ClusterRegistration :=
  registration "reg" "edge-kubeconfig-2" kubeconfigBase64 "" "".

(** The world in which the tracking resource that [CreateClusterManager]
    builds for [secretCreated] is stored. *)
Definition managed : World :=
  mkWorld ∅ (<[("ns", "prod") := newClusterManager healthy secretCreated "10.0.0.1"]> ∅) ∅ [] [].

(** A credential secret from which the [value] key is missing. *)
Definition credentialEmpty : Secret :=
  mkSecret (mkMeta "prod-kubeconfig" "ns" ∅ ∅ [SecretFinalizer] None) ∅ ∅.

(** A remote side on which every secret yields the client of cluster 0 and
    every request is served; the GitOps names are example values. *)
Definition remote : RemoteEnv :=
  mkRemoteEnv (λ _, inl (RemoteClientset 0)) (λ _ _ _ _, None)
    "argocd-manager" "argocd-manager-role" "argocd-manager-role-binding"
    "argocd" "kube-system".

Definition emptyRemote : Remote := mkRemote ∅ [].

End Demo.

(* ===================================================================== *)
(** * Properties *)
(* ===================================================================== *)

(** ** The admission webhook of the cluster claim *)

Lemma eqb_true_iff (a b : string) : String.eqb a b = true ↔ a = b.
Proof. apply String.eqb_eq. Qed.

Lemma eqb_false_iff (a b : string) : String.eqb a b = false ↔ a ≠ b.
Proof. apply String.eqb_neq. Qed.

(** C8.  [ValidateUpdate] returns an error exactly when the stored claim's
    phase is [Approved], [Rejected] or [ClusterDeleted], the new spec differs
    from the stored one and the new object carries no deletion timestamp; an
    update that leaves the spec as stored is accepted whatever else changed;
    [ValidateDelete] returns nil for every claim. *)
Theorem ValidateUpdate_rejects_iff :
  ∀ (ClusterClaimSpec : Type) (dec : EqDecision ClusterClaimSpec)
    (r old : claimv1alpha1.ClusterClaim ClusterClaimSpec),
    (claimv1alpha1.ValidateUpdate r old ≠ None
     ↔ (claimv1alpha1.Phase (Status old) = "Approved"
        ∨ claimv1alpha1.Phase (Status old) = "Rejected"
        ∨ claimv1alpha1.Phase (Status old) = "ClusterDeleted")
       ∧ Spec r ≠ Spec old
       ∧ IsZero (DeletionTimestamp (ObjectMeta r)) = true)
    ∧ (Spec r = Spec old → claimv1alpha1.ValidateUpdate r old = None)
    ∧ claimv1alpha1.ValidateDelete r = None.
Proof.
  intros S dec r old. unfold claimv1alpha1.ValidateUpdate, claimv1alpha1.DeepEqual.
  split; [| split; [| reflexivity]].
  - destruct (IsZero (DeletionTimestamp (ObjectMeta r))) eqn:Hz; simpl.
    + destruct (String.eqb _ "Approved" || String.eqb _ "Rejected"
                || String.eqb _ "ClusterDeleted") eqn:Hl.
      * apply orb_true_iff in Hl as [Hl | Hd];
          [apply orb_true_iff in Hl as [Ha | Hr] |];
          rewrite eqb_true_iff in *;
          (case_bool_decide as Hs; simpl;
           [ split; [ intros H; contradiction H; reflexivity
                    | intros (_ & Hne & _); congruence ]
           | split; [ intros _; split; [ tauto | split; [ congruence | reflexivity ] ]
                    | intros _; discriminate ] ]).
      * apply orb_false_iff in Hl as [Hl Hd]. apply orb_false_iff in Hl as [Ha Hr].
        rewrite eqb_false_iff in *.
        split; [ intros H; contradiction H; reflexivity
               | intros ([? | [? | ?]] & _); contradiction ].
    + split; [ intros H; contradiction H; reflexivity | intros (_ & _ & ?); discriminate ].
  - intros Heq. rewrite Heq.
    destruct (negb (IsZero (DeletionTimestamp (ObjectMeta r)))); [reflexivity|].
    rewrite bool_decide_eq_true_2 by reflexivity. simpl.
    destruct (_ || _ || _); reflexivity.
Qed.

(** An approved claim whose spec is changed is rejected; the same claim with
    only a label added is accepted. *)
Lemma ValidateUpdate_rejects_iff_witness :
  let stored : claimv1alpha1.ClusterClaim string :=
    mkObject (mkMeta "claim" "ns" ∅ ∅ [] None) "v1.19"
             (claimv1alpha1.mkClaimStatus "Approved" "") in
  let respecified : claimv1alpha1.ClusterClaim string :=
    mkObject (mkMeta "claim" "ns" ∅ ∅ [] None) "v1.20"
             (claimv1alpha1.mkClaimStatus "Approved" "") in
  let relabelled : claimv1alpha1.ClusterClaim string :=
    mkObject (mkMeta "claim" "ns" ∅ (<["team" := "a"]> ∅) [] None) "v1.19"
             (claimv1alpha1.mkClaimStatus "Approved" "") in
  claimv1alpha1.ValidateUpdate respecified stored ≠ None
  ∧ claimv1alpha1.ValidateUpdate relabelled stored = None.
Proof.
  cbv zeta. split.
  - apply (proj1 (ValidateUpdate_rejects_iff string _ _ _)).
    split; [left; reflexivity |]. split; [discriminate | reflexivity].
  - apply (proj1 (proj2 (ValidateUpdate_rejects_iff string _ _ _))). reflexivity.
Defined.

(** ** Proof tools for the state monad *)

Ltac unfold_client :=
  unfold getClusterRegistration, getClusterManager, getSecret, apiGet,
    createSecret, createClusterManager, statusUpdate, patchClusterRegistration,
    patchClusterManager, writeRegistrationStatus, decodeString,
    GetRemoteK8sClientByKubeConfig, nodesList, Load, URIToSecretName, Insert,
    logCall, bind, ret in *.

(** Split on every branch the code takes. *)
Ltac branches := repeat case_match; simplify_eq/=.

Lemma phaseStep_refl (p : string) : phaseStep p p.
Proof. left; reflexivity. Qed.

Lemma phaseStep_trans (p q r : string) : phaseStep p q → phaseStep q r → phaseStep p r.
Proof. unfold phaseStep. intros [-> | H1] [-> | H2]; auto. right; lia. Qed.

Lemma phaseMeasure_le (q : string) : (phaseMeasure q ≤ 4)%nat.
Proof.
  unfold phaseMeasure, phaseRank.
  destruct (String.eqb q ""); [lia|].
  destruct (String.eqb q ClusterRegistrationPhaseValidated); [lia|].
  destruct (String.eqb q ClusterRegistrationPhaseSecretCreated); [lia|].
  destruct (String.eqb q ClusterRegistrationPhaseSuccess); [lia|].
  destruct (terminalPhase q); lia.
Qed.

Lemma phaseMeasure_terminal (p : string) : terminalPhase p = true → phaseMeasure p = 4%nat.
Proof.
  unfold terminalPhase. intros Ht.
  apply orb_true_iff in Ht as [Ht | Ht]; apply eqb_true_iff in Ht; subst p; reflexivity.
Qed.

Lemma phaseStep_advance (p q : string) : phaseStep p q → phaseAdvance p q.
Proof.
  unfold phaseStep, phaseAdvance. intros [-> | Hlt].
  - split; [intros a b Ha Hb; rewrite Ha in Hb; injection Hb as <-; lia | reflexivity].
  - split.
    + intros a b Ha Hb. unfold phaseMeasure in Hlt. rewrite Ha, Hb in Hlt. lia.
    + intros Ht. apply phaseMeasure_terminal in Ht. pose proof (phaseMeasure_le q). lia.
Qed.

(** *** What every phase function preserves *)

Lemma runPhases_respects (R : relation (ClusterRegistration * World)) (E : Env)
    (phases : list (ClusterRegistration → M PhaseOutcome)) :
  Reflexive R → Transitive R → Forall (respects R) phases →
  ∀ res errs, respects R (λ cr, runPhases E phases cr res errs).
Proof.
  intros Hrefl Htrans Hall. induction Hall as [| phase rest Hphase _ IH]; intros res errs cr w.
  - simpl. apply Hrefl.
  - simpl. unfold bind. specialize (Hphase cr w).
    destruct (phase cr w) as [[cr' phaseResult err | cr' msg] w']; simpl in *.
    + destruct (0 <? length _)%nat; (eapply Htrans; [exact Hphase | apply IH]).
    + exact Hphase.
Qed.

Lemma forward_refl : Reflexive forward.
Proof. intros [cr w]. unfold forward. auto using phaseStep_refl. Qed.

Lemma forward_trans : Transitive forward.
Proof.
  intros [a wa] [b wb] [c wc] (H1 & H2 & H3 & H4) (H1' & H2' & H3' & H4'). simpl in *.
  unfold forward; simpl. repeat split; try congruence. eapply phaseStep_trans; eauto.
Qed.

Ltac phase_cases Hp :=
  unfold forward; simpl; unfold_client; rewrite ?Hp;
  branches; rewrite ?Hp;
  repeat split; try reflexivity; try apply phaseStep_refl; try (right; vm_compute; lia).

Lemma CheckValidation_forward (E : Env) : respects forward (CheckValidation E).
Proof.
  intros cr w. unfold CheckValidation, CheckValidation_duplication.
  destruct (String.eqb (Phase (Status cr)) "") eqn:Hp; simpl; [| apply forward_refl].
  apply eqb_true_iff in Hp. phase_cases Hp.
Qed.

Lemma CreateKubeconfigSecret_forward (E : Env) : respects forward (CreateKubeconfigSecret E).
Proof.
  intros cr w. unfold CreateKubeconfigSecret.
  destruct (String.eqb (Phase (Status cr)) _) eqn:Hp; simpl; [| apply forward_refl].
  apply eqb_true_iff in Hp. phase_cases Hp.
Qed.

Lemma CreateClusterManager_forward (E : Env) : respects forward (CreateClusterManager E).
Proof.
  intros cr w. unfold CreateClusterManager.
  destruct (String.eqb (Phase (Status cr)) _) eqn:Hp; simpl; [| apply forward_refl].
  apply eqb_true_iff in Hp. phase_cases Hp.
Qed.

Lemma reconcile_forward (E : Env) : respects forward (reconcile E).
Proof.
  unfold reconcile.
  apply runPhases_respects; [apply forward_refl | apply forward_trans |].
  repeat apply Forall_cons_2; try apply Forall_nil_2.
  - apply CheckValidation_forward.
  - apply CreateKubeconfigSecret_forward.
  - apply CreateClusterManager_forward.
Qed.

Lemma reconcilePhase_phaseStep (cr : ClusterRegistration) :
  phaseStep (Phase (Status cr)) (Phase (Status (reconcilePhase cr))).
Proof.
  unfold reconcilePhase. destruct (String.eqb _ _) eqn:Hp; [| apply phaseStep_refl].
  apply eqb_true_iff in Hp. rewrite Hp. right. vm_compute. lia.
Qed.

(** *** The stored registrations along the events *)

Lemma registrationsEvolve_refl (m : gmap NamespacedName ClusterRegistration) :
  registrationsEvolve m m.
Proof.
  intros k. destruct (m !! k); constructor. split; [reflexivity | apply phaseStep_refl].
Qed.

Lemma registrationsEvolve_trans (m1 m2 m3 : gmap NamespacedName ClusterRegistration) :
  registrationsEvolve m1 m2 → registrationsEvolve m2 m3 → registrationsEvolve m1 m3.
Proof.
  intros H12 H23 k. specialize (H12 k). specialize (H23 k).
  destruct H12 as [a b [Hm Hp] |]; inversion H23 as [b' c [Hm' Hp'] |]; subst; constructor.
  split; [congruence | eapply phaseStep_trans; eauto].
Qed.

Lemma registrationsEvolve_indexed (w w' : World) :
  registrationsIndexed w →
  registrationsEvolve (clusterRegistrations w) (clusterRegistrations w') →
  registrationsIndexed w'.
Proof.
  unfold registrationsIndexed. intros Hidx Hev k cr' Hk. specialize (Hev k).
  rewrite Hk in Hev. inversion Hev as [cr ? [Hm _] Hk0 |]; subst.
  symmetry in Hk0. apply Hidx in Hk0. unfold keyOf in *. rewrite Hm. exact Hk0.
Qed.

(** A status write moves the store forward when the written phase is ahead
    of the stored one. *)
Lemma writeRegistrationStatus_evolve (v : Verb) (E : Env) (cr : ClusterRegistration)
    (w : World) :
  (∀ stored, clusterRegistrations w !! keyOf cr = Some stored →
             phaseStep (Phase (Status stored)) (Phase (Status cr))) →
  registrationsEvolve (clusterRegistrations w)
    (clusterRegistrations (writeRegistrationStatus v E cr w).2).
Proof.
  intros Hahead. unfold writeRegistrationStatus. unfold_client.
  destruct (api_fault E v KindClusterRegistration (keyOf cr)); simpl;
    [apply registrationsEvolve_refl |].
  destruct (clusterRegistrations w !! keyOf cr) as [stored |] eqn:Hs; simpl;
    [| apply registrationsEvolve_refl].
  intros k. destruct (decide (k = keyOf cr)) as [-> | Hne].
  - rewrite lookup_insert_eq, Hs. constructor. simpl. auto.
  - rewrite lookup_insert_ne by congruence. apply registrationsEvolve_refl.
Qed.

Lemma apiGet_registration (E : Env) (key : NamespacedName) (w : World) :
  clusterRegistrations (getClusterRegistration E key w).2 = clusterRegistrations w
  ∧ ∀ cr, (getClusterRegistration E key w).1 = inl cr →
          clusterRegistrations w !! key = Some cr.
Proof.
  unfold_client. simpl.
  destruct (api_fault E VerbGet KindClusterRegistration key); simpl;
    [split; [reflexivity | discriminate] |].
  destruct (clusterRegistrations w !! key); simpl;
    (split; [reflexivity | intros cr Hcr; congruence]).
Qed.

Lemma Reconcile_evolve (E : Env) (req : NamespacedName) (w : World) :
  registrationsIndexed w →
  registrationsEvolve (clusterRegistrations w) (clusterRegistrations (Reconcile E req w).2).
Proof.
  intros Hidx. unfold Reconcile, bind at 1.
  destruct (apiGet_registration E req w) as [Hsame Hget].
  destruct (getClusterRegistration E req w) as [[cr0 | err] w0]; simpl in *.
  2:{ destruct (IsNotFound err); simpl; rewrite Hsame; apply registrationsEvolve_refl. }
  specialize (Hget cr0 eq_refl).
  destruct (patch_NewHelper E KindClusterRegistration (keyOf cr0)); simpl;
    [rewrite Hsame; apply registrationsEvolve_refl |].
  unfold bind. destruct (reconcile_forward E cr0 w0) as (Hstep & Hmeta & _ & Hregs).
  destruct (reconcile E cr0 w0) as [body w1]; simpl in *.
  assert (Hw : registrationsEvolve (clusterRegistrations w)
                 (clusterRegistrations
                    (patchClusterRegistration E cr0 (reconcilePhase (outcomeObject body)) w1).2)).
  { unfold patchClusterRegistration. case_decide.
    - simpl. rewrite Hregs, Hsame. apply registrationsEvolve_refl.
    - rewrite <- Hsame, <- Hregs. apply writeRegistrationStatus_evolve.
      intros stored Hstored.
      assert (Hk : keyOf (reconcilePhase (outcomeObject body)) = req).
      { pose proof (Hidx _ _ Hget) as Hk. simpl in Hk. rewrite <- Hk.
        unfold keyOf, reconcilePhase. destruct (String.eqb _ _); simpl; rewrite Hmeta; reflexivity. }
      rewrite Hk, Hregs, Hsame, Hget in Hstored. injection Hstored as <-.
      eapply phaseStep_trans; [exact Hstep | apply reconcilePhase_phaseStep]. }
  destruct (patchClusterRegistration E cr0 _ w1) as [perr w2]; simpl in *.
  destruct body; [destruct perr |]; simpl; exact Hw.
Qed.

Lemma requeue_evolve (E : Env) (clm : ClusterManager) (w : World) :
  registrationsIndexed w →
  registrationsEvolve (clusterRegistrations w)
    (clusterRegistrations (requeueClusterRegistrationsForClusterManager E clm w).2).
Proof.
  intros Hidx. unfold requeueClusterRegistrationsForClusterManager, bind at 1.
  set (key := (Namespace (ObjectMeta clm), mapGet (Labels (ObjectMeta clm)) LabelKeyClmParent)).
  destruct (apiGet_registration E key w) as [Hsame Hget].
  destruct (getClusterRegistration E key w) as [[clr | err] w0]; simpl in *.
  2:{ destruct (IsNotFound err); simpl; rewrite Hsame; apply registrationsEvolve_refl. }
  specialize (Hget clr eq_refl).
  destruct (String.eqb (Phase (Status clr)) "Success") eqn:Hp; simpl;
    [| rewrite Hsame; apply registrationsEvolve_refl].
  apply eqb_true_iff in Hp. unfold bind, statusUpdate.
  match goal with |- context [writeRegistrationStatus ?v E ?c w0] =>
    pose proof (writeRegistrationStatus_evolve v E c w0) as Hw;
    destruct (writeRegistrationStatus v E c w0) as [uerr w1] end.
  simpl in *. rewrite Hsame in Hw.
  assert (Hev : registrationsEvolve (clusterRegistrations w) (clusterRegistrations w1)).
  { apply Hw. intros stored Hstored.
    pose proof (Hidx _ _ Hget) as Hk. simpl in Hk. unfold keyOf in *. simpl in Hstored.
    rewrite Hk, Hget in Hstored. injection Hstored as <-. rewrite Hp. right. vm_compute. lia. }
  destruct uerr; exact Hev.
Qed.

Lemma endpoint_registrations (E : Env) (secret : Secret) (w : World) :
  clusterRegistrations (UpdateClusterManagerControlPlaneEndpoint E secret w).2
  = clusterRegistrations w.
Proof.
  unfold UpdateClusterManagerControlPlaneEndpoint. unfold_client. branches; reflexivity.
Qed.

Lemma step_evolve (ev : Event) (w : World) :
  registrationsIndexed w →
  registrationsEvolve (clusterRegistrations w) (clusterRegistrations (step ev w)).
Proof.
  intros Hidx. destruct ev as [E req | E clm | E secret | clm | key | s | key | key spec]; simpl;
    try apply registrationsEvolve_refl.
  - apply Reconcile_evolve, Hidx.
  - unfold onClusterManagerDeleted. destruct (manager_DeleteFunc clm).
    + apply requeue_evolve, Hidx.
    + apply registrationsEvolve_refl.
  - rewrite endpoint_registrations. apply registrationsEvolve_refl.
  - intros k. rewrite lookup_alter. case_decide as Hk.
    + subst k. destruct (clusterRegistrations w !! key); constructor.
      split; [reflexivity | apply phaseStep_refl].
    + apply registrationsEvolve_refl.
Qed.

Lemma run_evolve (evs : list Event) (w : World) :
  registrationsIndexed w →
  registrationsEvolve (clusterRegistrations w) (clusterRegistrations (run evs w)).
Proof.
  revert w. induction evs as [| ev evs IH]; intros w Hidx; simpl.
  - apply registrationsEvolve_refl.
  - pose proof (step_evolve ev w Hidx) as Hstep.
    eapply registrationsEvolve_trans; [exact Hstep |].
    apply IH. eapply registrationsEvolve_indexed; eauto.
Qed.

Lemma invoke_phaseStep (E : Env) (i : Invocation) (cr : ClusterRegistration) (w : World) :
  phaseStep (Phase (Status cr)) (Phase (Status (invoke E i cr w).1)).
Proof.
  destruct i; simpl; unfold bind, ret.
  - pose proof (CheckValidation_forward E cr w) as [H _].
    destruct (CheckValidation E cr w); exact H.
  - pose proof (CreateKubeconfigSecret_forward E cr w) as [H _].
    destruct (CreateKubeconfigSecret E cr w); exact H.
  - pose proof (CreateClusterManager_forward E cr w) as [H _].
    destruct (CreateClusterManager E cr w); exact H.
  - pose proof (reconcile_forward E cr w) as [H _].
    destruct (reconcile E cr w); exact H.
  - apply reconcilePhase_phaseStep.
Qed.

Lemma invokeAll_phaseStep (steps : list (Env * World * Invocation)) (cr : ClusterRegistration) :
  phaseStep (Phase (Status cr)) (Phase (Status (invokeAll steps cr))).
Proof.
  revert cr. induction steps as [| [[E w] i] rest IH]; intros cr; simpl.
  - apply phaseStep_refl.
  - eapply phaseStep_trans; [apply (invoke_phaseStep E i cr w) | apply IH].
Qed.

(** ** The phase of a registration over time *)

(** C1.  Over every sequence of calls of the three phase functions, of
    [reconcile] and of [reconcilePhase] on a registration held in memory,
    each call in any environment and world, and over every sequence of
    events on the stored objects (whole [Reconcile] runs, delete events
    handled by the map function of the ClusterManager watch, the endpoint
    phase, changes made by others around the registration), the phase never
    moves backward in the order [""], [Validated], [SecretCreated],
    [Success], and [Failed] and [Deleted] are never left. *)
Theorem phase_never_regresses :
  (∀ (steps : list (Env * World * Invocation)) (cr : ClusterRegistration),
     phaseAdvance (Phase (Status cr)) (Phase (Status (invokeAll steps cr))))
  ∧ (∀ (evs : list Event) (w : World) (key : NamespacedName) (cr : ClusterRegistration),
       registrationsIndexed w →
       clusterRegistrations w !! key = Some cr →
       ∃ cr', clusterRegistrations (run evs w) !! key = Some cr'
              ∧ phaseAdvance (Phase (Status cr)) (Phase (Status cr'))).
Proof.
  split.
  - intros steps cr. apply phaseStep_advance, invokeAll_phaseStep.
  - intros evs w key cr Hidx Hcr.
    pose proof (run_evolve evs w Hidx key) as Hev. rewrite Hcr in Hev.
    inversion Hev as [? cr' [_ Hstep] |]; subst.
    exists cr'. split; [reflexivity | apply phaseStep_advance, Hstep].
Qed.

Lemma submitted_indexed : registrationsIndexed Demo.submitted.
Proof.
  intros k cr Hk. unfold Demo.submitted in Hk. simpl in Hk.
  apply lookup_insert_Some in Hk as [[<- <-] | [_ Hk]].
  - reflexivity.
  - rewrite lookup_empty in Hk. discriminate.
Defined.

Example lifecycle_phases :
  Status <$> (clusterRegistrations (run (take 1 Demo.lifecycle) Demo.submitted) !! ("ns", "reg"))
  = Some (mkRegistrationStatus "Success" "")
  ∧ Status <$> (clusterRegistrations (run Demo.lifecycle Demo.submitted) !! ("ns", "reg"))
    = Some (mkRegistrationStatus "Deleted" "cluster is deleted").
Proof. split; vm_compute; reflexivity. Qed.

Lemma phase_never_regresses_witness :
  phaseAdvance (Phase (Status Demo.fresh))
    (Phase (Status (invokeAll [(Demo.healthy, Demo.emptyWorld, InvokeReconcile)] Demo.fresh)))
  ∧ ∃ cr', clusterRegistrations (run Demo.lifecycle Demo.submitted) !! ("ns", "reg") = Some cr'
           ∧ phaseAdvance (Phase (Status Demo.fresh)) (Phase (Status cr')).
Proof.
  split.
  - apply (proj1 phase_never_regresses).
  - apply (proj2 phase_never_regresses Demo.lifecycle Demo.submitted ("ns", "reg") Demo.fresh).
    + exact submitted_indexed.
    + reflexivity.
Defined.

(** ** Running the phase pipeline twice *)

(** *** The phase gates *)

Lemma CheckValidation_gate (E : Env) (cr : ClusterRegistration) (w : World) :
  Phase (Status cr) ≠ "" →
  CheckValidation E cr w = (PhaseReturn cr (mkResult false 0) None, w).
Proof.
  intros Hp. unfold CheckValidation. apply eqb_false_iff in Hp. rewrite Hp. reflexivity.
Qed.

Lemma CreateKubeconfigSecret_gate (E : Env) (cr : ClusterRegistration) (w : World) :
  Phase (Status cr) ≠ ClusterRegistrationPhaseValidated →
  CreateKubeconfigSecret E cr w = (PhaseReturn cr ResultZero None, w).
Proof.
  intros Hp. unfold CreateKubeconfigSecret. apply eqb_false_iff in Hp. rewrite Hp. reflexivity.
Qed.

Lemma CreateClusterManager_gate (E : Env) (cr : ClusterRegistration) (w : World) :
  Phase (Status cr) ≠ ClusterRegistrationPhaseSecretCreated →
  CreateClusterManager E cr w = (PhaseReturn cr ResultZero None, w).
Proof.
  intros Hp. unfold CreateClusterManager. apply eqb_false_iff in Hp. rewrite Hp. reflexivity.
Qed.

Lemma sameObjects_refl (w : World) : sameObjects w w.
Proof. repeat split. Qed.

(** *** Each phase function, called again on what it left *)

(** Rewrite with what the environment answered, then compute. *)
Ltac answers :=
  repeat match goal with
         | H : ?l = _ |- context [?l] => rewrite H; simpl
         end.

Ltac answers_in H1 :=
  repeat match goal with
         | H : ?l = _ |- _ =>
           tryif constr_eq H H1 then fail
           else lazymatch type of H1 with context [l] => rewrite H in H1; simpl in H1 end
         end.

Ltac unfold_phases :=
  unfold CheckValidation, CheckValidation_duplication, CreateKubeconfigSecret,
    CreateClusterManager in *.

(** Evaluate the first call, then the second. *)
Ltac twice f :=
  match goal with
  | |- context [f ?E ?cr ?w] =>
    let o := fresh "o" in let w1 := fresh "w" in let H1 := fresh "Hfirst" in
    destruct (f E cr w) as [o w1] eqn:H1;
    unfold_phases; unfold_client; unfold secretKey, keyOf in H1; simpl in H1; answers_in H1;
    injection H1 as <- <-; simpl;
    unfold_phases; unfold_client; unfold secretKey, keyOf; simpl; answers
  end.

Lemma CheckValidation_again (E : Env) (x : ClusterRegistration * World) :
  let x1 := after (CheckValidation E) x in
  let x2 := after (CheckValidation E) x1 in
  sameObjects x.2 x1.2 ∧ sameObjects x1.2 x2.2 ∧ x2.1 = x1.1.
Proof.
  destruct x as [cr w]. unfold after. simpl.
  destruct (decide (Phase (Status cr) = "")) as [Hp | Hp].
  2:{ rewrite !(CheckValidation_gate E cr w Hp). simpl.
      rewrite !(CheckValidation_gate E cr w Hp). simpl. repeat split. }
  destruct cr as [meta spec [p r]]. simpl in Hp. subst p.
  destruct (b64_DecodeString E (KubeConfig spec)) as [decoded [derr |]] eqn:Hdec;
    [| destruct (util_GetRemoteK8sClientByKubeConfig E decoded) as [client | cerr] eqn:Hrc;
       [ destruct (api_fault E VerbGet KindClusterManager (Namespace meta, ClusterName spec))
           as [gerr |] eqn:Hfault;
         [ destruct (IsNotFound gerr) eqn:Hnf |];
         destruct (clusterManagers w !! (Namespace meta, ClusterName spec)) as [clm |] eqn:Hclm;
         destruct (Nodes_List E client) as [[[items |]] [nerr |]] eqn:Hnl |] ];
    twice CheckValidation; unfold sameObjects; repeat split.
Qed.

Lemma CreateKubeconfigSecret_again (E : Env) (x : ClusterRegistration * World) :
  let x1 := after (CreateKubeconfigSecret E) x in
  let x2 := after (CreateKubeconfigSecret E) x1 in
  sameObjects x1.2 x2.2 ∧ x2.1 = x1.1.
Proof.
  destruct x as [cr w]. unfold after. simpl.
  destruct (decide (Phase (Status cr) = ClusterRegistrationPhaseValidated)) as [Hp | Hp].
  2:{ rewrite !(CreateKubeconfigSecret_gate E cr w Hp). simpl.
      rewrite !(CreateKubeconfigSecret_gate E cr w Hp). simpl. repeat split. }
  destruct cr as [meta spec [p r]]. simpl in Hp. subst p.
  set (key := (Namespace meta, (ClusterName spec ++ KubeconfigSuffix)%string)).
  destruct (b64_DecodeString E (KubeConfig spec)) as [decoded derr] eqn:Hdec.
  destruct (clientcmd_Load E decoded) as [cfg | lerr] eqn:Hload;
    [ destruct (currentServer cfg) as [server |] eqn:Hserver;
      [ destruct (util_URIToSecretName E "cluster" server) as [name [uerr |]] eqn:Huri;
        [| destruct (api_fault E VerbGet KindSecret key) as [gerr |] eqn:Hget;
           [ destruct (IsNotFound gerr) eqn:Hnf |];
           destruct (secrets w !! key) as [stored |] eqn:Hstored;
           destruct (api_fault E VerbCreate KindSecret key) as [cerr |] eqn:Hcreate ] |] |];
    subst key; twice CreateKubeconfigSecret; unfold sameObjects; repeat split.
Qed.

Lemma CreateClusterManager_again (E : Env) (x : ClusterRegistration * World) :
  let x1 := after (CreateClusterManager E) x in
  let x2 := after (CreateClusterManager E) x1 in
  sameObjects x1.2 x2.2 ∧ (x2.1 = x1.1 ∨ registrationLost E x1.2 x1.1 x2.1).
Proof.
  destruct x as [cr w]. unfold after. simpl.
  destruct (decide (Phase (Status cr) = ClusterRegistrationPhaseSecretCreated)) as [Hp | Hp].
  2:{ rewrite !(CreateClusterManager_gate E cr w Hp). simpl.
      rewrite !(CreateClusterManager_gate E cr w Hp). simpl. repeat split. left; reflexivity. }
  destruct cr as [meta spec [p r]]. simpl in Hp. subst p.
  set (key := (Namespace meta, ClusterName spec)).
  destruct (b64_DecodeString E (KubeConfig spec)) as [decoded derr] eqn:Hdec.
  destruct (sliceFrom (FindString decoded) 8) as [endpoint |] eqn:Hslice.
  2:{ subst key. twice CreateClusterManager. unfold sameObjects. repeat split. left; reflexivity. }
  set (creator := mapGet (Annotations meta) AnnotationKeyCreator).
  set (clm := mkObject
                (mkMeta (ClusterName spec) (Namespace meta)
                   (<[AnnotationKeyClmDns := os_Getenv E "HC_DOMAIN"]>
                      (<[AnnotationKeyClmApiserverEndpoint := endpoint]>
                         (<[AnnotationKeyCreator := creator]>
                            (<[AnnotationKeyOwner := creator]> ∅))))
                   (<[LabelKeyClmParent := Name meta]>
                      (<[LabelKeyClmClusterType := ClusterTypeRegistered]> ∅))
                   [] None)
                tt (mkManagerStatus "") : ClusterManager).
  destruct (api_fault E VerbGet KindClusterManager key) as [gerr |] eqn:Hget;
    [ destruct (IsNotFound gerr) eqn:Hnf |];
    destruct (clusterManagers w !! key) as [stored |] eqn:Hstored;
    destruct (api_fault E VerbCreate KindClusterManager key) as [cerr |] eqn:Hcreate;
    destruct (util_Insert E clm) as [ierr |] eqn:Hinsert;
    subst key creator clm; twice CreateClusterManager;
    rewrite ?lookup_insert_eq; simpl; unfold sameObjects; repeat split;
    try (left; reflexivity).
  right. unfold registrationLost. simpl. split; [reflexivity |]. split; [reflexivity |].
  eexists. split; [apply lookup_insert_eq |]. rewrite Hinsert. discriminate.
Qed.

(** *** What a phase function does to the phase *)

Lemma CheckValidation_shape (E : Env) (x : ClusterRegistration * World) :
  let x1 := after (CheckValidation E) x in
  (∃ c res err, (CheckValidation E x.1 x.2).1 = PhaseReturn c res err)
  ∧ (Phase (Status x1.1) = Phase (Status x.1)
     ∨ Phase (Status x1.1) = ClusterRegistrationPhaseValidated
     ∨ Phase (Status x1.1) = ClusterRegistrationPhaseFailed).
Proof.
  destruct x as [cr w]. unfold after. simpl.
  destruct (decide (Phase (Status cr) = "")) as [Hp | Hp].
  2:{ rewrite !(CheckValidation_gate E cr w Hp). simpl. split; eauto. }
  unfold CheckValidation, CheckValidation_duplication. unfold_client.
  apply eqb_true_iff in Hp. rewrite Hp. simpl.
  branches; split; eauto.
Qed.

Lemma CreateKubeconfigSecret_shape (E : Env) (x : ClusterRegistration * World) :
  let x1 := after (CreateKubeconfigSecret E) x in
  (∀ c msg, (CreateKubeconfigSecret E x.1 x.2).1 = PhasePanic c msg →
            Phase (Status c) = ClusterRegistrationPhaseValidated)
  ∧ (Phase (Status x1.1) = Phase (Status x.1)
     ∨ Phase (Status x1.1) = ClusterRegistrationPhaseSecretCreated).
Proof.
  destruct x as [cr w]. unfold after. simpl.
  destruct (decide (Phase (Status cr) = ClusterRegistrationPhaseValidated)) as [Hp | Hp].
  2:{ rewrite !(CreateKubeconfigSecret_gate E cr w Hp). simpl. split; [discriminate | eauto]. }
  unfold CreateKubeconfigSecret. unfold_client.
  pose proof Hp as Hp'. apply eqb_true_iff in Hp'. rewrite Hp'. simpl.
  branches; split; eauto; intros; simplify_eq; eauto.
Qed.

Lemma CreateClusterManager_shape (E : Env) (x : ClusterRegistration * World) :
  let x1 := after (CreateClusterManager E) x in
  Phase (Status x1.1) = Phase (Status x.1)
  ∨ Phase (Status x1.1) = ClusterRegistrationPhaseSuccess.
Proof.
  destruct x as [cr w]. unfold after. simpl.
  destruct (decide (Phase (Status cr) = ClusterRegistrationPhaseSecretCreated)) as [Hp | Hp].
  2:{ rewrite !(CreateClusterManager_gate E cr w Hp). simpl. eauto. }
  unfold CreateClusterManager. unfold_client.
  apply eqb_true_iff in Hp. rewrite Hp. simpl.
  branches; eauto.
Qed.

(** The pipeline leaves the object and the world as the three phase
    functions in a row leave them: a phase that panics leaves a phase at
    which the later ones do nothing. *)
Lemma reconcile_after (E : Env) (x : ClusterRegistration * World) :
  after (reconcile E) x
  = after (CreateClusterManager E) (after (CreateKubeconfigSecret E) (after (CheckValidation E) x)).
Proof.
  destruct x as [cr w].
  destruct (CheckValidation_shape E (cr, w)) as [(c & res & err & Hcv) _]. simpl in Hcv.
  unfold after, reconcile. simpl. unfold bind.
  destruct (CheckValidation E cr w) as [o1 w1]. simpl in Hcv. subst o1. simpl.
  destruct (CreateKubeconfigSecret_shape E (c, w1)) as [Hpanic _]. simpl in Hpanic.
  destruct (0 <? length _)%nat;
    (destruct (CreateKubeconfigSecret E c w1) as [[c2 r2 e2 | c2 m2] w2]; simpl;
     [ destruct (0 <? length _)%nat;
       (destruct (CreateClusterManager E c2 w2) as [[c3 r3 e3 | c3 m3] w3]; simpl;
        [ destruct (0 <? length _)%nat; reflexivity | reflexivity ])
     | rewrite CreateClusterManager_gate;
       [ reflexivity | rewrite (Hpanic c2 m2 eq_refl); discriminate ] ]).
Qed.

Lemma after_CheckValidation_gate (E : Env) (x : ClusterRegistration * World) :
  Phase (Status x.1) ≠ "" → after (CheckValidation E) x = x.
Proof.
  destruct x as [cr w]. intros Hp. unfold after. simpl.
  rewrite (CheckValidation_gate E cr w Hp). reflexivity.
Qed.

Lemma after_CreateKubeconfigSecret_gate (E : Env) (x : ClusterRegistration * World) :
  Phase (Status x.1) ≠ ClusterRegistrationPhaseValidated →
  after (CreateKubeconfigSecret E) x = x.
Proof.
  destruct x as [cr w]. intros Hp. unfold after. simpl.
  rewrite (CreateKubeconfigSecret_gate E cr w Hp). reflexivity.
Qed.

Lemma after_CreateClusterManager_gate (E : Env) (x : ClusterRegistration * World) :
  Phase (Status x.1) ≠ ClusterRegistrationPhaseSecretCreated →
  after (CreateClusterManager E) x = x.
Proof.
  destruct x as [cr w]. intros Hp. unfold after. simpl.
  rewrite (CreateClusterManager_gate E cr w Hp). reflexivity.
Qed.

Lemma second_run (E : Env) (x : ClusterRegistration * World) :
  let x1 := after (reconcile E) x in
  let x2 := after (reconcile E) x1 in
  sameObjects x1.2 x2.2 ∧ (x2.1 = x1.1 ∨ registrationLost E x1.2 x1.1 x2.1).
Proof.
  cbv zeta. rewrite !reconcile_after.
  set (a1 := after (CheckValidation E) x).
  set (a2 := after (CreateKubeconfigSecret E) a1).
  set (a3 := after (CreateClusterManager E) a2).
  pose proof (CreateClusterManager_shape E a2) as S3. cbv zeta in S3. fold a3 in S3.
  pose proof (CreateKubeconfigSecret_shape E a1) as [_ S2]. fold a2 in S2.
  destruct (decide (Phase (Status a3.1) = ClusterRegistrationPhaseSecretCreated)) as [Hsc | Hsc].
  { rewrite (after_CheckValidation_gate E a3) by (rewrite Hsc; discriminate).
    rewrite (after_CreateKubeconfigSecret_gate E a3) by (rewrite Hsc; discriminate).
    exact (CreateClusterManager_again E a2). }
  destruct (decide (Phase (Status a3.1) = ClusterRegistrationPhaseValidated)) as [Hv | Hv].
  { assert (H32 : a3 = a2).
    { apply after_CreateClusterManager_gate.
      destruct S3 as [S3 | S3]; rewrite S3 in Hv; [rewrite Hv |]; discriminate. }
    rewrite H32 in *.
    rewrite (after_CheckValidation_gate E a2) by (rewrite Hv; discriminate).
    destruct (CreateKubeconfigSecret_again E a1) as [Hsame Hobj].
    fold a2 in Hsame, Hobj.
    rewrite after_CreateClusterManager_gate by (rewrite Hobj, Hv; discriminate).
    split; [exact Hsame | left; exact Hobj]. }
  destruct (decide (Phase (Status a3.1) = "")) as [He | He].
  { assert (H32 : a3 = a2).
    { apply after_CreateClusterManager_gate.
      destruct S3 as [S3 | S3]; rewrite S3 in He; [rewrite He |]; discriminate. }
    rewrite H32 in *.
    assert (H21 : a2 = a1).
    { apply after_CreateKubeconfigSecret_gate.
      destruct S2 as [S2 | S2]; rewrite S2 in He; [rewrite He |]; discriminate. }
    rewrite H21 in *.
    destruct (CheckValidation_again E x) as (_ & Hsame & Hobj). fold a1 in Hsame, Hobj.
    rewrite (after_CreateKubeconfigSecret_gate E (after (CheckValidation E) a1))
      by (rewrite Hobj, He; discriminate).
    rewrite after_CreateClusterManager_gate by (rewrite Hobj, He; discriminate).
    split; [exact Hsame | left; exact Hobj]. }
  rewrite (after_CheckValidation_gate E a3) by exact He.
  rewrite (after_CreateKubeconfigSecret_gate E a3) by exact Hv.
  rewrite (after_CreateClusterManager_gate E a3) by exact Hsc.
  split; [apply sameObjects_refl | left; reflexivity].
Qed.

(** C2, as amended.  Run the pipeline twice in the same environment: the
    second run leaves every stored object and the membership table as the
    first run left them, and it leaves the registration as the first run left
    it, unless the first run created the tracking resource and failed to
    register it in the membership index; then the registration stood at
    [SecretCreated], and the second run finds the tracking resource and moves
    it to [Success].  When [util.Insert] never fails the second run changes
    nothing at all. *)
Theorem pipeline_second_run (E : Env) (cr : ClusterRegistration) (w : World) :
  let x1 := after (reconcile E) (cr, w) in
  let x2 := after (reconcile E) x1 in
  sameObjects x1.2 x2.2
  ∧ (x2.1 = x1.1 ∨ registrationLost E x1.2 x1.1 x2.1)
  ∧ ((∀ clm, util_Insert E clm = None) → x2.1 = x1.1).
Proof.
  cbv zeta. destruct (second_run E (cr, w)) as [Hsame Hobj].
  split; [exact Hsame |]. split; [exact Hobj |].
  intros Hinsert. destruct Hobj as [Hobj | (_ & _ & clm & _ & Hclm)]; [exact Hobj |].
  contradiction (Hclm (Hinsert clm)).
Qed.

(** C2, the claim as stated fails: with the membership index down, the first
    run of the pipeline on a fresh registration stops at [SecretCreated] and
    the second run ends at [Success]. *)
Lemma pipeline_not_idempotent :
  Status (after (reconcile Demo.indexDown) (Demo.fresh, Demo.emptyWorld)).1
  = mkRegistrationStatus "SecretCreated" ""
  ∧ Status (after (reconcile Demo.indexDown)
              (after (reconcile Demo.indexDown) (Demo.fresh, Demo.emptyWorld))).1
    = mkRegistrationStatus "Success" ""
  ∧ ¬ pipelineIdempotent Demo.indexDown Demo.fresh Demo.emptyWorld.
Proof.
  assert (H1 : Status (after (reconcile Demo.indexDown) (Demo.fresh, Demo.emptyWorld)).1
               = mkRegistrationStatus "SecretCreated" "") by (vm_compute; reflexivity).
  assert (H2 : Status (after (reconcile Demo.indexDown)
                         (after (reconcile Demo.indexDown) (Demo.fresh, Demo.emptyWorld))).1
               = mkRegistrationStatus "Success" "") by (vm_compute; reflexivity).
  split; [exact H1 |]. split; [exact H2 |].
  unfold pipelineIdempotent. cbv zeta. rewrite H1, H2. intros [Heq _]. discriminate.
Qed.

Lemma pipeline_second_run_witness :
  (after (reconcile Demo.healthy)
     (after (reconcile Demo.healthy) (Demo.fresh, Demo.emptyWorld))).1
  = (after (reconcile Demo.healthy) (Demo.fresh, Demo.emptyWorld)).1.
Proof.
  exact (proj2 (proj2 (pipeline_second_run Demo.healthy Demo.fresh Demo.emptyWorld))
           (λ clm, eq_refl)).
Defined.

(** ** Failures of validation *)

(** The pipeline on an object on which the later phases do nothing, from
    what [CheckValidation] returned. *)
Lemma reconcile_from_CheckValidation (E : Env) (cr c : ClusterRegistration) (w w1 : World)
    (r : Result) (e : option error) :
  CheckValidation E cr w = (PhaseReturn c r e, w1) →
  Phase (Status c) ≠ ClusterRegistrationPhaseValidated →
  Phase (Status c) ≠ ClusterRegistrationPhaseSecretCreated →
  ∃ res, reconcile E cr w
         = (PhaseReturn c res (NewAggregate (match e with Some e' => [e'] | None => [] end)), w1).
Proof.
  intros Hcv Hv Hsc. unfold reconcile. simpl. unfold bind. rewrite Hcv.
  destruct e as [e' |]; simpl;
    rewrite (CreateKubeconfigSecret_gate E c w1 Hv); simpl;
    rewrite (CreateClusterManager_gate E c w1 Hsc); simpl;
    eexists; reflexivity.
Qed.

Lemma CheckValidation_failure (E : Env) (cr c : ClusterRegistration) (w w1 : World)
    (r : Result) (e : option error) :
  Phase (Status cr) = "" →
  CheckValidation E cr w = (PhaseReturn c r e, w1) →
  Phase (Status c) = ClusterRegistrationPhaseFailed →
  (Reason (Status c) = ClusterRegistrationReasonInvalidKubeconfig ∧ e ≠ None)
  ∨ (Reason (Status c) = ClusterRegistrationReasonClusterNotFound ∧ e = None)
  ∨ (Reason (Status c) = ClusterRegistrationReasonClusterNameDuplicated ∧ e = None).
Proof.
  intros Hp Hcv Hfailed. unfold CheckValidation, CheckValidation_duplication in Hcv.
  apply eqb_true_iff in Hp as Hp'. rewrite Hp' in Hcv. simpl in Hcv. unfold_client.
  branches; simpl in *; try (rewrite Hp in Hfailed; discriminate); try discriminate; auto.
Qed.

Lemma reconcile_failure_error (E : Env) (cr c : ClusterRegistration) (w : World)
    (res : Result) (err : option error) :
  Phase (Status cr) = "" →
  (reconcile E cr w).1 = PhaseReturn c res err →
  Phase (Status c) = ClusterRegistrationPhaseFailed →
  (Reason (Status c) = ClusterRegistrationReasonInvalidKubeconfig → err ≠ None)
  ∧ (Reason (Status c) = ClusterRegistrationReasonClusterNotFound → err = None).
Proof.
  intros Hp Hrun Hfailed.
  destruct (CheckValidation_shape E (cr, w)) as [(c1 & r1 & e1 & Hcv) Hshape].
  unfold after in Hshape. simpl in Hcv, Hshape.
  destruct (CheckValidation E cr w) as [o1 w1] eqn:Hcv1. simpl in Hcv, Hshape. subst o1.
  simpl in Hshape.
  destruct (decide (Phase (Status c1) = ClusterRegistrationPhaseFailed)) as [Hf1 | Hf1].
  - destruct (reconcile_from_CheckValidation E cr c1 w w1 r1 e1 Hcv1) as [res' Hrec];
      [rewrite Hf1; discriminate | rewrite Hf1; discriminate |].
    rewrite Hrec in Hrun. simpl in Hrun. injection Hrun as <- <- <-.
    destruct (CheckValidation_failure E cr c1 w w1 r1 e1 Hp Hcv1 Hf1)
      as [[Hr He] | [[Hr He] | [Hr He]]].
    + split; [| rewrite Hr; discriminate].
      intros _. destruct e1; [discriminate | contradiction].
    + subst e1. split; [rewrite Hr; discriminate | reflexivity].
    + subst e1. split; [rewrite Hr; discriminate | reflexivity].
  - exfalso.
    (* the later phases never record [Failed] *)
    pose proof (reconcile_after E (cr, w)) as Hafter.
    pose proof (CreateKubeconfigSecret_shape E (c1, w1)) as [_ S2].
    pose proof (CreateClusterManager_shape E (after (CreateKubeconfigSecret E) (c1, w1))) as S3.
    cbv zeta in S3. unfold after in *. simpl in *. rewrite Hcv1, Hrun in Hafter. simpl in Hafter.
    injection Hafter as Hc _. rewrite <- Hc in S3.
    destruct S3 as [S3 | S3]; [| rewrite S3 in Hfailed; discriminate].
    rewrite S3 in Hfailed.
    destruct S2 as [S2 | S2]; rewrite S2 in Hfailed; [contradiction | discriminate].
Qed.

(** What [Reconcile] returns once the registration is read and the patch
    helper made: the result of [reconcile], with the error of the deferred
    patch in place of [reconcile]'s when the patch fails. *)
Lemma Reconcile_returns (E : Env) (req : NamespacedName) (cr : ClusterRegistration)
    (w0 w : World) :
  getClusterRegistration E req w0 = (inl cr, w) →
  patch_NewHelper E KindClusterRegistration (keyOf cr) = None →
  (Reconcile E req w0).1
  = match (reconcile E cr w).1 with
    | PhasePanic _ msg => Panicked msg
    | PhaseReturn c res reterr =>
      Returned res
        match (patchClusterRegistration E cr (reconcilePhase c) (reconcile E cr w).2).1 with
        | Some e => Some e
        | None => reterr
        end
    end.
Proof.
  intros Hget Hhelper. unfold Reconcile, bind at 1. rewrite Hget. simpl. rewrite Hhelper.
  unfold bind. destruct (reconcile E cr w) as [[c res reterr | c msg] w1]; simpl.
  - destruct (patchClusterRegistration E cr (reconcilePhase c) w1) as [[e |] w2]; reflexivity.
  - destruct (patchClusterRegistration E cr (reconcilePhase c) w1) as [perr w2]; reflexivity.
Qed.

(** C4, as amended.  A run of the pipeline on a fresh registration that
    ends in [Failed] returns a non-nil error when the recorded reason is
    [InvalidKubeconfig] (the credential does not decode, or no client can be
    built from it), and [Reconcile] then returns a non-nil error to the
    scheduler.  When the recorded reason is [ClusterNotFound] the pipeline
    returns a nil error, and [Reconcile] returns an error only if its deferred
    patch of the status fails. *)
Theorem failure_return_by_reason (E : Env) (cr c : ClusterRegistration) (w : World)
    (res : Result) (err : option error) :
  Phase (Status cr) = "" →
  (reconcile E cr w).1 = PhaseReturn c res err →
  Phase (Status c) = ClusterRegistrationPhaseFailed →
  (Reason (Status c) = ClusterRegistrationReasonInvalidKubeconfig →
   err ≠ None
   ∧ ∀ req w0, getClusterRegistration E req w0 = (inl cr, w) →
               patch_NewHelper E KindClusterRegistration (keyOf cr) = None →
               ∃ e, (Reconcile E req w0).1 = Returned res (Some e))
  ∧ (Reason (Status c) = ClusterRegistrationReasonClusterNotFound →
     err = None
     ∧ ∀ req w0, getClusterRegistration E req w0 = (inl cr, w) →
                 patch_NewHelper E KindClusterRegistration (keyOf cr) = None →
                 (Reconcile E req w0).1
                 = Returned res
                     (patchClusterRegistration E cr (reconcilePhase c) (reconcile E cr w).2).1).
Proof.
  intros Hp Hrun Hfailed.
  destruct (reconcile_failure_error E cr c w res err Hp Hrun Hfailed) as [Hinvalid Hnotfound].
  split; intros Hreason.
  - split; [exact (Hinvalid Hreason) |].
    intros req w0 Hget Hhelper. rewrite (Reconcile_returns E req cr w0 w Hget Hhelper), Hrun.
    destruct (patchClusterRegistration E cr (reconcilePhase c) (reconcile E cr w).2).1 as [e |].
    + exists e. reflexivity.
    + destruct err as [e |]; [exists e; reflexivity | contradiction (Hinvalid Hreason); reflexivity].
  - split; [exact (Hnotfound Hreason) |].
    intros req w0 Hget Hhelper. rewrite (Reconcile_returns E req cr w0 w Hget Hhelper), Hrun.
    rewrite (Hnotfound Hreason).
    destruct (patchClusterRegistration E cr (reconcilePhase c) (reconcile E cr w).2).1; reflexivity.
Qed.

(** C4, the claim as stated fails: when the remote API server does not
    answer the probe, the run records [Failed] with [ClusterNotFound] and
    returns a nil error. *)
Lemma failure_not_returned :
  (reconcile Demo.unreachable Demo.fresh Demo.emptyWorld).1
  = PhaseReturn Demo.failed ResultZero None
  ∧ ¬ failureIsReturned.
Proof.
  assert (H : (reconcile Demo.unreachable Demo.fresh Demo.emptyWorld).1
              = PhaseReturn Demo.failed ResultZero None) by (vm_compute; reflexivity).
  split; [exact H |]. intros Hclaim.
  apply (Hclaim Demo.unreachable Demo.fresh _ Demo.emptyWorld _ _ eq_refl H); reflexivity.
Qed.

Lemma failure_return_by_reason_witness :
  (Reason (Status Demo.garbledFailed)
   = ClusterRegistrationReasonInvalidKubeconfig →
   Some (Aggregate [PlainError "illegal base64 data"]) ≠ None
   ∧ ∀ req w0,
       getClusterRegistration Demo.healthy req w0
       = (inl Demo.garbled,
          Demo.emptyWorld) →
       patch_NewHelper Demo.healthy KindClusterRegistration
         (keyOf Demo.garbled) = None →
       ∃ e, (Reconcile Demo.healthy req w0).1 = Returned ResultZero (Some e))
  ∧ (Reason (Status Demo.garbledFailed)
     = ClusterRegistrationReasonClusterNotFound →
     Some (Aggregate [PlainError "illegal base64 data"]) = None
     ∧ ∀ req w0,
         getClusterRegistration Demo.healthy req w0
         = (inl Demo.garbled,
            Demo.emptyWorld) →
         patch_NewHelper Demo.healthy KindClusterRegistration
           (keyOf Demo.garbled) = None →
         (Reconcile Demo.healthy req w0).1
         = Returned ResultZero
             (patchClusterRegistration Demo.healthy
                Demo.garbled
                (reconcilePhase Demo.garbledFailed)
                (reconcile Demo.healthy Demo.garbled
                   Demo.emptyWorld).2).1).
Proof.
  apply (failure_return_by_reason Demo.healthy
           Demo.garbled
           Demo.garbledFailed
           Demo.emptyWorld ResultZero (Some (Aggregate [PlainError "illegal base64 data"]))).
  - reflexivity.
  - vm_compute. reflexivity.
  - reflexivity.
Defined.

(** ** Duplicate names *)

(** C3.  A tracking resource named like the cluster of a fresh registration
    is stored in the registration's namespace, the credential decodes, a
    client is built from it and the probe succeeds: the pipeline ends with
    phase [Failed] and reason [ClusterNameDuplicated]; it issued the four
    calls of the validation and nothing else, and every stored object and the
    membership table are as before, so no second tracking resource exists. *)
Theorem duplicate_name_rejected (E : Env) (cr : ClusterRegistration) (w : World)
    (clm : ClusterManager) (decoded : string) (client : Clientset) (nodes : NodeList) :
  Phase (Status cr) = "" →
  clusterManagers w !! (Namespace (ObjectMeta cr), ClusterName (Spec cr)) = Some clm →
  api_fault E VerbGet KindClusterManager (Namespace (ObjectMeta cr), ClusterName (Spec cr)) = None →
  b64_DecodeString E (KubeConfig (Spec cr)) = (decoded, None) →
  util_GetRemoteK8sClientByKubeConfig E decoded = inl client →
  Nodes_List E client = (nodes, None) →
  let x := after (reconcile E) (cr, w) in
  Status x.1 = mkRegistrationStatus ClusterRegistrationPhaseFailed
                 ClusterRegistrationReasonClusterNameDuplicated
  ∧ sameObjects w x.2
  ∧ calls x.2 = (calls w ++ [CallDecodeString; CallGetRemoteK8sClient; CallNodesList;
                             CallAPI VerbGet KindClusterManager
                               (Namespace (ObjectMeta cr), ClusterName (Spec cr))])%list.
Proof.
  intros Hp Hclm Hfault Hdec Hclient Hnodes. cbv zeta.
  rewrite reconcile_after.
  assert (Hcv : after (CheckValidation E) (cr, w)
                = (SetTypedReason ClusterRegistrationReasonClusterNameDuplicated
                     (SetTypedPhase ClusterRegistrationPhaseFailed cr),
                   mkWorld (clusterRegistrations w) (clusterManagers w) (secrets w)
                     (cluster_member w)
                     (calls w ++ [CallDecodeString; CallGetRemoteK8sClient; CallNodesList;
                                  CallAPI VerbGet KindClusterManager
                                    (Namespace (ObjectMeta cr), ClusterName (Spec cr))]))).
  { unfold after. simpl. unfold CheckValidation, CheckValidation_duplication.
    apply eqb_true_iff in Hp. rewrite Hp. unfold_client. simpl.
    rewrite Hdec. simpl. rewrite Hclient. simpl. rewrite Hnodes. simpl.
    rewrite Hfault, Hclm. simpl. rewrite <- !app_assoc. reflexivity. }
  rewrite Hcv.
  rewrite after_CreateKubeconfigSecret_gate by discriminate.
  rewrite after_CreateClusterManager_gate by discriminate.
  simpl. repeat split.
Qed.

Lemma duplicate_name_rejected_witness :
  let w := mkWorld ∅ (<[("ns", "prod") := Demo.manager "https://10.0.0.1:6443"]> ∅) ∅ [] [] in
  let x := after (reconcile Demo.healthy) (Demo.fresh, w) in
  Status x.1 = mkRegistrationStatus ClusterRegistrationPhaseFailed
                 ClusterRegistrationReasonClusterNameDuplicated
  ∧ sameObjects w x.2
  ∧ calls x.2 = (calls w ++ [CallDecodeString; CallGetRemoteK8sClient; CallNodesList;
                             CallAPI VerbGet KindClusterManager ("ns", "prod")])%list.
Proof.
  apply (duplicate_name_rejected Demo.healthy Demo.fresh
           (mkWorld ∅ (<[("ns", "prod") := Demo.manager "https://10.0.0.1:6443"]> ∅) ∅ [] [])
           (Demo.manager "https://10.0.0.1:6443") Demo.kubeconfigText (RemoteClientset 0)
           (mkNodeList (Some ["node-1"]))).
  - reflexivity.
  - vm_compute. reflexivity.
  - reflexivity.
  - vm_compute. reflexivity.
  - vm_compute. reflexivity.
  - reflexivity.
Defined.

(** ** After a failure *)

Lemma reconcile_idle (E : Env) (cr : ClusterRegistration) (w : World) :
  Phase (Status cr) ≠ "" →
  Phase (Status cr) ≠ ClusterRegistrationPhaseValidated →
  Phase (Status cr) ≠ ClusterRegistrationPhaseSecretCreated →
  ∃ res, reconcile E cr w = (PhaseReturn cr res None, w).
Proof.
  intros He Hv Hsc.
  apply (reconcile_from_CheckValidation E cr cr w w (mkResult false 0) None);
    [apply CheckValidation_gate, He | exact Hv | exact Hsc].
Qed.

Lemma calls_grow (E : Env) (cr : ClusterRegistration) (w : World) :
  ((length (calls w) ≤ length (calls (CheckValidation E cr w).2))%nat
   ∧ (Phase (Status cr) = "" →
      (length (calls w) < length (calls (CheckValidation E cr w).2))%nat))
  ∧ ((length (calls w) ≤ length (calls (CreateKubeconfigSecret E cr w).2))%nat
     ∧ (Phase (Status cr) = ClusterRegistrationPhaseValidated →
        (length (calls w) < length (calls (CreateKubeconfigSecret E cr w).2))%nat))
  ∧ ((length (calls w) ≤ length (calls (CreateClusterManager E cr w).2))%nat
     ∧ (Phase (Status cr) = ClusterRegistrationPhaseSecretCreated →
        (length (calls w) < length (calls (CreateClusterManager E cr w).2))%nat)).
Proof.
  unfold CheckValidation, CheckValidation_duplication, CreateKubeconfigSecret,
    CreateClusterManager.
  split; [| split].
  - destruct (String.eqb (Phase (Status cr)) "") eqn:Hp; simpl.
    + unfold_client. branches; rewrite ?length_app; simpl; lia.
    + apply eqb_false_iff in Hp. split; [lia | contradiction].
  - destruct (String.eqb (Phase (Status cr)) _) eqn:Hp; simpl.
    + unfold_client. branches; rewrite ?length_app; simpl; lia.
    + apply eqb_false_iff in Hp. split; [lia | contradiction].
  - destruct (String.eqb (Phase (Status cr)) _) eqn:Hp; simpl.
    + unfold_client. branches; rewrite ?length_app; simpl; lia.
    + apply eqb_false_iff in Hp. split; [lia | contradiction].
Qed.

(** C5, as amended.  A registration whose phase is [Failed] is not taken up
    again: in every environment and world the pipeline returns at once, with
    the object and the world untouched, no call made and a nil error, and
    [Reconcile], having read such a registration, sends no patch and returns a
    nil error to the scheduler.  What the next run does attempt again is a
    phase whose error left the registration at [""], [Validated] or
    [SecretCreated]. *)
Theorem retry_stops_at_Failed :
  (∀ (E : Env) (cr : ClusterRegistration) (w : World),
     Phase (Status cr) = ClusterRegistrationPhaseFailed →
     ∃ res, reconcile E cr w = (PhaseReturn cr res None, w))
  ∧ (∀ (E : Env) (req : NamespacedName) (cr : ClusterRegistration) (w0 w : World),
       getClusterRegistration E req w0 = (inl cr, w) →
       patch_NewHelper E KindClusterRegistration (keyOf cr) = None →
       Phase (Status cr) = ClusterRegistrationPhaseFailed →
       ∃ res, Reconcile E req w0 = (Returned res None, w))
  ∧ (∀ (E : Env) (cr : ClusterRegistration) (w : World),
       Phase (Status cr) = ""
       ∨ Phase (Status cr) = ClusterRegistrationPhaseValidated
       ∨ Phase (Status cr) = ClusterRegistrationPhaseSecretCreated →
       attempts E cr w).
Proof.
  split; [| split].
  - intros E cr w Hp. apply reconcile_idle; rewrite Hp; discriminate.
  - intros E req cr w0 w Hget Hhelper Hp.
    destruct (reconcile_idle E cr w) as [res Hrec]; try (rewrite Hp; discriminate).
    exists res. unfold Reconcile, bind at 1. rewrite Hget. simpl. rewrite Hhelper.
    unfold bind. rewrite Hrec. simpl.
    assert (Hsame : reconcilePhase cr = cr).
    { unfold reconcilePhase. rewrite Hp. reflexivity. }
    rewrite Hsame. unfold patchClusterRegistration.
    rewrite decide_True by reflexivity. reflexivity.
  - intros E cr w Hp. unfold attempts. intros Heq.
    assert (Hlen : (length (calls w) < length (calls (after (reconcile E) (cr, w)).2))%nat).
    { rewrite reconcile_after.
      pose proof (λ x, proj1 (calls_grow E x.1 x.2)) as Hcv.
      pose proof (λ x, proj1 (proj2 (calls_grow E x.1 x.2))) as Hkcs.
      pose proof (λ x, proj2 (proj2 (calls_grow E x.1 x.2))) as Hclm.
      destruct Hp as [Hp | [Hp | Hp]].
      - destruct (Hcv (cr, w)) as [_ G1]. specialize (G1 Hp).
        destruct (Hkcs (after (CheckValidation E) (cr, w))) as [L2 _].
        destruct (Hclm (after (CreateKubeconfigSecret E) (after (CheckValidation E) (cr, w))))
          as [L3 _].
        unfold after in *. simpl in *. lia.
      - rewrite (after_CheckValidation_gate E (cr, w)) by (simpl; rewrite Hp; discriminate).
        destruct (Hkcs (cr, w)) as [_ G2]. specialize (G2 Hp).
        destruct (Hclm (after (CreateKubeconfigSecret E) (cr, w))) as [L3 _].
        unfold after in *. simpl in *. lia.
      - rewrite (after_CheckValidation_gate E (cr, w)) by (simpl; rewrite Hp; discriminate).
        rewrite (after_CreateKubeconfigSecret_gate E (cr, w))
          by (simpl; rewrite Hp; discriminate).
        destruct (Hclm (cr, w)) as [_ G3]. specialize (G3 Hp).
        unfold after in *. simpl in *. lia. }
    unfold after in Hlen. simpl in Hlen. rewrite Heq in Hlen. lia.
Qed.

(** C5, the claim as stated fails: with every collaborator answering, the
    pipeline leaves a failed registration as it is and makes no call. *)
Lemma failed_not_retried :
  reconcile Demo.healthy Demo.failed Demo.emptyWorld
  = (PhaseReturn Demo.failed ResultZero None, Demo.emptyWorld)
  ∧ ¬ failedIsRetried.
Proof.
  assert (H : reconcile Demo.healthy Demo.failed Demo.emptyWorld
              = (PhaseReturn Demo.failed ResultZero None, Demo.emptyWorld))
    by (vm_compute; reflexivity).
  split; [exact H |]. intros Hclaim.
  apply (Hclaim Demo.healthy Demo.failed Demo.emptyWorld eq_refl).
  rewrite H. reflexivity.
Qed.

Lemma retry_stops_at_Failed_witness :
  (∃ res, reconcile Demo.healthy Demo.failed Demo.emptyWorld
          = (PhaseReturn Demo.failed res None, Demo.emptyWorld))
  ∧ attempts Demo.healthy Demo.fresh Demo.emptyWorld.
Proof.
  split.
  - apply (proj1 retry_stops_at_Failed Demo.healthy Demo.failed Demo.emptyWorld). reflexivity.
  - apply (proj2 (proj2 retry_stops_at_Failed) Demo.healthy Demo.fresh Demo.emptyWorld).
    left. reflexivity.
Defined.

(** ** The cascade from a deleted tracking resource *)

Lemma manager_DeleteFunc_registered (clm : ClusterManager) :
  manager_DeleteFunc clm = true
  ↔ Labels (ObjectMeta clm) !! LabelKeyClmClusterType = Some ClusterTypeRegistered.
Proof.
  unfold manager_DeleteFunc.
  destruct (Labels (ObjectMeta clm) !! LabelKeyClmClusterType) as [val |]; [| split; discriminate].
  destruct (String.eqb val ClusterTypeRegistered) eqn:Hval.
  - apply eqb_true_iff in Hval. subst. split; reflexivity.
  - apply eqb_false_iff in Hval. split; [discriminate | congruence].
Qed.

(** What the map function does, by what it reads and by how the update is
    answered. *)
Lemma requeue_cases (E : Env) (clm : ClusterManager) (w : World) :
  let key := parentKey clm in
  let r := requeueClusterRegistrationsForClusterManager E clm w in
  r.1 = []
  ∧ clusterManagers r.2 = clusterManagers w
  ∧ secrets r.2 = secrets w
  ∧ cluster_member r.2 = cluster_member w
  ∧ match api_fault E VerbGet KindClusterRegistration key, clusterRegistrations w !! key with
    | None, Some parent =>
      if String.eqb (Phase (Status parent)) "Success" then
        match api_fault E VerbStatusUpdate KindClusterRegistration (keyOf parent),
              clusterRegistrations w !! keyOf parent with
        | None, Some stored =>
          clusterRegistrations r.2
          = <[keyOf parent := mkObject (ObjectMeta stored) (Spec stored)
                                (mkRegistrationStatus "Deleted" "cluster is deleted")]>
              (clusterRegistrations w)
        | _, _ => clusterRegistrations r.2 = clusterRegistrations w
        end
      else clusterRegistrations r.2 = clusterRegistrations w
    | _, _ => clusterRegistrations r.2 = clusterRegistrations w
    end.
Proof.
  cbv zeta. unfold requeueClusterRegistrationsForClusterManager, parentKey.
  set (key := (Namespace (ObjectMeta clm), mapGet (Labels (ObjectMeta clm)) LabelKeyClmParent)).
  unfold_client. simpl.
  destruct (api_fault E VerbGet KindClusterRegistration key) as [gerr |]; simpl.
  { destruct (IsNotFound gerr); simpl; repeat split. }
  destruct (clusterRegistrations w !! key) as [parent |]; simpl; [| repeat split].
  destruct (String.eqb (Phase (Status parent)) "Success"); simpl; [| repeat split].
  unfold keyOf. simpl.
  destruct (api_fault E VerbStatusUpdate KindClusterRegistration _) as [uerr |]; simpl;
    [repeat split |].
  destruct (clusterRegistrations w !! _) as [stored |]; simpl; repeat split.
Qed.

(** C6.  A tracking resource labelled as registered is deleted and the
    watch calls the map function.  If the parent registration (found in the
    resource's namespace under the name in the parent label) is stored with
    phase [Success], and the API server serves the read and the status update,
    the stored parent afterwards has phase [Deleted] and reason "cluster is
    deleted", its metadata and spec as before.  If no parent is stored, or its
    phase is not [Success], the stored registrations are unchanged, whatever
    the API server answers.  In every case no other registration, no tracking
    resource, no secret and no membership row changes, and no request is
    returned. *)
Theorem cascade_marks_parent (E : Env) (clm : ClusterManager) (w : World) :
  Labels (ObjectMeta clm) !! LabelKeyClmClusterType = Some ClusterTypeRegistered →
  registrationsIndexed w →
  let key := parentKey clm in
  let r := onClusterManagerDeleted E clm w in
  (served E KindClusterRegistration key →
   ∀ parent, clusterRegistrations w !! key = Some parent →
             Phase (Status parent) = "Success" →
             clusterRegistrations r.2 !! key = Some (markedDeleted parent))
  ∧ (clusterRegistrations w !! key = None
     ∨ (∃ parent, clusterRegistrations w !! key = Some parent
                  ∧ Phase (Status parent) ≠ "Success") →
     clusterRegistrations r.2 = clusterRegistrations w)
  ∧ (∀ k, k ≠ key → clusterRegistrations r.2 !! k = clusterRegistrations w !! k)
  ∧ clusterManagers r.2 = clusterManagers w
  ∧ secrets r.2 = secrets w
  ∧ cluster_member r.2 = cluster_member w
  ∧ r.1 = [].
Proof.
  intros Hlabel Hidx. cbv zeta. unfold onClusterManagerDeleted.
  apply manager_DeleteFunc_registered in Hlabel. rewrite Hlabel.
  destruct (requeue_cases E clm w) as (Hret & Hclm & Hsec & Hmem & Hregs).
  set (key := parentKey clm) in *.
  set (r := requeueClusterRegistrationsForClusterManager E clm w) in *.
  repeat split; try assumption.
  - intros Hserved parent Hparent Hphase.
    rewrite (Hserved VerbGet), Hparent in Hregs.
    apply eqb_true_iff in Hphase. rewrite Hphase in Hregs.
    pose proof (Hidx _ _ Hparent) as Hk. simpl in Hk. rewrite Hk in Hregs.
    rewrite (Hserved VerbStatusUpdate), Hparent in Hregs.
    rewrite Hregs. apply lookup_insert_eq.
  - intros [Hnone | (parent & Hparent & Hphase)].
    + rewrite Hnone in Hregs. destruct (api_fault E VerbGet _ _); exact Hregs.
    + rewrite Hparent in Hregs. apply eqb_false_iff in Hphase. rewrite Hphase in Hregs.
      destruct (api_fault E VerbGet _ _); exact Hregs.
  - intros k Hk.
    destruct (api_fault E VerbGet KindClusterRegistration key); [rewrite Hregs; reflexivity |].
    destruct (clusterRegistrations w !! key) as [parent |] eqn:Hparent;
      [| rewrite Hregs; reflexivity].
    pose proof (Hidx _ _ Hparent) as Hkey. simpl in Hkey. rewrite Hkey in Hregs.
    destruct (String.eqb (Phase (Status parent)) "Success"); [| rewrite Hregs; reflexivity].
    destruct (api_fault E VerbStatusUpdate _ _); [rewrite Hregs; reflexivity |].
    rewrite Hparent in Hregs. rewrite Hregs. apply lookup_insert_ne. congruence.
Qed.

Lemma onboarded_indexed : registrationsIndexed Demo.onboarded.
Proof.
  intros k cr Hk. unfold Demo.onboarded in Hk. simpl in Hk.
  apply lookup_insert_Some in Hk as [[<- <-] | [_ Hk]].
  - reflexivity.
  - rewrite lookup_empty in Hk. discriminate.
Defined.

Lemma cascade_marks_parent_witness :
  clusterRegistrations (onClusterManagerDeleted Demo.healthy (Demo.manager "") Demo.onboarded).2
    !! ("ns", "reg")
  = Some (markedDeleted Demo.succeeded).
Proof.
  apply (proj1 (cascade_marks_parent Demo.healthy (Demo.manager "") Demo.onboarded
                  eq_refl onboarded_indexed)).
  - intros v. reflexivity.
  - reflexivity.
  - reflexivity.
Defined.

(** ** Discovery of the control-plane endpoint *)

(** C7.  The secret's kubeconfig loads and its current context leads to a
    server URI; the API server serves the requests for the tracking resource
    named by the secret, and the patch helper is made.  Then the call returns
    a nil error, and: when no tracking resource is stored, or the stored
    endpoint equals the server URI up to letter case, nothing stored changes;
    otherwise the stored tracking resource gets the server URI as its
    [status.controlPlaneEndpoint], and nothing else changes. *)
Theorem endpoint_discovery (E : Env) (secret : Secret) (w : World)
    (kubeConfig : api_Config) (server : string) :
  let key := (Namespace (secret_ObjectMeta secret),
              splitHead KubeconfigSuffix (Name (secret_ObjectMeta secret))) in
  let r := UpdateClusterManagerControlPlaneEndpoint E secret w in
  clientcmd_Load E (mapGet (Data secret) "value") = inl kubeConfig →
  currentServer kubeConfig = Some server →
  served E KindClusterManager key →
  patch_NewHelper E KindClusterManager key = None →
  managersIndexed w →
  r.1 = Returned ResultZero None
  ∧ clusterRegistrations r.2 = clusterRegistrations w
  ∧ secrets r.2 = secrets w
  ∧ cluster_member r.2 = cluster_member w
  ∧ match clusterManagers w !! key with
    | None => clusterManagers r.2 = clusterManagers w
    | Some clm =>
      if strings_EqualFold E (ControlPlaneEndpoint (Status clm)) server
      then clusterManagers r.2 = clusterManagers w
      else clusterManagers r.2
           = <[key := mkObject (ObjectMeta clm) (Spec clm) (mkManagerStatus server)]>
               (clusterManagers w)
    end.
Proof.
  cbv zeta. intros Hload Hserver Hserved Hhelper Hidx.
  set (key := (Namespace (secret_ObjectMeta secret),
               splitHead KubeconfigSuffix (Name (secret_ObjectMeta secret)))) in *.
  unfold UpdateClusterManagerControlPlaneEndpoint. fold key.
  unfold Load, getClusterManager, apiGet, logCall, bind, ret. simpl.
  rewrite Hload. simpl. rewrite (Hserved VerbGet).
  destruct (clusterManagers w !! key) as [clm |] eqn:Hclm; simpl; [| repeat split].
  rewrite Hserver.
  pose proof (Hidx _ _ Hclm) as Hkey. simpl in Hkey.
  destruct (strings_EqualFold E (ControlPlaneEndpoint (Status clm)) server); simpl;
    [repeat split |].
  rewrite Hkey, Hhelper. unfold patchClusterManager.
  case_decide as Hsame.
  - simpl. repeat split. rewrite <- Hsame. symmetry. apply insert_id. exact Hclm.
  - unfold bind, logCall, ret. simpl. unfold keyOf in *. simpl in *.
    rewrite !Hkey, (Hserved VerbPatch), Hclm. simpl. repeat split.
Qed.

Lemma tracked_indexed (endpoint : string) : managersIndexed (Demo.tracked endpoint).
Proof.
  intros k clm Hk. unfold Demo.tracked in Hk. simpl in Hk.
  apply lookup_insert_Some in Hk as [[<- <-] | [_ Hk]].
  - reflexivity.
  - rewrite lookup_empty in Hk. discriminate.
Defined.

Lemma endpoint_discovery_witness :
  (UpdateClusterManagerControlPlaneEndpoint Demo.healthy Demo.credential
     (Demo.tracked "https://old.example.org")).1
  = Returned ResultZero None
  ∧ clusterManagers
      (UpdateClusterManagerControlPlaneEndpoint Demo.healthy Demo.credential
         (Demo.tracked "https://old.example.org")).2
    = <[("ns", "prod") := Demo.manager "https://10.0.0.1:6443"]>
        (clusterManagers (Demo.tracked "https://old.example.org"))
  ∧ clusterManagers
      (UpdateClusterManagerControlPlaneEndpoint Demo.healthy Demo.credential
         (Demo.tracked "HTTPS://10.0.0.1:6443")).2
    = clusterManagers (Demo.tracked "HTTPS://10.0.0.1:6443").
Proof.
  destruct (endpoint_discovery Demo.healthy Demo.credential (Demo.tracked "https://old.example.org")
              (mkConfig "admin" (<["admin" := mkContext "prod"]> ∅)
                 (<["prod" := mkCluster "https://10.0.0.1:6443"]> ∅))
              "https://10.0.0.1:6443" eq_refl eq_refl (λ v, eq_refl) eq_refl
              (tracked_indexed "https://old.example.org"))
    as (Hret & _ & _ & _ & Hnew).
  destruct (endpoint_discovery Demo.healthy Demo.credential (Demo.tracked "HTTPS://10.0.0.1:6443")
              (mkConfig "admin" (<["admin" := mkContext "prod"]> ∅)
                 (<["prod" := mkCluster "https://10.0.0.1:6443"]> ∅))
              "https://10.0.0.1:6443" eq_refl eq_refl (λ v, eq_refl) eq_refl
              (tracked_indexed "HTTPS://10.0.0.1:6443"))
    as (_ & _ & _ & _ & Hsame).
  split; [exact Hret |]. split; [exact Hnew | exact Hsame].
Defined.

(** ** Status writes that fail *)

Lemma requeue_update_refused (E : Env) (clm : ClusterManager) (w : World) (e : error) :
  registrationsIndexed w →
  api_fault E VerbStatusUpdate KindClusterRegistration (parentKey clm) = Some e →
  (requeueClusterRegistrationsForClusterManager E clm w).1 = []
  ∧ sameObjects w (requeueClusterRegistrationsForClusterManager E clm w).2.
Proof.
  intros Hidx Hfault.
  destruct (requeue_cases E clm w) as (Hret & Hclm & Hsec & Hmem & Hregs).
  split; [exact Hret |]. unfold sameObjects. repeat split; try assumption.
  destruct (api_fault E VerbGet KindClusterRegistration (parentKey clm)); [exact Hregs |].
  destruct (clusterRegistrations w !! parentKey clm) as [parent |] eqn:Hparent; [| exact Hregs].
  pose proof (Hidx _ _ Hparent) as Hkey. simpl in Hkey. rewrite Hkey, Hfault in Hregs.
  destruct (String.eqb (Phase (Status parent)) "Success"); exact Hregs.
Qed.

(** C9, as amended.  Of the status writes of the controllers only the
    deferred patch of [Reconcile] is surfaced: when it fails, [Reconcile]
    returns the patch error to the scheduler.  The map function of the
    ClusterManager watch and the endpoint phase of the secret controller log
    a failed status write and go on: the stored objects stay as they were,
    the map function returns no request and the endpoint phase a nil error. *)
Theorem status_write_failures :
  (∀ (E : Env) (req : NamespacedName) (cr c : ClusterRegistration) (w0 w : World)
     (res : Result) (reterr : option error) (e : error),
     getClusterRegistration E req w0 = (inl cr, w) →
     patch_NewHelper E KindClusterRegistration (keyOf cr) = None →
     (reconcile E cr w).1 = PhaseReturn c res reterr →
     (patchClusterRegistration E cr (reconcilePhase c) (reconcile E cr w).2).1 = Some e →
     (Reconcile E req w0).1 = Returned res (Some e))
  ∧ (∀ (E : Env) (clm : ClusterManager) (w : World) (e : error),
       registrationsIndexed w →
       api_fault E VerbStatusUpdate KindClusterRegistration (parentKey clm) = Some e →
       (requeueClusterRegistrationsForClusterManager E clm w).1 = []
       ∧ sameObjects w (requeueClusterRegistrationsForClusterManager E clm w).2)
  ∧ (∀ (E : Env) (secret : Secret) (w : World) (kubeConfig : api_Config) (server : string)
       (e : error),
       let key := (Namespace (secret_ObjectMeta secret),
                   splitHead KubeconfigSuffix (Name (secret_ObjectMeta secret))) in
       clientcmd_Load E (mapGet (Data secret) "value") = inl kubeConfig →
       currentServer kubeConfig = Some server →
       api_fault E VerbGet KindClusterManager key = None →
       patch_NewHelper E KindClusterManager key = None →
       api_fault E VerbPatch KindClusterManager key = Some e →
       managersIndexed w →
       (UpdateClusterManagerControlPlaneEndpoint E secret w).1 = Returned ResultZero None
       ∧ sameObjects w (UpdateClusterManagerControlPlaneEndpoint E secret w).2).
Proof.
  split; [| split].
  - intros E req cr c w0 w res reterr e Hget Hhelper Hrun Hpatch.
    rewrite (Reconcile_returns E req cr w0 w Hget Hhelper), Hrun, Hpatch. reflexivity.
  - intros E clm w e. apply requeue_update_refused.
  - intros E secret w kubeConfig server e. cbv zeta.
    set (key := (Namespace (secret_ObjectMeta secret),
                 splitHead KubeconfigSuffix (Name (secret_ObjectMeta secret)))).
    intros Hload Hserver Hget Hhelper Hpatch Hidx.
    unfold UpdateClusterManagerControlPlaneEndpoint. fold key.
    unfold Load, getClusterManager, apiGet, logCall, bind, ret, sameObjects. simpl.
    rewrite Hload. simpl. rewrite Hget.
    destruct (clusterManagers w !! key) as [clm |] eqn:Hclm; simpl; [| repeat split].
    rewrite Hserver.
    pose proof (Hidx _ _ Hclm) as Hkey. simpl in Hkey.
    destruct (strings_EqualFold E (ControlPlaneEndpoint (Status clm)) server); simpl;
      [repeat split |].
    rewrite Hkey, Hhelper. unfold patchClusterManager.
    case_decide as Hsame; [simpl; repeat split |].
    unfold bind, logCall, ret. simpl. unfold keyOf in *. simpl in *.
    rewrite !Hkey, Hpatch. simpl. repeat split.
Qed.

(** C9, the claim as stated fails: the API server answers the status update
    of the map function with a conflict; the parent registration stays at
    [Success] and the map function returns no request. *)
Lemma cascade_write_lost :
  Status <$> (clusterRegistrations
                (requeueClusterRegistrationsForClusterManager Demo.conflicted
                   (Demo.manager "") Demo.onboarded).2 !! ("ns", "reg"))
  = Some (mkRegistrationStatus "Success" "")
  ∧ (requeueClusterRegistrationsForClusterManager Demo.conflicted
       (Demo.manager "") Demo.onboarded).1 = []
  ∧ ¬ cascadeWriteKept.
Proof.
  assert (H1 : Status <$> (clusterRegistrations
                (requeueClusterRegistrationsForClusterManager Demo.conflicted
                   (Demo.manager "") Demo.onboarded).2 !! ("ns", "reg"))
               = Some (mkRegistrationStatus "Success" "")) by (vm_compute; reflexivity).
  assert (H2 : (requeueClusterRegistrationsForClusterManager Demo.conflicted
                  (Demo.manager "") Demo.onboarded).1 = []) by (vm_compute; reflexivity).
  split; [exact H1 |]. split; [exact H2 |]. intros Hclaim.
  destruct (Hclaim Demo.conflicted (Demo.manager "") Demo.onboarded Demo.succeeded
              onboarded_indexed eq_refl eq_refl eq_refl) as [Hkept | Hretry].
  - change (parentKey (Demo.manager "")) with ("ns", "reg") in Hkept.
    rewrite Hkept in H1. discriminate.
  - contradiction.
Qed.

Lemma status_write_failures_witness :
  (requeueClusterRegistrationsForClusterManager Demo.conflicted
     (Demo.manager "") Demo.onboarded).1 = []
  ∧ sameObjects Demo.onboarded
      (requeueClusterRegistrationsForClusterManager Demo.conflicted
         (Demo.manager "") Demo.onboarded).2.
Proof.
  apply (proj1 (proj2 status_write_failures) Demo.conflicted (Demo.manager "") Demo.onboarded
           Demo.conflict onboarded_indexed).
  reflexivity.
Defined.

(** ** Unchecked results *)

Lemma dangling_currentServer (kubeConfig : api_Config) :
  dangling kubeConfig ↔ currentServer kubeConfig = None.
Proof.
  unfold dangling, currentServer.
  destruct (Contexts kubeConfig !! CurrentContext kubeConfig) as [context |].
  - destruct (Clusters kubeConfig !! Cluster context) as [cluster |] eqn:Hcluster.
    + split; [| discriminate]. intros [H | (c & Hc & Hnone)]; [discriminate |].
      injection Hc as <-. congruence.
    + split; [reflexivity |]. intros _. right. eauto.
  - split; [reflexivity | intros _; left; reflexivity].
Qed.

Lemma String_length_append (s t : string) :
  String.length (s +:+ t) = (String.length s + String.length t)%nat.
Proof. induction s as [| c s IH]; simpl; [reflexivity | rewrite IH; reflexivity]. Qed.

Lemma matchEndpointHere_length (s m : string) :
  matchEndpointHere s = Some m → (9 ≤ String.length m)%nat.
Proof.
  unfold matchEndpointHere. destruct (String.prefix "https://" s); [| discriminate].
  destruct (takeWhile isEndpointChar (dropString 8 s)) as [| c body]; [discriminate |].
  intros [= <-]. simpl. lia.
Qed.

Lemma FindString_length (s : string) :
  FindString s = "" ∨ (9 ≤ String.length (FindString s))%nat.
Proof.
  induction s as [| c s IH].
  - left. reflexivity.
  - change (FindString (String c s))
      with (match matchEndpointHere (String c s) with
            | Some m => m
            | None => FindString s
            end).
    destruct (matchEndpointHere (String c s)) as [m |] eqn:Hm; [| exact IH].
    right. eapply matchEndpointHere_length, Hm.
Qed.

(** The slice [FindString(...)[len("https://"):]] is out of range exactly
    when the pattern matched nothing. *)
Lemma endpoint_slice_panics (s : string) :
  sliceFrom (FindString s) (String.length "https://") = None ↔ FindString s = "".
Proof.
  unfold sliceFrom. simpl String.length at 1.
  destruct (FindString_length s) as [Hempty | Hlong].
  - rewrite Hempty. simpl. split; reflexivity.
  - destruct (8 <=? String.length (FindString s))%nat eqn:Hle.
    + split; [discriminate |]. intros Hempty. rewrite Hempty in Hlong. simpl in Hlong. lia.
    + apply Nat.leb_gt in Hle. lia.
Qed.

(** C10.  [CreateClusterManager] panics with a slice out of range when the
    decoded credential holds no match of the endpoint pattern;
    [CreateKubeconfigSecret] and [UpdateClusterManagerControlPlaneEndpoint]
    panic with a nil-pointer dereference when the kubeconfig loads and its
    current context, or the cluster that context names, is not declared.  The
    panics leave [reconcile], and [Reconcile] hands them on after its deferred
    patch. *)
Theorem unchecked_results_panic :
  (∀ (E : Env) (cr : ClusterRegistration) (w : World),
     Phase (Status cr) = ClusterRegistrationPhaseSecretCreated →
     FindString (b64_DecodeString E (KubeConfig (Spec cr))).1 = "" →
     ∃ w', CreateClusterManager E cr w = (PhasePanic cr sliceOutOfRange, w')
           ∧ reconcile E cr w = (PhasePanic cr sliceOutOfRange, w')
           ∧ ∀ req w0, getClusterRegistration E req w0 = (inl cr, w) →
                       patch_NewHelper E KindClusterRegistration (keyOf cr) = None →
                       (Reconcile E req w0).1 = Panicked sliceOutOfRange)
  ∧ (∀ (E : Env) (cr : ClusterRegistration) (w : World) (kubeConfig : api_Config),
       Phase (Status cr) = ClusterRegistrationPhaseValidated →
       clientcmd_Load E (b64_DecodeString E (KubeConfig (Spec cr))).1 = inl kubeConfig →
       dangling kubeConfig →
       ∃ w', CreateKubeconfigSecret E cr w = (PhasePanic cr nilPointerDereference, w')
             ∧ reconcile E cr w = (PhasePanic cr nilPointerDereference, w')
             ∧ ∀ req w0, getClusterRegistration E req w0 = (inl cr, w) →
                         patch_NewHelper E KindClusterRegistration (keyOf cr) = None →
                         (Reconcile E req w0).1 = Panicked nilPointerDereference)
  ∧ (∀ (E : Env) (secret : Secret) (w : World) (kubeConfig : api_Config)
       (clm : ClusterManager),
       let key := (Namespace (secret_ObjectMeta secret),
                   splitHead KubeconfigSuffix (Name (secret_ObjectMeta secret))) in
       clientcmd_Load E (mapGet (Data secret) "value") = inl kubeConfig →
       dangling kubeConfig →
       api_fault E VerbGet KindClusterManager key = None →
       clusterManagers w !! key = Some clm →
       ∃ w', UpdateClusterManagerControlPlaneEndpoint E secret w
             = (Panicked nilPointerDereference, w')).
Proof.
  split; [| split].
  - intros E cr w Hp Hnone.
    apply endpoint_slice_panics in Hnone.
    change (String.length "https://") with 8%nat in Hnone.
    assert (Hclm : ∃ w', CreateClusterManager E cr w = (PhasePanic cr sliceOutOfRange, w')).
    { unfold CreateClusterManager. apply eqb_true_iff in Hp. rewrite Hp. simpl.
      unfold decodeString, logCall, bind, ret. simpl. rewrite Hnone. eauto. }
    destruct Hclm as [w' Hclm]. exists w'. split; [exact Hclm |].
    assert (Hrec : reconcile E cr w = (PhasePanic cr sliceOutOfRange, w')).
    { unfold reconcile. simpl. unfold bind.
      rewrite CheckValidation_gate by (rewrite Hp; discriminate). simpl.
      rewrite CreateKubeconfigSecret_gate by (rewrite Hp; discriminate). simpl.
      rewrite Hclm. reflexivity. }
    split; [exact Hrec |]. intros req w0 Hget Hhelper.
    rewrite (Reconcile_returns E req cr w0 w Hget Hhelper), Hrec. reflexivity.
  - intros E cr w kubeConfig Hp Hload Hdangling.
    apply dangling_currentServer in Hdangling.
    assert (Hkcs : ∃ w', CreateKubeconfigSecret E cr w = (PhasePanic cr nilPointerDereference, w')).
    { unfold CreateKubeconfigSecret. apply eqb_true_iff in Hp. rewrite Hp. simpl.
      unfold decodeString, Load, logCall, bind, ret. simpl. rewrite Hload, Hdangling. eauto. }
    destruct Hkcs as [w' Hkcs]. exists w'. split; [exact Hkcs |].
    assert (Hrec : reconcile E cr w = (PhasePanic cr nilPointerDereference, w')).
    { unfold reconcile. simpl. unfold bind.
      rewrite CheckValidation_gate by (rewrite Hp; discriminate). simpl.
      rewrite Hkcs. reflexivity. }
    split; [exact Hrec |]. intros req w0 Hget Hhelper.
    rewrite (Reconcile_returns E req cr w0 w Hget Hhelper), Hrec. reflexivity.
  - intros E secret w kubeConfig clm key Hload Hdangling Hget Hclm.
    apply dangling_currentServer in Hdangling.
    unfold UpdateClusterManagerControlPlaneEndpoint. fold key.
    unfold Load, getClusterManager, apiGet, logCall, bind, ret. simpl.
    rewrite Hload. simpl. rewrite Hget, Hclm. simpl. rewrite Hdangling. eauto.
Qed.

Lemma unchecked_results_panic_witness :
  (b64_DecodeString Demo.healthy (KubeConfig (Spec Demo.patternless)) = ("hello", None)
   ∧ ∃ w', CreateClusterManager Demo.healthy Demo.patternless Demo.emptyWorld
           = (PhasePanic Demo.patternless sliceOutOfRange, w'))
  ∧ (b64_DecodeString Demo.healthy (KubeConfig (Spec Demo.contextless))
     = (Demo.danglingText, None)
     ∧ ∃ w', CreateKubeconfigSecret Demo.healthy Demo.contextless Demo.emptyWorld
             = (PhasePanic Demo.contextless nilPointerDereference, w'))
  ∧ ∃ w', UpdateClusterManagerControlPlaneEndpoint Demo.healthy Demo.credentialDangling
            (Demo.tracked "")
          = (Panicked nilPointerDereference, w').
Proof.
  split; [| split].
  - split; [vm_compute; reflexivity |].
    destruct (proj1 unchecked_results_panic Demo.healthy Demo.patternless Demo.emptyWorld
                eq_refl eq_refl) as (w' & H & _).
    exists w'. exact H.
  - split; [vm_compute; reflexivity |].
    destruct (proj1 (proj2 unchecked_results_panic) Demo.healthy Demo.contextless
                Demo.emptyWorld (mkConfig "admin" ∅ ∅) eq_refl eq_refl
                (or_introl eq_refl)) as (w' & H & _).
    exists w'. exact H.
  - apply (proj2 (proj2 unchecked_results_panic) Demo.healthy Demo.credentialDangling
             (Demo.tracked "") (mkConfig "admin" ∅ ∅) (Demo.manager "")
             eq_refl (or_introl eq_refl) eq_refl eq_refl).
Defined.

(** ** Further properties of the reconciler *)

(** The duplicate check records the failure and returns the nil error of
    the Get that found the tracking resource: the pipeline's error is nil. *)
Theorem duplicate_returns_nil (E : Env) (cr : ClusterRegistration) (w : World)
    (clm : ClusterManager) (decoded : string) (client : Clientset) (nodes : NodeList) :
  Phase (Status cr) = "" →
  clusterManagers w !! (Namespace (ObjectMeta cr), ClusterName (Spec cr)) = Some clm →
  api_fault E VerbGet KindClusterManager (Namespace (ObjectMeta cr), ClusterName (Spec cr)) = None →
  b64_DecodeString E (KubeConfig (Spec cr)) = (decoded, None) →
  util_GetRemoteK8sClientByKubeConfig E decoded = inl client →
  Nodes_List E client = (nodes, None) →
  ∃ res w',
    reconcile E cr w
    = (PhaseReturn
         (SetTypedReason ClusterRegistrationReasonClusterNameDuplicated
            (SetTypedPhase ClusterRegistrationPhaseFailed cr)) res None, w').
Proof.
  intros Hp Hclm Hfault Hdec Hclient Hnodes.
  assert (Hcv : ∃ w', CheckValidation E cr w
                = (PhaseReturn
                     (SetTypedReason ClusterRegistrationReasonClusterNameDuplicated
                        (SetTypedPhase ClusterRegistrationPhaseFailed cr))
                     (mkResult false 0) None, w')).
  { unfold CheckValidation, CheckValidation_duplication.
    apply eqb_true_iff in Hp. rewrite Hp. unfold_client. simpl.
    rewrite Hdec. simpl. rewrite Hclient. simpl. rewrite Hnodes. simpl.
    rewrite Hfault, Hclm. simpl. eauto. }
  destruct Hcv as [w' Hcv].
  destruct (reconcile_from_CheckValidation E cr _ w w' _ None Hcv) as [res Hrec];
    [discriminate | discriminate |].
  exists res, w'. exact Hrec.
Qed.

Lemma duplicate_returns_nil_witness :
  ∃ res w',
    reconcile Demo.healthy Demo.fresh (Demo.tracked "")
    = (PhaseReturn
         (SetTypedReason ClusterRegistrationReasonClusterNameDuplicated
            (SetTypedPhase ClusterRegistrationPhaseFailed Demo.fresh)) res None, w').
Proof.
  apply (duplicate_returns_nil Demo.healthy Demo.fresh (Demo.tracked "") (Demo.manager "")
           Demo.kubeconfigText (RemoteClientset 0) (mkNodeList (Some ["node-1"]))).
  - reflexivity.
  - vm_compute. reflexivity.
  - reflexivity.
  - vm_compute. reflexivity.
  - vm_compute. reflexivity.
  - reflexivity.
Defined.

(** [reconcilePhase] changes nothing at any of the phases [""], [Validated],
    [SecretCreated], [Success], [Failed] and [Deleted]. *)
Theorem reconcilePhase_inert (cr : ClusterRegistration) :
  phaseRank (Phase (Status cr)) ≠ None ∨ terminalPhase (Phase (Status cr)) = true →
  reconcilePhase cr = cr.
Proof.
  unfold reconcilePhase, phaseRank, terminalPhase.
  destruct (String.eqb (Phase (Status cr)) "validated") eqn:Hp; [| reflexivity].
  apply eqb_true_iff in Hp. rewrite Hp. simpl. intros [H | H]; [contradiction | discriminate].
Qed.

Lemma reconcilePhase_inert_witness : reconcilePhase Demo.succeeded = Demo.succeeded.
Proof. apply (reconcilePhase_inert Demo.succeeded). left. discriminate. Defined.




(** The deferred patch of a run that onboarded the cluster is refused: the
    scheduler gets the patch error, the stored phase is still empty while the
    tracking resource exists, and the next run fails the registration as a
    duplicate of its own tracking resource. *)
Example refused_patch_then_duplicate :
  (Reconcile Demo.patchConflicted ("ns", "reg") Demo.submitted).1
  = Returned ResultZero (Some Demo.conflict)
  ∧ Status <$> (clusterRegistrations
                  (run [EvReconcile Demo.patchConflicted ("ns", "reg")] Demo.submitted)
                !! ("ns", "reg"))
    = Some (mkRegistrationStatus "" "")
  ∧ Status <$> (clusterRegistrations
                  (run [EvReconcile Demo.patchConflicted ("ns", "reg");
                        EvReconcile Demo.healthy ("ns", "reg")] Demo.submitted)
                !! ("ns", "reg"))
    = Some (mkRegistrationStatus "Failed" "ClusterNameDuplicated").
Proof. repeat split; vm_compute; reflexivity. Qed.

(** ** When validation succeeds *)

(** A fresh registration leaves [CheckValidation] at [Validated] exactly
    when the credential decodes, a client is built from the decoded bytes,
    the node probe either returns no error or returns an error together with
    a non-nil item list, and the read of the tracking resource named like the
    cluster answers not-found (none is stored, or the API server says so).
    The call then returns a nil error; in every case it writes nothing. *)
Theorem validation_succeeds_iff (E : Env) (cr : ClusterRegistration) (w : World) :
  Phase (Status cr) = "" →
  let r := CheckValidation E cr w in
  let clmKey := (Namespace (ObjectMeta cr), ClusterName (Spec cr)) in
  (Phase (Status (outcomeObject r.1)) = ClusterRegistrationPhaseValidated
   ↔ ∃ decoded client,
       b64_DecodeString E (KubeConfig (Spec cr)) = (decoded, None)
       ∧ util_GetRemoteK8sClientByKubeConfig E decoded = inl client
       ∧ ((Nodes_List E client).2 = None ∨ Items (Nodes_List E client).1 ≠ None)
       ∧ match api_fault E VerbGet KindClusterManager clmKey with
         | Some e => IsNotFound e = true
         | None => clusterManagers w !! clmKey = None
         end)
  ∧ (Phase (Status (outcomeObject r.1)) = ClusterRegistrationPhaseValidated →
     r.1 = PhaseReturn (SetTypedPhase ClusterRegistrationPhaseValidated cr) ResultZero None)
  ∧ sameObjects w r.2.
Proof.
  intros Hp. cbv zeta. unfold CheckValidation, CheckValidation_duplication, sameObjects.
  apply eqb_true_iff in Hp as Hp'. rewrite Hp'. simpl. unfold_client. simpl.
  destruct (b64_DecodeString E (KubeConfig (Spec cr))) as [decoded [derr |]] eqn:Hdec; simpl.
  { repeat split; try (simpl; intros; discriminate).
    intros (d & c & [=] & _). }
  destruct (util_GetRemoteK8sClientByKubeConfig E decoded) as [client | cerr] eqn:Hrc; simpl.
  2:{ repeat split; try (simpl; intros; discriminate).
      intros (d & c & [= <-] & Hc & _). congruence. }
  destruct (Nodes_List E client) as [[items] [nerr |]] eqn:Hnl; simpl;
    [destruct items as [items |]; simpl |];
    try (destruct (api_fault E VerbGet KindClusterManager
                     (Namespace (ObjectMeta cr), ClusterName (Spec cr)))
           as [gerr |] eqn:Hfault; simpl;
         [destruct (IsNotFound gerr) eqn:Hnf; simpl
         | destruct (clusterManagers w !! (Namespace (ObjectMeta cr), ClusterName (Spec cr)))
             as [clm |] eqn:Hclm; simpl]);
    (split;
     [ split;
       [ intros H; first [ discriminate H | rewrite Hp in H; discriminate H
                         | exists decoded, client; rewrite Hnl; simpl;
                           repeat split; auto; right; discriminate ]
       | intros (d & c & Hd & Hc & Hn & Hg); injection Hd as <-;
         rewrite Hrc in Hc; injection Hc as <-; rewrite Hnl in Hn; simpl in Hn;
         first [ reflexivity | discriminate Hg
               | destruct Hn as [Hn | Hn]; [discriminate Hn | contradiction Hn; reflexivity] ] ]
     | split;
       [ intros H; first [ reflexivity | discriminate H | rewrite Hp in H; discriminate H ]
       | repeat split ] ]).
Qed.

Lemma validation_succeeds_iff_witness :
  Phase (Status (outcomeObject (CheckValidation Demo.flaky Demo.fresh Demo.emptyWorld).1))
  = ClusterRegistrationPhaseValidated.
Proof.
  apply (proj1 (validation_succeeds_iff Demo.flaky Demo.fresh Demo.emptyWorld eq_refl)).
  exists Demo.kubeconfigText, (RemoteClientset 0).
  split; [vm_compute; reflexivity |]. split; [reflexivity |].
  split; [right; discriminate | reflexivity].
Defined.

(** ** The error of a run *)

Lemma CheckValidation_error (E : Env) (cr c : ClusterRegistration) (w w1 : World)
    (r : Result) (e : error) :
  CheckValidation E cr w = (PhaseReturn c r (Some e), w1) →
  Phase (Status c) = "" ∨ Phase (Status c) = ClusterRegistrationPhaseFailed.
Proof.
  unfold CheckValidation, CheckValidation_duplication.
  destruct (String.eqb (Phase (Status cr)) "") eqn:Hp; simpl; [| discriminate].
  apply eqb_true_iff in Hp. unfold_client. intros H.
  branches; simpl; auto.
Qed.

Lemma CreateKubeconfigSecret_error (E : Env) (cr c : ClusterRegistration) (w w1 : World)
    (r : Result) (e : error) :
  CreateKubeconfigSecret E cr w = (PhaseReturn c r (Some e), w1) →
  c = cr ∧ Phase (Status cr) = ClusterRegistrationPhaseValidated.
Proof.
  unfold CreateKubeconfigSecret.
  destruct (String.eqb (Phase (Status cr)) _) eqn:Hp; simpl; [| discriminate].
  apply eqb_true_iff in Hp. unfold_client. intros H.
  branches; simpl; auto.
Qed.

Lemma CreateClusterManager_error (E : Env) (cr c : ClusterRegistration) (w w1 : World)
    (r : Result) (e : error) :
  CreateClusterManager E cr w = (PhaseReturn c r (Some e), w1) →
  c = cr ∧ Phase (Status cr) = ClusterRegistrationPhaseSecretCreated.
Proof.
  unfold CreateClusterManager.
  destruct (String.eqb (Phase (Status cr)) _) eqn:Hp; simpl; [| discriminate].
  apply eqb_true_iff in Hp. unfold_client. intros H.
  branches; simpl; auto.
Qed.

(** A run of the pipeline that returns an error returns the aggregate of
    exactly one error, the one a single phase function returned: the phase
    functions called after it do nothing, so the object and the world of the
    run are those the failing phase function left.  The phase of such a run is
    [""], [Failed], [Validated] or [SecretCreated], never [Success]. *)
Theorem pipeline_error_is_single (E : Env) (cr c : ClusterRegistration) (w w' : World)
    (res : Result) (err : error) :
  reconcile E cr w = (PhaseReturn c res (Some err), w') →
  ∃ e, err = Aggregate [e]
       ∧ ((∃ r, CheckValidation E cr w = (PhaseReturn c r (Some e), w')
                ∧ (Phase (Status c) = ""
                   ∨ Phase (Status c) = ClusterRegistrationPhaseFailed))
          ∨ (∃ r w0, CreateKubeconfigSecret E c w0 = (PhaseReturn c r (Some e), w')
                     ∧ Phase (Status c) = ClusterRegistrationPhaseValidated)
          ∨ (∃ r w0, CreateClusterManager E c w0 = (PhaseReturn c r (Some e), w')
                     ∧ Phase (Status c) = ClusterRegistrationPhaseSecretCreated)).
Proof.
  unfold reconcile. simpl. unfold bind.
  destruct (CheckValidation E cr w) as [[c1 r1 [e1 |] | c1 m1] w1] eqn:H1; simpl;
    [| | discriminate].
  { pose proof (CheckValidation_error E cr c1 w w1 r1 e1 H1) as Hp.
    rewrite CreateKubeconfigSecret_gate by (destruct Hp as [-> | ->]; discriminate). simpl.
    rewrite CreateClusterManager_gate by (destruct Hp as [-> | ->]; discriminate). simpl.
    intros [= <- <- <- <-]. exists e1. split; [reflexivity |]. left. eauto. }
  destruct (CreateKubeconfigSecret E c1 w1) as [[c2 r2 [e2 |] | c2 m2] w2] eqn:H2; simpl;
    [| | discriminate].
  { destruct (CreateKubeconfigSecret_error E c1 c2 w1 w2 r2 e2 H2) as [-> Hp].
    rewrite CreateClusterManager_gate by (rewrite Hp; discriminate). simpl.
    intros [= <- <- <- <-]. exists e2. split; [reflexivity |]. right. left. eauto. }
  destruct (CreateClusterManager E c2 w2) as [[c3 r3 [e3 |] | c3 m3] w3] eqn:H3; simpl;
    [| discriminate | discriminate].
  destruct (CreateClusterManager_error E c2 c3 w2 w3 r3 e3 H3) as [-> Hp].
  intros [= <- <- <- <-]. exists e3. split; [reflexivity |]. right. right. eauto.
Qed.

Lemma pipeline_error_is_single_witness :
  ∃ e, Aggregate [PlainError "illegal base64 data"] = Aggregate [e]
       ∧ ((∃ r, CheckValidation Demo.healthy Demo.garbled Demo.emptyWorld
                = (PhaseReturn Demo.garbledFailed r (Some e),
                   (reconcile Demo.healthy Demo.garbled Demo.emptyWorld).2)
                ∧ (Phase (Status Demo.garbledFailed) = ""
                   ∨ Phase (Status Demo.garbledFailed) = ClusterRegistrationPhaseFailed))
          ∨ (∃ r w0, CreateKubeconfigSecret Demo.healthy Demo.garbledFailed w0
                     = (PhaseReturn Demo.garbledFailed r (Some e),
                        (reconcile Demo.healthy Demo.garbled Demo.emptyWorld).2)
                     ∧ Phase (Status Demo.garbledFailed) = ClusterRegistrationPhaseValidated)
          ∨ (∃ r w0, CreateClusterManager Demo.healthy Demo.garbledFailed w0
                     = (PhaseReturn Demo.garbledFailed r (Some e),
                        (reconcile Demo.healthy Demo.garbled Demo.emptyWorld).2)
                     ∧ Phase (Status Demo.garbledFailed)
                       = ClusterRegistrationPhaseSecretCreated)).
Proof.
  apply (pipeline_error_is_single Demo.healthy Demo.garbled Demo.garbledFailed Demo.emptyWorld
           (reconcile Demo.healthy Demo.garbled Demo.emptyWorld).2 ResultZero).
  vm_compute. reflexivity.
Defined.

(** ** What a run leaves alone *)

Lemma grows_refl : Reflexive grows.
Proof. intros [cr w]. unfold grows. repeat split; reflexivity. Qed.

Lemma grows_trans : Transitive grows.
Proof.
  intros [a wa] [b wb] [c wc] (Hm & Hs & Hr & Hsec & Hclm & Hmem & Hso & Hco)
    (Hm' & Hs' & Hr' & Hsec' & Hclm' & Hmem' & Hso' & Hco'). simpl in *.
  unfold grows; simpl. rewrite Hm, Hs in *.
  repeat split; try congruence.
  - etrans; eassumption.
  - etrans; eassumption.
  - etrans; eassumption.
  - intros k Hk. rewrite Hso', Hso by exact Hk. reflexivity.
  - intros k Hk. rewrite Hco', Hco by exact Hk. reflexivity.
Qed.

Ltac grows_cases Hp :=
  unfold grows; simpl; unfold_client; rewrite ?Hp; unfold secretKey, keyOf;
  branches; rewrite ?Hp;
  repeat split; try reflexivity;
  try (apply insert_subseteq; assumption);
  try (apply prefix_app_r; reflexivity);
  try (intros k Hk; apply lookup_insert_ne; congruence).

Lemma CheckValidation_grows (E : Env) : respects grows (CheckValidation E).
Proof.
  intros cr w. unfold CheckValidation, CheckValidation_duplication.
  destruct (String.eqb (Phase (Status cr)) "") eqn:Hp; simpl; [| apply grows_refl].
  apply eqb_true_iff in Hp. grows_cases Hp.
Qed.

Lemma CreateKubeconfigSecret_grows (E : Env) : respects grows (CreateKubeconfigSecret E).
Proof.
  intros cr w. unfold CreateKubeconfigSecret.
  destruct (String.eqb (Phase (Status cr)) _) eqn:Hp; simpl; [| apply grows_refl].
  apply eqb_true_iff in Hp. grows_cases Hp.
Qed.

Lemma CreateClusterManager_grows (E : Env) : respects grows (CreateClusterManager E).
Proof.
  intros cr w. unfold CreateClusterManager.
  destruct (String.eqb (Phase (Status cr)) _) eqn:Hp; simpl; [| apply grows_refl].
  apply eqb_true_iff in Hp. grows_cases Hp.
Qed.

Lemma reconcile_grows (E : Env) : respects grows (reconcile E).
Proof.
  unfold reconcile.
  apply runPhases_respects; [apply grows_refl | apply grows_trans |].
  repeat apply Forall_cons_2; try apply Forall_nil_2.
  - apply CheckValidation_grows.
  - apply CreateKubeconfigSecret_grows.
  - apply CreateClusterManager_grows.
Qed.

Lemma writeRegistrationStatus_frame (v : Verb) (E : Env) (cr : ClusterRegistration)
    (w : World) :
  let r := writeRegistrationStatus v E cr w in
  secrets r.2 = secrets w
  ∧ clusterManagers r.2 = clusterManagers w
  ∧ cluster_member r.2 = cluster_member w
  ∧ (∀ k, k ≠ keyOf cr → clusterRegistrations r.2 !! k = clusterRegistrations w !! k)
  ∧ option_Forall2
      (λ a b : ClusterRegistration, ObjectMeta b = ObjectMeta a ∧ Spec b = Spec a)
      (clusterRegistrations w !! keyOf cr) (clusterRegistrations r.2 !! keyOf cr).
Proof.
  cbv zeta. unfold writeRegistrationStatus. unfold_client.
  generalize (keyOf cr). intros key. simpl.
  destruct (api_fault E v KindClusterRegistration key); simpl.
  { repeat split. apply option_Forall2_refl. intros x. split; reflexivity. }
  match goal with |- context [match ?m !! key with _ => _ end] =>
    destruct (m !! key) as [stored |] eqn:Hs end; simpl.
  - repeat split.
    + intros k Hk. apply lookup_insert_ne. congruence.
    + rewrite lookup_insert_eq. constructor. split; reflexivity.
  - repeat split. rewrite Hs. constructor.
Qed.

Lemma getClusterRegistration_same (E : Env) (key : NamespacedName) (w : World) :
  sameObjects w (getClusterRegistration E key w).2
  ∧ ∀ cr, (getClusterRegistration E key w).1 = inl cr →
          clusterRegistrations w !! key = Some cr.
Proof.
  unfold sameObjects. unfold_client. simpl.
  destruct (api_fault E VerbGet KindClusterRegistration key); simpl;
    [repeat split; discriminate |].
  destruct (clusterRegistrations w !! key); simpl;
    (repeat split; intros cr Hcr; congruence).
Qed.

(** The pipeline writes no registration, and neither it nor a whole
    [Reconcile] ever removes or overwrites anything: every secret, tracking
    resource and membership row stored before a run is stored unchanged
    after it; the only secret and tracking resource a pipeline run can add are
    those named after the cluster.  [Reconcile] changes no registration but
    the requested one, and of that one only the status. *)
Theorem run_only_adds :
  (∀ (E : Env) (cr : ClusterRegistration) (w : World),
     grows (cr, w) (outcomeObject (reconcile E cr w).1, (reconcile E cr w).2))
  ∧ (∀ (E : Env) (req : NamespacedName) (w : World),
       registrationsIndexed w →
       let r := Reconcile E req w in
       (∀ k, k ≠ req → clusterRegistrations r.2 !! k = clusterRegistrations w !! k)
       ∧ option_Forall2
           (λ cr cr' : ClusterRegistration,
              ObjectMeta cr' = ObjectMeta cr ∧ Spec cr' = Spec cr)
           (clusterRegistrations w !! req) (clusterRegistrations r.2 !! req)
       ∧ secrets w ⊆ secrets r.2
       ∧ clusterManagers w ⊆ clusterManagers r.2
       ∧ cluster_member w `prefix_of` cluster_member r.2).
Proof.
  split; [intros E cr w; apply reconcile_grows |].
  intros E req w Hidx. cbv zeta.
  set (P := λ w' : World,
         (∀ k, k ≠ req → clusterRegistrations w' !! k = clusterRegistrations w !! k)
         ∧ option_Forall2
             (λ cr cr' : ClusterRegistration,
                ObjectMeta cr' = ObjectMeta cr ∧ Spec cr' = Spec cr)
             (clusterRegistrations w !! req) (clusterRegistrations w' !! req)
         ∧ secrets w ⊆ secrets w'
         ∧ clusterManagers w ⊆ clusterManagers w'
         ∧ cluster_member w `prefix_of` cluster_member w').
  change (P (Reconcile E req w).2).
  assert (Hnone : ∀ w' : World, sameObjects w w' → P w').
  { intros w' (Hr & Hc & Hs & Hm). unfold P. rewrite Hr, Hc, Hs, Hm.
    repeat split; try reflexivity.
    apply option_Forall2_refl. intros x. split; reflexivity. }
  unfold Reconcile, bind at 1.
  destruct (getClusterRegistration_same E req w) as [Hsame Hread].
  destruct (getClusterRegistration E req w) as [[cr0 | err] w0]; simpl in *.
  2:{ destruct (IsNotFound err); simpl; apply Hnone; assumption. }
  pose proof (Hread cr0 eq_refl) as Hcr0.
  destruct (patch_NewHelper E KindClusterRegistration (keyOf cr0)); simpl;
    [apply Hnone; assumption |].
  destruct Hsame as (Hr0 & Hc0 & Hs0 & Hm0).
  unfold bind.
  destruct (reconcile_grows E cr0 w0) as (Hmeta & _ & Hregs & Hsec & Hclm & Hmem & _ & _).
  destruct (reconcile E cr0 w0) as [body w1]; simpl in *.
  assert (Hkey : keyOf (reconcilePhase (outcomeObject body)) = req).
  { pose proof (Hidx _ _ Hcr0) as Hk. simpl in Hk. rewrite <- Hk.
    unfold keyOf, reconcilePhase. destruct (String.eqb _ _); simpl; rewrite Hmeta; reflexivity. }
  assert (Hpatch :
    P (patchClusterRegistration E cr0 (reconcilePhase (outcomeObject body)) w1).2).
  { unfold P, patchClusterRegistration. case_decide.
    - simpl. rewrite Hregs, Hr0, <- Hs0, <- Hc0, <- Hm0. repeat split; try assumption.
      apply option_Forall2_refl. intros x. split; reflexivity.
    - destruct (writeRegistrationStatus_frame VerbPatch E
                  (reconcilePhase (outcomeObject body)) w1) as (Ws & Wc & Wm & Wo & Wk).
      rewrite Hkey in Wo, Wk. rewrite Hregs, Hr0 in Wo, Wk.
      rewrite Ws, Wc, Wm, <- Hs0, <- Hc0, <- Hm0. repeat split; assumption. }
  destruct (patchClusterRegistration E cr0 _ w1) as [perr w2]; simpl in *.
  destruct body; [destruct perr |]; simpl; exact Hpatch.
Qed.

Lemma run_only_adds_witness :
  secrets Demo.submitted ⊆ secrets (Reconcile Demo.healthy ("ns", "reg") Demo.submitted).2
  ∧ clusterManagers Demo.submitted
    ⊆ clusterManagers (Reconcile Demo.healthy ("ns", "reg") Demo.submitted).2.
Proof.
  destruct (proj2 run_only_adds Demo.healthy ("ns", "reg") Demo.submitted submitted_indexed)
    as (_ & _ & Hs & Hc & _).
  split; [exact Hs | exact Hc].
Defined.

(** ** Objects that are already there *)

(** [CreateKubeconfigSecret] and [CreateClusterManager] take an object that
    is already stored under the expected name for their own, whatever it
    holds: the phase moves on with a nil error, nothing is written, and in
    particular a tracking resource that was found is neither relabelled nor
    entered in the membership table. *)
Theorem existing_objects_adopted :
  (∀ (E : Env) (cr : ClusterRegistration) (w : World) (kubeConfig : api_Config)
     (server argoSecretName : string) (found : Secret),
     let key := (Namespace (ObjectMeta cr), ClusterName (Spec cr) +:+ KubeconfigSuffix) in
     Phase (Status cr) = ClusterRegistrationPhaseValidated →
     clientcmd_Load E (b64_DecodeString E (KubeConfig (Spec cr))).1 = inl kubeConfig →
     currentServer kubeConfig = Some server →
     util_URIToSecretName E "cluster" server = (argoSecretName, None) →
     api_fault E VerbGet KindSecret key = None →
     secrets w !! key = Some found →
     (CreateKubeconfigSecret E cr w).1
     = PhaseReturn (SetTypedPhase ClusterRegistrationPhaseSecretCreated cr) ResultZero None
     ∧ sameObjects w (CreateKubeconfigSecret E cr w).2)
  ∧ (∀ (E : Env) (cr : ClusterRegistration) (w : World) (endpoint : string)
       (found : ClusterManager),
       let key := (Namespace (ObjectMeta cr), ClusterName (Spec cr)) in
       Phase (Status cr) = ClusterRegistrationPhaseSecretCreated →
       sliceFrom (FindString (b64_DecodeString E (KubeConfig (Spec cr))).1) 8 = Some endpoint →
       api_fault E VerbGet KindClusterManager key = None →
       clusterManagers w !! key = Some found →
       (CreateClusterManager E cr w).1
       = PhaseReturn (SetTypedPhase ClusterRegistrationPhaseSuccess cr) ResultZero None
       ∧ sameObjects w (CreateClusterManager E cr w).2
       ∧ calls (CreateClusterManager E cr w).2
         = (calls w ++ [CallDecodeString; CallAPI VerbGet KindClusterManager key])%list).
Proof.
  split.
  - intros E cr w kubeConfig server argoSecretName found key Hp Hload Hserver Huri Hfault Hfound.
    unfold CreateKubeconfigSecret, sameObjects. apply eqb_true_iff in Hp. rewrite Hp. simpl.
    unfold_client. simpl. rewrite Hload. simpl. rewrite Hserver. simpl. rewrite Huri. simpl.
    fold key. rewrite Hfault, Hfound. simpl. repeat split.
  - intros E cr w endpoint found key Hp Hslice Hfault Hfound.
    unfold CreateClusterManager, sameObjects. apply eqb_true_iff in Hp. rewrite Hp. simpl.
    unfold_client. simpl. change (String.length "https://") with 8%nat. rewrite Hslice. simpl.
    fold key. rewrite Hfault, Hfound. simpl. repeat split. rewrite <- app_assoc. reflexivity.
Qed.

Lemma existing_objects_adopted_witness :
  (CreateClusterManager Demo.healthy
     (Demo.registration "other" "prod" Demo.kubeconfigBase64 "SecretCreated" "")
     (Demo.tracked "")).1
  = PhaseReturn
      (SetTypedPhase ClusterRegistrationPhaseSuccess
         (Demo.registration "other" "prod" Demo.kubeconfigBase64 "SecretCreated" ""))
      ResultZero None
  ∧ sameObjects (Demo.tracked "")
      (CreateClusterManager Demo.healthy
         (Demo.registration "other" "prod" Demo.kubeconfigBase64 "SecretCreated" "")
         (Demo.tracked "")).2.
Proof.
  destruct (proj2 existing_objects_adopted Demo.healthy
              (Demo.registration "other" "prod" Demo.kubeconfigBase64 "SecretCreated" "")
              (Demo.tracked "") "10.0.0.1" (Demo.manager ""))
    as (Hret & Hsame & _).
  - reflexivity.
  - vm_compute. reflexivity.
  - reflexivity.
  - reflexivity.
  - split; [exact Hret | exact Hsame].
Defined.

(** ** A registration that is not there *)

(** [Reconcile] on a request whose registration cannot be read makes the
    read and nothing else: a not-found answer, from the store or from the API
    server, is not an error; any other read error is returned as it is; and
    when the patch helper cannot be made its error is returned before any
    phase function runs and without a patch. *)
Theorem Reconcile_early_exits (E : Env) (req : NamespacedName) (w : World) :
  let r := Reconcile E req w in
  let read := (calls w ++ [CallAPI VerbGet KindClusterRegistration req])%list in
  (api_fault E VerbGet KindClusterRegistration req = None →
   clusterRegistrations w !! req = None →
   r.1 = Returned ResultZero None ∧ sameObjects w r.2 ∧ calls r.2 = read)
  ∧ (∀ e, api_fault E VerbGet KindClusterRegistration req = Some e →
          r.1 = Returned ResultZero (if IsNotFound e then None else Some e)
          ∧ sameObjects w r.2 ∧ calls r.2 = read)
  ∧ (∀ cr e, api_fault E VerbGet KindClusterRegistration req = None →
             clusterRegistrations w !! req = Some cr →
             patch_NewHelper E KindClusterRegistration (keyOf cr) = Some e →
             r.1 = Returned ResultZero (Some e) ∧ sameObjects w r.2 ∧ calls r.2 = read).
Proof.
  cbv zeta. unfold Reconcile, sameObjects. unfold_client. simpl. split; [| split].
  - intros Hfault Hnone. rewrite Hfault, Hnone. simpl. repeat split.
  - intros e Hfault. rewrite Hfault. simpl. destruct (IsNotFound e); simpl; repeat split.
  - intros cr e Hfault Hcr Hhelper. rewrite Hfault, Hcr. simpl. rewrite Hhelper. simpl.
    repeat split.
Qed.

Lemma Reconcile_early_exits_witness :
  (Reconcile Demo.healthy ("ns", "gone") Demo.submitted).1 = Returned ResultZero None
  ∧ sameObjects Demo.submitted (Reconcile Demo.healthy ("ns", "gone") Demo.submitted).2
  ∧ calls (Reconcile Demo.healthy ("ns", "gone") Demo.submitted).2
    = (calls Demo.submitted ++ [CallAPI VerbGet KindClusterRegistration ("ns", "gone")])%list.
Proof.
  apply (proj1 (Reconcile_early_exits Demo.healthy ("ns", "gone") Demo.submitted)).
  - reflexivity.
  - reflexivity.
Defined.

(** ** Requeues, and registrations that are settled *)

Lemma CheckValidation_zeroResult (E : Env) : zeroResult (CheckValidation E).
Proof.
  intros cr w c r e. unfold CheckValidation, CheckValidation_duplication.
  destruct (String.eqb (Phase (Status cr)) ""); simpl; [| intros [= _ <- _]; reflexivity].
  unfold_client. intros H. branches; reflexivity.
Qed.

Lemma CreateKubeconfigSecret_zeroResult (E : Env) : zeroResult (CreateKubeconfigSecret E).
Proof.
  intros cr w c r e. unfold CreateKubeconfigSecret.
  destruct (String.eqb (Phase (Status cr)) _); simpl; [| intros [= _ <- _]; reflexivity].
  unfold_client. intros H. branches; reflexivity.
Qed.

Lemma CreateClusterManager_zeroResult (E : Env) : zeroResult (CreateClusterManager E).
Proof.
  intros cr w c r e. unfold CreateClusterManager.
  destruct (String.eqb (Phase (Status cr)) _); simpl; [| intros [= _ <- _]; reflexivity].
  unfold_client. intros H. branches; reflexivity.
Qed.

Lemma runPhases_zeroResult (E : Env) (phases : list (ClusterRegistration → M PhaseOutcome)) :
  util_LowestNonZeroResult E ResultZero ResultZero = ResultZero →
  Forall zeroResult phases →
  ∀ cr errs w c res err,
    (runPhases E phases cr ResultZero errs w).1 = PhaseReturn c res err → res = ResultZero.
Proof.
  intros Hmerge Hall. induction Hall as [| phase rest Hphase _ IH]; intros cr errs w c res err.
  - simpl. intros [= _ <- _]. reflexivity.
  - simpl. unfold bind. specialize (Hphase cr w).
    destruct (phase cr w) as [[cr' phaseResult e | cr' msg] w']; simpl in *; [| discriminate].
    rewrite (Hphase cr' phaseResult e eq_refl), Hmerge.
    destruct (0 <? length _)%nat; apply IH.
Qed.

(** No phase function ever asks for a requeue: every result is the zero
    result, so [reconcile] and [Reconcile] return the zero result whenever two
    zero results merge to the zero result; a run is repeated only through the
    error it returns. *)
Theorem pipeline_never_requeues (E : Env) :
  util_LowestNonZeroResult E ResultZero ResultZero = ResultZero →
  (∀ cr w c res err, (reconcile E cr w).1 = PhaseReturn c res err → res = ResultZero)
  ∧ (∀ req w res err, (Reconcile E req w).1 = Returned res err → res = ResultZero).
Proof.
  intros Hmerge.
  assert (Hrec : ∀ cr w c res err,
            (reconcile E cr w).1 = PhaseReturn c res err → res = ResultZero).
  { intros cr w c res err. unfold reconcile. apply runPhases_zeroResult; [exact Hmerge |].
    repeat apply Forall_cons_2; try apply Forall_nil_2.
    - apply CheckValidation_zeroResult.
    - apply CreateKubeconfigSecret_zeroResult.
    - apply CreateClusterManager_zeroResult. }
  split; [exact Hrec |].
  intros req w res err. unfold Reconcile, bind at 1.
  destruct (getClusterRegistration E req w) as [[cr0 | gerr] w0]; simpl.
  2:{ destruct (IsNotFound gerr); simpl; intros [= <- _]; reflexivity. }
  destruct (patch_NewHelper E KindClusterRegistration (keyOf cr0)); simpl;
    [intros [= <- _]; reflexivity |].
  unfold bind. specialize (Hrec cr0 w0).
  destruct (reconcile E cr0 w0) as [[c r e | c msg] w1]; simpl in *.
  - destruct (patchClusterRegistration E cr0 (reconcilePhase c) w1) as [[perr |] w2]; simpl;
      intros [= <- _]; eapply Hrec; reflexivity.
  - destruct (patchClusterRegistration E cr0 (reconcilePhase c) w1) as [perr w2]; simpl.
    discriminate.
Qed.

Lemma pipeline_never_requeues_witness :
  ∃ err, (Reconcile Demo.healthy ("ns", "reg") Demo.submitted).1 = Returned ResultZero err.
Proof.
  pose proof (proj2 (pipeline_never_requeues Demo.healthy eq_refl) ("ns", "reg") Demo.submitted)
    as Hzero.
  destruct (Reconcile Demo.healthy ("ns", "reg") Demo.submitted).1 as [res err | msg] eqn:Hrun.
  - exists err. rewrite (Hzero res err eq_refl). reflexivity.
  - vm_compute in Hrun. discriminate Hrun.
Defined.

(** A registration whose stored phase is none of [""], [Validated],
    [SecretCreated] and the lower-case [validated] is settled: [Reconcile]
    reads it and does nothing else, returning a nil error.  At the lower-case
    [validated], which no phase function ever sets, the pipeline does nothing
    and the deferred function patches the phase to [Success]. *)
Theorem Reconcile_settled (E : Env) (req : NamespacedName) (cr : ClusterRegistration)
    (w : World) :
  registrationsIndexed w →
  api_fault E VerbGet KindClusterRegistration req = None →
  clusterRegistrations w !! req = Some cr →
  patch_NewHelper E KindClusterRegistration req = None →
  Phase (Status cr) ≠ "" →
  Phase (Status cr) ≠ ClusterRegistrationPhaseValidated →
  Phase (Status cr) ≠ ClusterRegistrationPhaseSecretCreated →
  let r := Reconcile E req w in
  (Phase (Status cr) ≠ "validated" →
   (∃ res, r.1 = Returned res None)
   ∧ sameObjects w r.2
   ∧ calls r.2 = (calls w ++ [CallAPI VerbGet KindClusterRegistration req])%list)
  ∧ (Phase (Status cr) = "validated" →
     api_fault E VerbPatch KindClusterRegistration req = None →
     (∃ res, r.1 = Returned res None)
     ∧ clusterRegistrations r.2
       = <[req := SetTypedPhase ClusterRegistrationPhaseSuccess cr]> (clusterRegistrations w)).
Proof.
  intros Hidx Hfault Hcr Hhelper He Hv Hsc. cbv zeta.
  pose proof (Hidx _ _ Hcr) as Hkey. simpl in Hkey.
  assert (Hget : getClusterRegistration E req w
                 = (inl cr, mkWorld (clusterRegistrations w) (clusterManagers w) (secrets w)
                              (cluster_member w)
                              (calls w ++ [CallAPI VerbGet KindClusterRegistration req]))).
  { unfold_client. simpl. rewrite Hfault, Hcr. reflexivity. }
  destruct (Reconcile E req w) as [o w'] eqn:HR.
  unfold Reconcile, bind at 1 in HR. rewrite Hget in HR. simpl in HR.
  rewrite Hkey, Hhelper in HR. unfold bind at 1 in HR.
  match type of HR with context [reconcile E cr ?w0] =>
    destruct (reconcile_idle E cr w0 He Hv Hsc) as [res Hrec]; rewrite Hrec in HR end.
  simpl in HR. unfold reconcilePhase in HR. split.
  - intros Hlow. apply eqb_false_iff in Hlow. rewrite Hlow in HR.
    unfold patchClusterRegistration in HR. rewrite decide_True in HR by reflexivity.
    unfold bind, ret in HR. simpl in HR. injection HR as <- <-.
    unfold sameObjects. simpl.
    split; [eexists; reflexivity |]. split; [repeat split | reflexivity].
  - intros Hlow Hpatch. apply eqb_true_iff in Hlow as Hlow'. rewrite Hlow' in HR.
    unfold patchClusterRegistration in HR.
    rewrite decide_False in HR
      by (intros Heq; apply (f_equal (λ c : ClusterRegistration, Phase (Status c))) in Heq;
          simpl in Heq; rewrite Hlow in Heq; discriminate).
    unfold writeRegistrationStatus, bind, logCall, ret in HR. simpl in HR.
    unfold keyOf in HR, Hkey. simpl in HR. rewrite Hkey, Hpatch, Hcr in HR. simpl in HR.
    injection HR as <- <-. simpl.
    split; [eexists; reflexivity |]. reflexivity.
Qed.

Lemma Reconcile_settled_witness :
  (∃ res, (Reconcile Demo.healthy ("ns", "reg") Demo.onboarded).1 = Returned res None)
  ∧ sameObjects Demo.onboarded (Reconcile Demo.healthy ("ns", "reg") Demo.onboarded).2
  ∧ calls (Reconcile Demo.healthy ("ns", "reg") Demo.onboarded).2
    = (calls Demo.onboarded ++ [CallAPI VerbGet KindClusterRegistration ("ns", "reg")])%list.
Proof.
  apply (proj1 (Reconcile_settled Demo.healthy ("ns", "reg") Demo.succeeded Demo.onboarded
                  onboarded_indexed eq_refl eq_refl eq_refl
                  ltac:(discriminate) ltac:(discriminate) ltac:(discriminate))).
  discriminate.
Defined.

(** ** The endpoint pattern *)

Lemma prefix_cons (a b : ascii) (s t : string) :
  String.prefix (String a s) (String b t)
  = if Ascii.eqb a b then String.prefix s t else false.
Proof.
  simpl. destruct (ascii_dec a b) as [-> | Hne].
  - rewrite Ascii.eqb_refl. reflexivity.
  - apply Ascii.eqb_neq in Hne. rewrite Hne. reflexivity.
Qed.

Lemma append_cons (c : ascii) (s t : string) : String c s +:+ t = String c (s +:+ t).
Proof. reflexivity. Qed.

Lemma prefix_append (p t : string) : String.prefix p (p +:+ t) = true.
Proof.
  induction p as [| a p IH]; [destruct t; reflexivity |].
  rewrite append_cons, prefix_cons, Ascii.eqb_refl. exact IH.
Qed.

Lemma prefix_split (p s : string) :
  String.prefix p s = true → s = p +:+ dropString (String.length p) s.
Proof.
  revert s. induction p as [| a p IH]; intros s; [reflexivity |].
  destruct s as [| b s]; [discriminate |].
  rewrite prefix_cons. destruct (Ascii.eqb_spec a b) as [<- |]; [| discriminate].
  intros H. simpl String.length. simpl dropString. rewrite append_cons. f_equal. exact (IH s H).
Qed.

Lemma dropString_append (p t : string) : dropString (String.length p) (p +:+ t) = t.
Proof. induction p as [| a p IH]; [reflexivity | exact IH]. Qed.

Lemma takeWhile_split (p : ascii → bool) (s : string) :
  ∃ post, s = takeWhile p s +:+ post
          ∧ allChars p (takeWhile p s) = true
          ∧ ∀ c post', post = String c post' → p c = false.
Proof.
  induction s as [| c s (post & Hs & Hall & Hpost)].
  - exists "". repeat split. discriminate.
  - simpl. destruct (p c) eqn:Hc.
    + exists post. split; [rewrite append_cons; f_equal; exact Hs |].
      split; [simpl; rewrite Hc; exact Hall | exact Hpost].
    + exists (String c s). repeat split. intros c' post' [= <- <-]. exact Hc.
Qed.

Lemma matchEndpointHere_Some (s m : string) :
  matchEndpointHere s = Some m →
  ∃ ep post, m = "https://" +:+ ep
             ∧ s = "https://" +:+ ep +:+ post
             ∧ ep ≠ ""
             ∧ allChars isEndpointChar ep = true
             ∧ ∀ c post', post = String c post' → isEndpointChar c = false.
Proof.
  unfold matchEndpointHere.
  destruct (String.prefix "https://" s) eqn:Hpre; [| discriminate].
  apply prefix_split in Hpre. change (String.length "https://") with 8%nat in Hpre.
  destruct (takeWhile_split isEndpointChar (dropString 8 s)) as (post & Hs & Hall & Hpost).
  destruct (takeWhile isEndpointChar (dropString 8 s)) as [| c body] eqn:Htake; [discriminate |].
  intros [= <-]. exists (String c body), post.
  split; [reflexivity |]. split; [rewrite <- Hs; exact Hpre |].
  split; [discriminate |]. split; [exact Hall | exact Hpost].
Qed.

Lemma matchEndpointHere_None (s : string) (b : ascii) (rest : string) :
  s = "https://" +:+ String b rest → isEndpointChar b = true → matchEndpointHere s ≠ None.
Proof.
  intros -> Hb. unfold matchEndpointHere. rewrite prefix_append.
  change 8%nat with (String.length "https://"). rewrite dropString_append.
  simpl. rewrite Hb. discriminate.
Qed.

Lemma FindString_cons (c : ascii) (s : string) :
  FindString (String c s)
  = match matchEndpointHere (String c s) with
    | Some m => m
    | None => FindString s
    end.
Proof. reflexivity. Qed.

(** [FindString] returns the leftmost match, which runs as far as the class
    characters do, or the empty string. *)
Lemma FindString_first (s : string) :
  FindString s = "" ∨ ∃ ep, FindString s = "https://" +:+ ep ∧ firstEndpoint s ep.
Proof.
  induction s as [| c s IH].
  - left. reflexivity.
  - rewrite FindString_cons.
    destruct (matchEndpointHere (String c s)) as [m |] eqn:Hm.
    + right. apply matchEndpointHere_Some in Hm as (ep & post & -> & Hs & Hne & Hall & Hpost).
      exists ep. split; [reflexivity |]. exists "", post.
      split; [exact Hs |]. repeat split; try assumption. intros; simpl; lia.
    + destruct IH as [IH | (ep & Hfind & pre & post & Hs & Hne & Hall & Hpost & Hleft)];
        [left; exact IH | right].
      exists ep. split; [exact Hfind |]. exists (String c pre), post.
      split; [rewrite Hs; reflexivity |]. repeat split; try assumption.
      intros pre1 b rest1 Hs1 Hb. destruct pre1 as [| c1 pre1].
      * exfalso. exact (matchEndpointHere_None _ b rest1 Hs1 Hb Hm).
      * rewrite append_cons in Hs1. injection Hs1 as <- Hs1. simpl.
        specialize (Hleft pre1 b rest1 Hs1 Hb). lia.
Qed.

(** ** The tracking resource that [CreateClusterManager] creates *)

(** The tracking resources after [CreateClusterManager]: as before, or with
    the new resource under the cluster's name, where none was stored. *)
Lemma CreateClusterManager_cases (E : Env) (cr : ClusterRegistration) (w : World) :
  let key := (Namespace (ObjectMeta cr), ClusterName (Spec cr)) in
  let r := CreateClusterManager E cr w in
  clusterManagers r.2 = clusterManagers w
  ∨ ∃ endpoint,
      sliceFrom (FindString (b64_DecodeString E (KubeConfig (Spec cr))).1) 8 = Some endpoint
      ∧ clusterManagers w !! key = None
      ∧ clusterManagers r.2 = <[key := newClusterManager E cr endpoint]> (clusterManagers w).
Proof.
  cbv zeta. unfold CreateClusterManager.
  destruct (String.eqb (Phase (Status cr)) _); simpl; [| left; reflexivity].
  unfold_client. unfold keyOf. simpl. change (String.length "https://") with 8%nat.
  destruct (sliceFrom _ 8) as [endpoint |] eqn:Hslice; simpl; [| left; reflexivity].
  destruct (api_fault E VerbGet KindClusterManager _) as [gerr |]; simpl.
  - destruct (IsNotFound gerr); simpl; [| left; reflexivity].
    destruct (api_fault E VerbCreate KindClusterManager _); simpl; [left; reflexivity |].
    destruct (clusterManagers w !! _) eqn:Hclm; simpl; [left; reflexivity |].
    destruct (util_Insert E _); simpl; right; exists endpoint; repeat split; assumption.
  - destruct (clusterManagers w !! _) eqn:Hclm; simpl; [left; reflexivity |].
    destruct (api_fault E VerbCreate KindClusterManager _); simpl; [left; reflexivity |].
    rewrite Hclm. simpl.
    destruct (util_Insert E _); simpl; right; exists endpoint; repeat split; assumption.
Qed.

Lemma created_manager (E : Env) (cr : ClusterRegistration) (w : World) (clm : ClusterManager) :
  let key := (Namespace (ObjectMeta cr), ClusterName (Spec cr)) in
  clusterManagers w !! key = None →
  clusterManagers (CreateClusterManager E cr w).2 !! key = Some clm →
  ∃ endpoint,
    sliceFrom (FindString (b64_DecodeString E (KubeConfig (Spec cr))).1) 8 = Some endpoint
    ∧ clm = newClusterManager E cr endpoint.
Proof.
  cbv zeta. intros Hnone Hsome.
  destruct (CreateClusterManager_cases E cr w) as [Hsame | (endpoint & Hslice & _ & Hnew)].
  - rewrite Hsame, Hnone in Hsome. discriminate.
  - rewrite Hnew, lookup_insert_eq in Hsome. injection Hsome as <-. eauto.
Qed.

(** The tracking resource that [CreateClusterManager] stores is filed under
    the cluster's name, passes the delete predicate of the watch, and its
    parent label leads the map function back to the registration it was made
    for: when the resource is deleted while that registration is stored at
    [Success] and the API server serves the read and the status update, the
    registration is marked [Deleted]. *)
Theorem created_manager_is_watched (E : Env) (cr : ClusterRegistration) (w : World)
    (clm : ClusterManager) :
  let key := (Namespace (ObjectMeta cr), ClusterName (Spec cr)) in
  clusterManagers w !! key = None →
  clusterManagers (CreateClusterManager E cr w).2 !! key = Some clm →
  keyOf clm = key
  ∧ manager_DeleteFunc clm = true
  ∧ parentKey clm = keyOf cr
  ∧ ∀ (E' : Env) (w' : World) (parent : ClusterRegistration),
      registrationsIndexed w' →
      served E' KindClusterRegistration (keyOf cr) →
      clusterRegistrations w' !! keyOf cr = Some parent →
      Phase (Status parent) = "Success" →
      clusterRegistrations (onClusterManagerDeleted E' clm w').2 !! keyOf cr
      = Some (markedDeleted parent).
Proof.
  cbv zeta. intros Hnone Hsome.
  destruct (created_manager E cr w clm Hnone Hsome) as (endpoint & _ & ->).
  assert (Hwatch : manager_DeleteFunc (newClusterManager E cr endpoint) = true).
  { apply manager_DeleteFunc_registered. unfold newClusterManager. simpl.
    rewrite lookup_insert_ne by discriminate. apply lookup_insert_eq. }
  assert (Hparent : parentKey (newClusterManager E cr endpoint) = keyOf cr).
  { unfold parentKey, newClusterManager, keyOf, mapGet. simpl.
    rewrite lookup_insert_eq. reflexivity. }
  split; [reflexivity |]. split; [exact Hwatch |]. split; [exact Hparent |].
  intros E' w' parent Hidx Hserved Hstored Hphase.
  unfold onClusterManagerDeleted. rewrite Hwatch.
  destruct (requeue_cases E' (newClusterManager E cr endpoint) w') as (_ & _ & _ & _ & Hregs).
  rewrite Hparent in Hregs.
  rewrite (Hserved VerbGet), Hstored in Hregs.
  apply eqb_true_iff in Hphase. rewrite Hphase in Hregs.
  pose proof (Hidx _ _ Hstored) as Hk. simpl in Hk. rewrite Hk in Hregs.
  rewrite (Hserved VerbStatusUpdate), Hstored in Hregs.
  rewrite Hregs. apply lookup_insert_eq.
Qed.

(** The endpoint annotation of the tracking resource that
    [CreateClusterManager] stores is what the pattern captures after the
    scheme at its leftmost match in the decoded credential: a non-empty run of
    characters of the class [[0-9a-zA-Z./-]] that ends before the first
    character outside the class, so a port is never part of it. *)
Theorem created_manager_endpoint (E : Env) (cr : ClusterRegistration) (w : World)
    (clm : ClusterManager) :
  let key := (Namespace (ObjectMeta cr), ClusterName (Spec cr)) in
  clusterManagers w !! key = None →
  clusterManagers (CreateClusterManager E cr w).2 !! key = Some clm →
  firstEndpoint (b64_DecodeString E (KubeConfig (Spec cr))).1
    (mapGet (Annotations (ObjectMeta clm)) AnnotationKeyClmApiserverEndpoint).
Proof.
  cbv zeta. intros Hnone Hsome.
  destruct (created_manager E cr w clm Hnone Hsome) as (endpoint & Hslice & ->).
  assert (Hann : mapGet (Annotations (ObjectMeta (newClusterManager E cr endpoint)))
                   AnnotationKeyClmApiserverEndpoint = endpoint).
  { unfold newClusterManager, mapGet. simpl.
    rewrite lookup_insert_ne by discriminate. rewrite lookup_insert_eq. reflexivity. }
  rewrite Hann. clear Hann.
  destruct (FindString_first (b64_DecodeString E (KubeConfig (Spec cr))).1)
    as [Hempty | (ep & Hfind & Hfirst)].
  - rewrite Hempty in Hslice. discriminate.
  - rewrite Hfind in Hslice. unfold sliceFrom in Hslice.
    destruct (8 <=? _)%nat; [| discriminate].
    change 8%nat with (String.length "https://") in Hslice.
    rewrite dropString_append in Hslice. injection Hslice as <-. exact Hfirst.
Qed.

Lemma created_manager_is_watched_witness :
  manager_DeleteFunc (newClusterManager Demo.healthy Demo.secretCreated "10.0.0.1") = true
  ∧ parentKey (newClusterManager Demo.healthy Demo.secretCreated "10.0.0.1") = ("ns", "reg").
Proof.
  destruct (created_manager_is_watched Demo.healthy Demo.secretCreated Demo.emptyWorld
              (newClusterManager Demo.healthy Demo.secretCreated "10.0.0.1"))
    as (_ & Hwatch & Hparent & _).
  - reflexivity.
  - vm_compute. reflexivity.
  - split; [exact Hwatch | exact Hparent].
Defined.

Lemma created_manager_endpoint_witness :
  firstEndpoint Demo.kubeconfigText "10.0.0.1".
Proof.
  apply (created_manager_endpoint Demo.healthy Demo.secretCreated Demo.emptyWorld
           (newClusterManager Demo.healthy Demo.secretCreated "10.0.0.1")).
  - reflexivity.
  - vm_compute. reflexivity.
Defined.

(** ** The endpoint phase: what it leaves alone, and running it again *)

(** What the endpoint phase does to the stored objects: nothing, or the
    status of the tracking resource under the secret's key is replaced. *)
Lemma endpoint_cases (E : Env) (secret : Secret) (w : World) :
  managersIndexed w →
  let key := managerKey secret in
  let r := UpdateClusterManagerControlPlaneEndpoint E secret w in
  clusterRegistrations r.2 = clusterRegistrations w
  ∧ secrets r.2 = secrets w
  ∧ cluster_member r.2 = cluster_member w
  ∧ (clusterManagers r.2 = clusterManagers w
     ∨ ∃ clm kubeConfig server,
         clusterManagers w !! key = Some clm
         ∧ clientcmd_Load E (mapGet (Data secret) "value") = inl kubeConfig
         ∧ currentServer kubeConfig = Some server
         ∧ r.1 = Returned ResultZero None
         ∧ clusterManagers r.2
           = <[key := mkObject (ObjectMeta clm) (Spec clm) (mkManagerStatus server)]>
               (clusterManagers w)).
Proof.
  intros Hidx. cbv zeta. unfold UpdateClusterManagerControlPlaneEndpoint, managerKey.
  set (key := (Namespace (secret_ObjectMeta secret),
               splitHead KubeconfigSuffix (Name (secret_ObjectMeta secret)))).
  unfold Load, getClusterManager, apiGet, logCall, bind, ret. simpl.
  destruct (clientcmd_Load E (mapGet (Data secret) "value")) as [kubeConfig | lerr] eqn:Hload;
    simpl; [| repeat split; left; reflexivity].
  destruct (api_fault E VerbGet KindClusterManager key) as [gerr |]; simpl.
  { destruct (IsNotFound gerr); simpl; repeat split; left; reflexivity. }
  destruct (clusterManagers w !! key) as [clm |] eqn:Hclm; simpl;
    [| repeat split; left; reflexivity].
  destruct (currentServer kubeConfig) as [server |] eqn:Hserver; simpl;
    [| repeat split; left; reflexivity].
  pose proof (Hidx _ _ Hclm) as Hkey. simpl in Hkey.
  destruct (strings_EqualFold E (ControlPlaneEndpoint (Status clm)) server); simpl;
    [repeat split; left; reflexivity |].
  destruct (patch_NewHelper E KindClusterManager (keyOf clm)); simpl;
    [repeat split; left; reflexivity |].
  unfold patchClusterManager. case_decide as Hsame; simpl; [repeat split; left; reflexivity |].
  unfold bind, logCall, ret. simpl. unfold keyOf in *. simpl in *. rewrite !Hkey.
  destruct (api_fault E VerbPatch KindClusterManager key); simpl;
    [repeat split; left; reflexivity |].
  rewrite Hclm. simpl. repeat split. right. exists clm, kubeConfig, server.
  repeat split; assumption.
Qed.

Lemma endpoint_indexed (E : Env) (secret : Secret) (w : World) :
  managersIndexed w →
  managersIndexed (UpdateClusterManagerControlPlaneEndpoint E secret w).2.
Proof.
  intros Hidx. destruct (endpoint_cases E secret w Hidx) as (_ & _ & _ & Hm).
  unfold managersIndexed.
  destruct Hm as [-> | (clm & kc & server & Hclm & _ & _ & _ & ->)]; [exact Hidx |].
  apply map_Forall_insert_2; [| exact Hidx]. exact (Hidx _ _ Hclm).
Qed.

(** The endpoint phase writes nothing but the status of one tracking
    resource: registrations, secrets and the membership table are as before;
    every tracking resource is still stored, with its metadata and spec, and
    all but the one under the secret's key are unchanged; none is added. *)
Theorem endpoint_phase_frame (E : Env) (secret : Secret) (w : World) :
  managersIndexed w →
  let r := UpdateClusterManagerControlPlaneEndpoint E secret w in
  clusterRegistrations r.2 = clusterRegistrations w
  ∧ secrets r.2 = secrets w
  ∧ cluster_member r.2 = cluster_member w
  ∧ (∀ k, k ≠ managerKey secret → clusterManagers r.2 !! k = clusterManagers w !! k)
  ∧ (∀ k, option_Forall2
            (λ clm clm' : ClusterManager,
               ObjectMeta clm' = ObjectMeta clm ∧ Spec clm' = Spec clm)
            (clusterManagers w !! k) (clusterManagers r.2 !! k)).
Proof.
  intros Hidx. cbv zeta.
  destruct (endpoint_cases E secret w Hidx) as (Hregs & Hsec & Hmem & Hm).
  repeat split; try assumption.
  - intros k Hk. destruct Hm as [-> | (clm & kc & server & _ & _ & _ & _ & ->)]; [reflexivity |].
    apply lookup_insert_ne. congruence.
  - intros k. destruct Hm as [-> | (clm & kc & server & Hclm & _ & _ & _ & ->)].
    + destruct (clusterManagers w !! k); constructor. split; reflexivity.
    + destruct (decide (k = managerKey secret)) as [-> | Hne].
      * rewrite lookup_insert_eq, Hclm. constructor. split; reflexivity.
      * rewrite lookup_insert_ne by congruence.
        destruct (clusterManagers w !! k); constructor. split; reflexivity.
Qed.

Lemma endpoint_phase_frame_witness :
  secrets (UpdateClusterManagerControlPlaneEndpoint Demo.healthy Demo.credential
             (Demo.tracked "https://old.example.org")).2
  = secrets (Demo.tracked "https://old.example.org").
Proof.
  exact (proj1 (proj2 (endpoint_phase_frame Demo.healthy Demo.credential
                         (Demo.tracked "https://old.example.org")
                         (tracked_indexed "https://old.example.org")))).
Defined.

(** Running the endpoint phase a second time, in the same environment, on
    the world the first run left: the stored objects stay as the first run
    left them and the second run returns what the first returned.  When the
    first run wrote the endpoint, the second only loads the kubeconfig and
    reads the tracking resource: it sends no patch. *)
Theorem endpoint_sync_idempotent (E : Env) (secret : Secret) (w : World) :
  managersIndexed w →
  let r1 := UpdateClusterManagerControlPlaneEndpoint E secret w in
  let r2 := UpdateClusterManagerControlPlaneEndpoint E secret r1.2 in
  sameObjects r1.2 r2.2
  ∧ r2.1 = r1.1
  ∧ (clusterManagers r1.2 ≠ clusterManagers w →
     calls r2.2
     = (calls r1.2 ++ [CallLoad; CallAPI VerbGet KindClusterManager (managerKey secret)])%list).
Proof.
  intros Hidx. cbv zeta. unfold managerKey.
  set (key := (Namespace (secret_ObjectMeta secret),
               splitHead KubeconfigSuffix (Name (secret_ObjectMeta secret)))).
  destruct (UpdateClusterManagerControlPlaneEndpoint E secret w) as [o1 w1] eqn:H1.
  unfold UpdateClusterManagerControlPlaneEndpoint in *. fold key in H1 |- *.
  unfold Load, getClusterManager, apiGet, logCall, bind, ret, sameObjects in *. simpl in *.
  destruct (clientcmd_Load E (mapGet (Data secret) "value")) as [kubeConfig | lerr] eqn:Hload;
    simpl in *; [| injection H1 as <- <-; simpl; repeat split; intros []; reflexivity].
  destruct (api_fault E VerbGet KindClusterManager key) as [gerr |] eqn:Hget; simpl in *.
  { destruct (IsNotFound gerr); injection H1 as <- <-; simpl;
      repeat split; intros []; reflexivity. }
  destruct (clusterManagers w !! key) as [clm |] eqn:Hclm; simpl in *.
  2:{ injection H1 as <- <-; simpl. rewrite Hclm. simpl. repeat split. intros []; reflexivity. }
  destruct (currentServer kubeConfig) as [server |] eqn:Hserver; simpl in *.
  2:{ injection H1 as <- <-; simpl. rewrite Hclm. simpl. repeat split. intros []; reflexivity. }
  pose proof (Hidx _ _ Hclm) as Hkey. simpl in Hkey.
  destruct (strings_EqualFold E (ControlPlaneEndpoint (Status clm)) server) eqn:Hfold;
    simpl in *.
  { injection H1 as <- <-; simpl. rewrite Hclm. simpl. rewrite Hfold. simpl.
    repeat split. intros []; reflexivity. }
  destruct (patch_NewHelper E KindClusterManager (keyOf clm)) eqn:Hhelper; simpl in *.
  { injection H1 as <- <-; simpl. rewrite Hclm. simpl. rewrite Hfold. simpl. rewrite Hhelper.
    simpl. repeat split. intros []; reflexivity. }
  unfold patchClusterManager in *.
  destruct (decide (clm = mkObject (ObjectMeta clm) (Spec clm) (mkManagerStatus server)))
    as [Hsame | Hdiff]; simpl in *.
  { injection H1 as <- <-; simpl. rewrite Hclm. simpl. rewrite Hfold. simpl. rewrite Hhelper.
    rewrite decide_True by exact Hsame. simpl. repeat split. intros []; reflexivity. }
  unfold bind, logCall, ret in *. simpl in *. unfold keyOf in *. simpl in *.
  rewrite !Hkey in *.
  destruct (api_fault E VerbPatch KindClusterManager key) eqn:Hpatch; simpl in *.
  { injection H1 as <- <-; simpl. rewrite Hclm. simpl. rewrite Hfold. simpl. rewrite !Hkey, Hhelper.
    rewrite decide_False by exact Hdiff. simpl. rewrite Hpatch. simpl.
    repeat split. intros []; reflexivity. }
  rewrite Hclm in H1. simpl in H1. injection H1 as <- <-. simpl.
  rewrite lookup_insert_eq. simpl.
  destruct (strings_EqualFold E server server); simpl.
  { repeat split. intros _. rewrite <- !app_assoc. reflexivity. }
  rewrite !Hkey, Hhelper. rewrite decide_True by reflexivity. simpl.
  repeat split. intros _. rewrite <- !app_assoc. reflexivity.
Qed.

Lemma endpoint_sync_idempotent_witness :
  let r1 := UpdateClusterManagerControlPlaneEndpoint Demo.healthy Demo.credential
              (Demo.tracked "https://old.example.org") in
  let r2 := UpdateClusterManagerControlPlaneEndpoint Demo.healthy Demo.credential r1.2 in
  sameObjects r1.2 r2.2
  ∧ r2.1 = r1.1
  ∧ calls r2.2
    = (calls r1.2 ++ [CallLoad; CallAPI VerbGet KindClusterManager ("ns", "prod")])%list.
Proof.
  destruct (endpoint_sync_idempotent Demo.healthy Demo.credential
              (Demo.tracked "https://old.example.org")
              (tracked_indexed "https://old.example.org")) as (Hsame & Hret & Hcalls).
  split; [exact Hsame |]. split; [exact Hret |].
  apply Hcalls. intros Heq.
  pose proof (f_equal (λ m : gmap NamespacedName ClusterManager, Status <$> m !! ("ns", "prod"))
                Heq) as H.
  vm_compute in H. discriminate H.
Defined.

(** ** From the secret back to the tracking resource *)

Lemma prefix_suffix_kubeconfig (c : ascii) (t : string) :
  String.prefix KubeconfigSuffix (String c t +:+ KubeconfigSuffix)
  = String.prefix KubeconfigSuffix (String c t).
Proof.
  unfold KubeconfigSuffix. revert c.
  do 11 (intros c; rewrite append_cons, !prefix_cons;
         match goal with |- context [Ascii.eqb ?a c] => destruct (Ascii.eqb_spec a c) as [<- |] end;
         [| reflexivity];
         destruct t as [| c' t]; [vm_compute; reflexivity |]; revert c').
  intros c. reflexivity.
Qed.

Lemma splitHead_cons (sep : string) (c : ascii) (t : string) :
  splitHead sep (String c t)
  = if String.prefix sep (String c t) then "" else String c (splitHead sep t).
Proof. reflexivity. Qed.

Lemma contains_cons (sep : string) (c : ascii) (t : string) :
  contains sep (String c t) = if String.prefix sep (String c t) then true else contains sep t.
Proof. reflexivity. Qed.

Lemma splitHead_suffix (name : string) :
  splitHead KubeconfigSuffix (name +:+ KubeconfigSuffix) = name
  ↔ contains KubeconfigSuffix name = false.
Proof.
  induction name as [| c t IH].
  - split; reflexivity.
  - rewrite append_cons, splitHead_cons, contains_cons, <- append_cons.
    rewrite prefix_suffix_kubeconfig.
    destruct (String.prefix KubeconfigSuffix (String c t)).
    + split; discriminate.
    + rewrite <- IH. split; [intros [= H]; exact H | intros ->; reflexivity].
Qed.

(** The secret controller finds the tracking resource of a credential secret
    by cutting the secret's name at the first [-kubeconfig].  For the secret
    that [CreateKubeconfigSecret] names [<clusterName>-kubeconfig] this gives
    back the key of the registration's tracking resource exactly when the
    cluster name does not itself contain [-kubeconfig]; when it does, the
    endpoint phase never changes the tracking resource of that cluster. *)
Theorem secret_name_round_trip (cr : ClusterRegistration) (secret : Secret) :
  let clmKey := (Namespace (ObjectMeta cr), ClusterName (Spec cr)) in
  Namespace (secret_ObjectMeta secret) = Namespace (ObjectMeta cr) →
  Name (secret_ObjectMeta secret) = ClusterName (Spec cr) +:+ KubeconfigSuffix →
  (managerKey secret = clmKey ↔ contains KubeconfigSuffix (ClusterName (Spec cr)) = false)
  ∧ (contains KubeconfigSuffix (ClusterName (Spec cr)) = true →
     ∀ (E : Env) (w : World),
       managersIndexed w →
       clusterManagers (UpdateClusterManagerControlPlaneEndpoint E secret w).2 !! clmKey
       = clusterManagers w !! clmKey).
Proof.
  cbv zeta. intros Hns Hname.
  assert (Hiff : managerKey secret = (Namespace (ObjectMeta cr), ClusterName (Spec cr))
                 ↔ contains KubeconfigSuffix (ClusterName (Spec cr)) = false).
  { unfold managerKey. rewrite Hns, Hname, <- splitHead_suffix.
    split; [intros [= H]; exact H | intros ->; reflexivity]. }
  split; [exact Hiff |].
  intros Hin E w Hidx.
  destruct (endpoint_cases E secret w Hidx) as (_ & _ & _ & [-> | (clm & kc & s & _ & _ & _ & _ & ->)]);
    [reflexivity |].
  apply lookup_insert_ne. intros Heq. apply Hiff in Heq. congruence.
Qed.

Lemma secret_name_round_trip_witness :
  managerKey (newKubeconfigSecret Demo.fresh Demo.kubeconfigText "cluster-a") = ("ns", "prod")
  ∧ managerKey (newKubeconfigSecret Demo.suffixed Demo.kubeconfigText "cluster-a")
    = ("ns", "edge").
Proof.
  split.
  - apply (proj1 (secret_name_round_trip Demo.fresh
                    (newKubeconfigSecret Demo.fresh Demo.kubeconfigText "cluster-a")
                    eq_refl eq_refl)).
    reflexivity.
  - reflexivity.
Defined.

(** ** The remote phases of the secret controller *)

Lemma ensureAll_cons (RE : RemoteEnv) (c : Clientset) (step : RemoteStep)
    (rest : list RemoteStep) (s : World * Remote) :
  let r := ensured RE c step.1.1 step.1.2 (has (remote_objects s.2) (stepKey c step)) in
  ensureAll RE c (step :: rest) s
  = match r with
    | Refused e _ => (Some e, ensuredState c step r s)
    | _ => ensureAll RE c rest (ensuredState c step r s)
    end.
Proof.
  destruct step as [[k key] o]. destruct s as [w rm]. cbv zeta.
  unfold ensured, tryCreate, ensuredState, has, stepKey. simpl.
  unfold bindS, remoteGet, remoteCreate, logRemote, retS, bindS. simpl.
  destruct (remote_fault RE c VerbGet k key) as [gerr |]; simpl.
  - destruct (IsNotFound gerr); simpl; [| reflexivity].
    destruct (remote_fault RE c VerbCreate k key); simpl;
      [rewrite <- app_assoc; reflexivity |].
    destruct (remote_objects rm !! (clusterOf c, k, key)); simpl;
      rewrite <- app_assoc; reflexivity.
  - destruct (remote_objects rm !! (clusterOf c, k, key)) eqn:Hstored; simpl; [reflexivity |].
    destruct (remote_fault RE c VerbCreate k key); simpl; rewrite ?Hstored; simpl;
      rewrite <- app_assoc; reflexivity.
Qed.

Lemma ensured_stored (RE : RemoteEnv) (c : Clientset) (k : RemoteKind) (key : NamespacedName) :
  ensured RE c k key true ≠ Created.
Proof.
  unfold ensured, tryCreate.
  destruct (remote_fault RE c VerbGet k key) as [e |]; [destruct (IsNotFound e) |];
    try destruct (remote_fault RE c VerbCreate k key); discriminate.
Qed.

Lemma ensured_Present (RE : RemoteEnv) (c : Clientset) (k : RemoteKind) (key : NamespacedName)
    (stored : bool) :
  ensured RE c k key stored = Present → stored = true.
Proof.
  unfold ensured, tryCreate.
  destruct (remote_fault RE c VerbGet k key) as [e |]; [destruct (IsNotFound e) |];
    destruct stored; try destruct (remote_fault RE c VerbCreate k key);
    (discriminate || reflexivity).
Qed.

Lemma ensured_Created (RE : RemoteEnv) (c : Clientset) (k : RemoteKind) (key : NamespacedName)
    (stored : bool) :
  ensured RE c k key stored = Created → stored = false.
Proof.
  intros H. destruct stored; [| reflexivity]. contradiction (ensured_stored RE c k key).
Qed.

Lemma ensured_served (RE : RemoteEnv) (c : Clientset) (k : RemoteKind) (key : NamespacedName) :
  remote_fault RE c VerbGet k key = None → ensured RE c k key true = Present.
Proof. intros H. unfold ensured. rewrite H. reflexivity. Qed.

Lemma has_true (m : gmap RemoteKey RemoteObject) (K : RemoteKey) :
  has m K = true ↔ is_Some (m !! K).
Proof.
  unfold has. destruct (m !! K); split; eauto.
  - discriminate.
  - intros [? ?]. discriminate.
Qed.

Lemma has_false (m : gmap RemoteKey RemoteObject) (K : RemoteKey) :
  has m K = false ↔ m !! K = None.
Proof. unfold has. destruct (m !! K); split; congruence. Qed.

(** A row of blocks leaves the local world alone and only adds to the remote
    objects, under the keys of its blocks. *)
Lemma ensureAll_frame (RE : RemoteEnv) (c : Clientset) (steps : list RemoteStep) :
  ∀ s, let r := ensureAll RE c steps s in
       r.2.1 = s.1
       ∧ remote_objects s.2 ⊆ remote_objects r.2.2
       ∧ ∀ K, K ∉ (stepKey c <$> steps) →
              remote_objects r.2.2 !! K = remote_objects s.2 !! K.
Proof.
  induction steps as [| step rest IH]; intros s; cbv zeta.
  - simpl. repeat split; reflexivity.
  - rewrite ensureAll_cons.
    destruct (ensured RE c step.1.1 step.1.2 _) as [| | e tried] eqn:Hr.
    + destruct (IH (ensuredState c step Present s)) as (Hw & Hsub & Hout). simpl in *.
      split; [exact Hw |]. split; [exact Hsub |].
      intros K HK. apply Hout. intros Hin. apply HK. right. exact Hin.
    + apply ensured_Created, has_false in Hr.
      destruct (IH (ensuredState c step Created s)) as (Hw & Hsub & Hout). simpl in *.
      split; [exact Hw |]. split.
      * etrans; [| exact Hsub]. apply insert_subseteq. exact Hr.
      * intros K HK. rewrite Hout by (intros Hin; apply HK; right; exact Hin).
        apply lookup_insert_ne. intros <-. apply HK. left.
    + simpl. repeat split; reflexivity.
Qed.

(** When the row returns no error, every block's object is stored: the one
    found, or else the one the block builds. *)
Lemma ensureAll_ensures (RE : RemoteEnv) (c : Clientset) (steps : list RemoteStep) :
  NoDup ((stepKey c <$> steps)) →
  ∀ s, (ensureAll RE c steps s).1 = None →
       ∀ step, step ∈ steps →
               remote_objects (ensureAll RE c steps s).2.2 !! stepKey c step
               = Some (default step.2 (remote_objects s.2 !! stepKey c step)).
Proof.
  induction steps as [| step rest IH]; intros Hnodup s Hnone x Hx.
  - inversion Hx.
  - simpl in Hnodup. apply NoDup_cons in Hnodup as [Hfresh Hnodup].
    rewrite ensureAll_cons in *.
    destruct (ensureAll_frame RE c rest
                (ensuredState c step
                   (ensured RE c step.1.1 step.1.2 (has (remote_objects s.2) (stepKey c step)))
                   s)) as (_ & Hsub & _).
    destruct (ensured RE c step.1.1 step.1.2 _) as [| | e tried] eqn:Hr; [| | discriminate].
    + apply ensured_Present, has_true in Hr as [o Ho].
      apply elem_of_cons in Hx as [-> | Hx].
      * rewrite Ho. simpl. eapply lookup_weaken; [| exact Hsub]. exact Ho.
      * exact (IH Hnodup _ Hnone x Hx).
    + apply ensured_Created, has_false in Hr.
      apply elem_of_cons in Hx as [-> | Hx].
      * rewrite Hr. simpl. eapply lookup_weaken; [| exact Hsub]. simpl. apply lookup_insert_eq.
      * rewrite (IH Hnodup _ Hnone x Hx). simpl.
        rewrite lookup_insert_ne; [reflexivity |].
        intros Heq. apply Hfresh. rewrite Heq. apply list_elem_of_fmap. eauto.
Qed.

(** A row of blocks run on a state that holds what an earlier run of the
    same row left changes no object; when the earlier run returned no error
    and the reads are served, it makes the reads and nothing else. *)
Lemma ensureAll_again (RE : RemoteEnv) (c : Clientset) (steps : list RemoteStep) :
  ∀ s t,
    let f := (ensureAll RE c steps s).2 in
    (∀ step, step ∈ steps →
             has (remote_objects t.2) (stepKey c step)
             = has (remote_objects f.2) (stepKey c step)) →
    let r := ensureAll RE c steps t in
    r.2.1 = t.1
    ∧ remote_objects r.2.2 = remote_objects t.2
    ∧ ((ensureAll RE c steps s).1 = None →
       (∀ step, step ∈ steps → remote_fault RE c VerbGet step.1.1 step.1.2 = None) →
       r.1 = None ∧ remote_calls r.2.2 = (remote_calls t.2 ++ stepReads c steps)%list).
Proof.
  induction steps as [| step rest IH]; intros s t; cbv zeta.
  - intros _. simpl. split; [reflexivity |]. split; [reflexivity |].
    intros _ _. split; [reflexivity |]. rewrite app_nil_r. reflexivity.
  - intros Hagree. rewrite !ensureAll_cons in *.
    pose proof (Hagree step (list_elem_of_here _ _)) as Hstep.
    destruct (ensureAll_frame RE c rest
                (ensuredState c step
                   (ensured RE c step.1.1 step.1.2 (has (remote_objects s.2) (stepKey c step)))
                   s)) as (_ & Hsub & _).
    destruct (ensured RE c step.1.1 step.1.2 (has (remote_objects s.2) (stepKey c step)))
      as [| | e tried] eqn:Hr.
    + assert (Ht : has (remote_objects t.2) (stepKey c step) = true).
      { rewrite Hstep. apply has_true.
        apply ensured_Present, has_true in Hr as [o Ho].
        exists o. eapply lookup_weaken; [| exact Hsub]. exact Ho. }
      rewrite Ht.
      pose proof (ensured_stored RE c step.1.1 step.1.2) as Hnot.
      destruct (ensured RE c step.1.1 step.1.2 true) as [| | e' tried'] eqn:Hr';
        [| contradiction |].
      * destruct (IH (ensuredState c step Present s) (ensuredState c step Present t))
          as (Hw & Hobj & Hread).
        { intros x Hx. simpl. apply Hagree. right. exact Hx. }
        simpl in *. split; [exact Hw |]. split; [exact Hobj |].
        intros Hnone Hserved.
        destruct (Hread Hnone (λ x Hx, Hserved x (list_elem_of_further _ _ _ Hx)))
          as [Hret Hcalls].
        split; [exact Hret |]. rewrite Hcalls, <- app_assoc. reflexivity.
      * simpl. split; [reflexivity |]. split; [reflexivity |]. intros _ Hserved.
        rewrite (ensured_served RE c _ _ (Hserved step (list_elem_of_here _ _))) in Hr'.
        discriminate.
    + assert (Ht : has (remote_objects t.2) (stepKey c step) = true).
      { rewrite Hstep. apply has_true. exists step.2.
        eapply lookup_weaken; [| exact Hsub]. simpl. apply lookup_insert_eq. }
      rewrite Ht.
      pose proof (ensured_stored RE c step.1.1 step.1.2) as Hnot.
      destruct (ensured RE c step.1.1 step.1.2 true) as [| | e' tried'] eqn:Hr';
        [| contradiction |].
      * destruct (IH (ensuredState c step Created s) (ensuredState c step Present t))
          as (Hw & Hobj & Hread).
        { intros x Hx. simpl. apply Hagree. right. exact Hx. }
        simpl in *. split; [exact Hw |]. split; [exact Hobj |].
        intros Hnone Hserved.
        destruct (Hread Hnone (λ x Hx, Hserved x (list_elem_of_further _ _ _ Hx)))
          as [Hret Hcalls].
        split; [exact Hret |]. rewrite Hcalls, <- app_assoc. reflexivity.
      * simpl. split; [reflexivity |]. split; [reflexivity |]. intros _ Hserved.
        rewrite (ensured_served RE c _ _ (Hserved step (list_elem_of_here _ _))) in Hr'.
        discriminate.
    + simpl in Hstep. rewrite Hstep, Hr. simpl.
      split; [reflexivity |]. split; [reflexivity |]. discriminate.
Qed.

(** Take the blocks of a remote phase one call at a time. *)
Ltac blocks :=
  unfold bindS, retS;
  repeat (cbv beta; simpl;
          match goal with
          | |- context [remoteGet ?RE ?c ?k ?key ?s] =>
            destruct (remoteGet RE c k key s) as [[? |] ?]
          | |- context [remoteCreate ?RE ?c ?k ?key ?o ?s] =>
            destruct (remoteCreate RE c k key o s) as [[? |] ?]
          | |- context [IsNotFound ?e] => destruct (IsNotFound e)
          end);
  try reflexivity.

Lemma deployClusterRoles_ensureAll (RE : RemoteEnv) (c : Clientset)
    (crs : list rbacv1_ClusterRole) (s : World * Remote) :
  deployClusterRoles RE c crs s
  = ensureAll RE c
      ((λ cr, (KindClusterRole, ("", Name (clusterRole_ObjectMeta cr)), ObjClusterRole cr))
       <$> crs) s.
Proof.
  revert s. induction crs as [| cr crs IH]; intros s; [reflexivity |].
  simpl. unfold ClusterRoles_Get, ClusterRoles_Create. blocks; apply IH.
Qed.

(** [DeployArgocdResources] is the client, then the row of its three
    blocks. *)
Lemma DeployArgocdResources_steps (RE : RemoteEnv) (secret : Secret) (s : World * Remote) :
  DeployArgocdResources RE secret s
  = let s0 := (s.1, mkRemote (remote_objects s.2)
                       (remote_calls s.2 ++ [CallGetRemoteK8sClientOfSecret])) in
    match util_GetRemoteK8sClient RE secret with
    | inr err => (Returned ResultZero (Some err), s0)
    | inl c =>
      (Returned ResultZero (ensureAll RE c (argocdSteps RE) s0).1,
       (ensureAll RE c (argocdSteps RE) s0).2)
    end.
Proof.
  cbv zeta. unfold DeployArgocdResources, GetRemoteK8sClient, logRemote.
  unfold bindS at 1 2. simpl. unfold retS at 1.
  destruct (util_GetRemoteK8sClient RE secret) as [c | err]; [| reflexivity].
  unfold argocdSteps, ServiceAccounts_Get, ServiceAccounts_Create, ClusterRoles_Get,
    ClusterRoles_Create, ClusterRoleBindings_Get, ClusterRoleBindings_Create.
  simpl ensureAll.
  set (s0 := (s.1, mkRemote (remote_objects s.2)
                     (remote_calls s.2 ++ [CallGetRemoteK8sClientOfSecret]))).
  clearbody s0. blocks.
Qed.

Lemma ensureAll_head (RE : RemoteEnv) (c : Clientset) (k : RemoteKind) (key : NamespacedName)
    (o : RemoteObject) (rest : list RemoteStep) (s : World * Remote) :
  ensureAll RE c ((k, key, o) :: rest) s
  = let (err, s1) := remoteGet RE c k key s in
    let (stop, s2) :=
      match err with
      | Some e => if IsNotFound e then remoteCreate RE c k key o else retS (Some e)
      | None => retS None
      end s1 in
    match stop with
    | Some e => (Some e, s2)
    | None => ensureAll RE c rest s2
    end.
Proof.
  simpl. unfold bindS. destruct (remoteGet RE c k key s) as [[err |] s1].
  - destruct (IsNotFound err); [| reflexivity].
    destruct (remoteCreate RE c k key o s1) as [[e |] s2]; reflexivity.
  - reflexivity.
Qed.

Lemma rolebinding_row (RE : RemoteEnv) (c : Clientset) (clm : ClusterManager)
    (s0 : World * Remote) :
  (let clusterAdminCRBName :=
     "cluster-owner-crb-" +:+ mapGet (Annotations (ObjectMeta clm)) AnnotationKeyOwner in
   let+ err := ClusterRoleBindings_Get RE c clusterAdminCRBName in
   let+ stop :=
     match err with
     | Some e =>
       if IsNotFound e then ClusterRoleBindings_Create RE c (clusterAdminCRB clm)
       else retS (Some e)
     | None => retS None
     end in
   match stop with
   | Some e => retS (Returned ResultZero (Some e))
   | None =>
     let+ looped := deployClusterRoles RE c crList in
     match looped with
     | Some e => retS (Returned ResultZero (Some e))
     | None => retS (Returned ResultZero None)
     end
   end) s0
  = (Returned ResultZero (ensureAll RE c (rolebindingSteps clm) s0).1,
     (ensureAll RE c (rolebindingSteps clm) s0).2).
Proof.
  cbv zeta. unfold rolebindingSteps. rewrite !ensureAll_head.
  unfold ClusterRoleBindings_Get, ClusterRoleBindings_Create.
  change (Name (clusterRoleBinding_ObjectMeta (clusterAdminCRB clm)))
    with ("cluster-owner-crb-" +:+ mapGet (Annotations (ObjectMeta clm)) AnnotationKeyOwner).
  unfold bindS at 1 2.
  destruct (remoteGet RE c KindClusterRoleBinding _ s0) as [[err |] s1].
  - destruct (IsNotFound err); [| reflexivity].
    destruct (remoteCreate RE c KindClusterRoleBinding _ _ s1) as [[e |] s2];
      [reflexivity |].
    unfold bindS. rewrite deployClusterRoles_ensureAll.
    destruct (ensureAll RE c _ s2) as [[e |] s3]; reflexivity.
  - unfold bindS, retS. cbv beta iota. rewrite deployClusterRoles_ensureAll.
    destruct (ensureAll RE c _ s1) as [[e |] s3]; reflexivity.
Qed.

(** [DeployRolebinding] is the read of the tracking resource, the client,
    then the row of its three blocks. *)
Lemma DeployRolebinding_steps (E : Env) (RE : RemoteEnv) (secret : Secret)
    (s : World * Remote) :
  DeployRolebinding E RE secret s
  = let g := getClusterManager E (managerKey secret) s.1 in
    match g.1 with
    | inr err => (Returned ResultZero (Some err), (g.2, s.2))
    | inl clm =>
      let s0 := (g.2, mkRemote (remote_objects s.2)
                        (remote_calls s.2 ++ [CallGetRemoteK8sClientOfSecret])) in
      match util_GetRemoteK8sClient RE secret with
      | inr err => (Returned ResultZero (Some err), s0)
      | inl c =>
        (Returned ResultZero (ensureAll RE c (rolebindingSteps clm) s0).1,
         (ensureAll RE c (rolebindingSteps clm) s0).2)
      end
    end.
Proof.
  cbv zeta. unfold DeployRolebinding, managerKey, onLocal. unfold bindS at 1.
  destruct (getClusterManager E _ s.1) as [[clm | err] w']; [| reflexivity].
  cbv beta iota. unfold GetRemoteK8sClient, logRemote. unfold bindS at 1 2.
  cbv beta iota. unfold retS at 1. cbn [fst snd].
  destruct (util_GetRemoteK8sClient RE secret) as [c | err]; [| reflexivity].
  apply rolebinding_row.
Qed.

Lemma argocdSteps_NoDup (RE : RemoteEnv) (c : Clientset) :
  NoDup (stepKey c <$> argocdSteps RE).
Proof.
  unfold argocdSteps, stepKey. simpl.
  repeat (apply NoDup_cons; split); try apply NoDup_nil_2;
    rewrite ?not_elem_of_cons; repeat split; try discriminate; apply not_elem_of_nil.
Qed.

Lemma rolebindingSteps_NoDup (c : Clientset) (clm : ClusterManager) :
  NoDup (stepKey c <$> rolebindingSteps clm).
Proof.
  unfold rolebindingSteps, stepKey, crList. simpl.
  repeat (apply NoDup_cons; split); try apply NoDup_nil_2;
    rewrite ?not_elem_of_cons; repeat split; try discriminate; apply not_elem_of_nil.
Qed.

Lemma getClusterManager_spec (E : Env) (key : NamespacedName) (w : World) :
  getClusterManager E key w
  = (match api_fault E VerbGet KindClusterManager key with
     | Some e => inr e
     | None =>
       match clusterManagers w !! key with
       | Some clm => inl clm
       | None => inr notFound
       end
     end,
     mkWorld (clusterRegistrations w) (clusterManagers w) (secrets w) (cluster_member w)
       (calls w ++ [CallAPI VerbGet KindClusterManager key])).
Proof.
  unfold_client. simpl.
  destruct (api_fault E VerbGet KindClusterManager key); [reflexivity |].
  destruct (clusterManagers w !! key); reflexivity.
Qed.

(** The remote phases never write to the local API server and never remove
    or overwrite an object of a remote cluster: what was stored there before
    a call is stored unchanged after it, and nothing is added but under the
    names of the phase's own objects on the cluster of the secret's client. *)
Theorem remote_phases_only_add :
  (∀ (E : Env) (RE : RemoteEnv) (secret : Secret) (s : World * Remote),
     let r := DeployRolebinding E RE secret s in
     sameObjects s.1 r.2.1
     ∧ remote_objects s.2 ⊆ remote_objects r.2.2
     ∧ ∀ K, (∀ c clm, util_GetRemoteK8sClient RE secret = inl c →
                      clusterManagers s.1 !! managerKey secret = Some clm →
                      K ∉ stepKey c <$> rolebindingSteps clm) →
            remote_objects r.2.2 !! K = remote_objects s.2 !! K)
  ∧ (∀ (RE : RemoteEnv) (secret : Secret) (s : World * Remote),
       let r := DeployArgocdResources RE secret s in
       r.2.1 = s.1
       ∧ remote_objects s.2 ⊆ remote_objects r.2.2
       ∧ ∀ K, (∀ c, util_GetRemoteK8sClient RE secret = inl c →
                    K ∉ stepKey c <$> argocdSteps RE) →
              remote_objects r.2.2 !! K = remote_objects s.2 !! K).
Proof.
  split.
  - intros E RE secret s. cbv zeta. rewrite DeployRolebinding_steps. cbv zeta.
    rewrite getClusterManager_spec. cbn [fst snd].
    destruct (api_fault E VerbGet KindClusterManager (managerKey secret)); cbn [fst snd];
      [unfold sameObjects; repeat split; reflexivity |].
    destruct (clusterManagers s.1 !! managerKey secret) as [clm |] eqn:Hclm; cbn [fst snd];
      [| unfold sameObjects; repeat split; reflexivity].
    destruct (util_GetRemoteK8sClient RE secret) as [c | err]; cbn [fst snd];
      [| unfold sameObjects; repeat split; reflexivity].
    match goal with |- context [ensureAll RE c ?steps ?s0] =>
      destruct (ensureAll_frame RE c steps s0) as (Hw & Hsub & Hout) end.
    cbn [fst snd remote_objects] in *. rewrite Hw. unfold sameObjects.
    repeat split; try reflexivity; try exact Hsub.
    intros K HK. apply Hout. apply (HK c clm); reflexivity.
  - intros RE secret s. cbv zeta. rewrite DeployArgocdResources_steps. cbv zeta.
    destruct (util_GetRemoteK8sClient RE secret) as [c | err]; cbn [fst snd];
      [| repeat split; reflexivity].
    match goal with |- context [ensureAll RE c ?steps ?s0] =>
      destruct (ensureAll_frame RE c steps s0) as (Hw & Hsub & Hout) end.
    cbn [fst snd remote_objects] in *. split; [exact Hw |]. split; [exact Hsub |].
    intros K HK. apply Hout. apply (HK c). reflexivity.
Qed.

(** What a [DeployRolebinding] that returned a nil error has stored, block
    by block. *)
Lemma DeployRolebinding_row (E : Env) (RE : RemoteEnv) (secret : Secret)
    (s : World * Remote) :
  let r := DeployRolebinding E RE secret s in
  r.1 = Returned ResultZero None →
  ∃ clm c,
    clusterManagers s.1 !! managerKey secret = Some clm
    ∧ util_GetRemoteK8sClient RE secret = inl c
    ∧ ∀ step, step ∈ rolebindingSteps clm →
              remote_objects r.2.2 !! stepKey c step
              = Some (default step.2 (remote_objects s.2 !! stepKey c step)).
Proof.
  cbv zeta. rewrite DeployRolebinding_steps. cbv zeta.
  rewrite getClusterManager_spec. cbn [fst snd].
  destruct (api_fault E VerbGet KindClusterManager (managerKey secret)); cbn [fst snd];
    [discriminate |].
  destruct (clusterManagers s.1 !! managerKey secret) as [clm |] eqn:Hclm; cbn [fst snd];
    [| discriminate].
  destruct (util_GetRemoteK8sClient RE secret) as [c | err]; cbn [fst snd]; [| discriminate].
  intros Hret. exists clm, c. split; [reflexivity |]. split; [reflexivity |].
  injection Hret as Hnone.
  pose proof (ensureAll_ensures RE c _ (rolebindingSteps_NoDup c clm) _ Hnone) as Hall.
  cbn [fst snd remote_objects] in Hall. exact Hall.
Qed.

(** When [DeployRolebinding] returns a nil error the tracking resource of
    the secret was read and a client built, and the remote cluster holds a
    binding [cluster-owner-crb-<owner>] and the roles [developer] and [guest]:
    each is the object that was already stored under the name, whatever it
    grants, or else the object the function builds. *)
Theorem DeployRolebinding_ensures (E : Env) (RE : RemoteEnv) (secret : Secret)
    (s : World * Remote) :
  let r := DeployRolebinding E RE secret s in
  r.1 = Returned ResultZero None →
  ∃ clm c,
    clusterManagers s.1 !! managerKey secret = Some clm
    ∧ util_GetRemoteK8sClient RE secret = inl c
    ∧ let stored K built :=
        remote_objects r.2.2 !! K = Some (default built (remote_objects s.2 !! K)) in
      stored (clusterOf c, KindClusterRoleBinding,
              ("", "cluster-owner-crb-"
                   +:+ mapGet (Annotations (ObjectMeta clm)) AnnotationKeyOwner))
        (ObjClusterRoleBinding (clusterAdminCRB clm))
      ∧ stored (clusterOf c, KindClusterRole, ("", "developer"))
          (ObjClusterRole (createClusterRole "developer" targetGroup [rbacv1_VerbAll]))
      ∧ stored (clusterOf c, KindClusterRole, ("", "guest"))
          (ObjClusterRole (createClusterRole "guest" targetGroup ["get"; "list"; "watch"])).
Proof.
  cbv zeta. intros Hret.
  destruct (DeployRolebinding_row E RE secret s Hret) as (clm & c & Hclm & Hc & Hall).
  exists clm, c. split; [exact Hclm |]. split; [exact Hc |].
  split; [| split].
  - apply (Hall (KindClusterRoleBinding, _, _)). unfold rolebindingSteps. left.
  - apply (Hall (KindClusterRole, _, _)). unfold rolebindingSteps, crList. right. left.
  - apply (Hall (KindClusterRole, _, _)). unfold rolebindingSteps, crList. right. right. left.
Qed.

(** When [DeployArgocdResources] returns a nil error a client was built and
    the remote cluster holds the service account (in the namespace
    [KubeNamespace]), the role and the binding of the GitOps agent: each is the
    object already stored under the name, or else the object the function
    builds.  The binding it builds names the service account in the namespace
    [ArgoNamespace]. *)
Theorem DeployArgocdResources_ensures (RE : RemoteEnv) (secret : Secret)
    (s : World * Remote) :
  let r := DeployArgocdResources RE secret s in
  r.1 = Returned ResultZero None →
  ∃ c,
    util_GetRemoteK8sClient RE secret = inl c
    ∧ let stored K built :=
        remote_objects r.2.2 !! K = Some (default built (remote_objects s.2 !! K)) in
      stored (clusterOf c, KindServiceAccount, (KubeNamespace RE, ArgoServiceAccount RE))
        (ObjServiceAccount (argocdManager RE))
      ∧ stored (clusterOf c, KindClusterRole, ("", ArgoClusterRole RE))
          (ObjClusterRole (argocdManagerRole RE))
      ∧ stored (clusterOf c, KindClusterRoleBinding, ("", ArgoClusterRoleBinding RE))
          (ObjClusterRoleBinding (argocdManagerRoleBinding RE))
      ∧ Subjects (argocdManagerRoleBinding RE)
        = [mkSubject rbacv1_ServiceAccountKind "" (ArgoServiceAccount RE) (ArgoNamespace RE)].
Proof.
  cbv zeta. rewrite DeployArgocdResources_steps. cbv zeta.
  destruct (util_GetRemoteK8sClient RE secret) as [c | err]; cbn [fst snd]; [| discriminate].
  intros Hret. exists c. split; [reflexivity |].
  injection Hret as Hnone.
  pose proof (ensureAll_ensures RE c _ (argocdSteps_NoDup RE c) _ Hnone) as Hall.
  cbn [fst snd remote_objects] in Hall.
  split; [| split; [| split; [| reflexivity]]].
  - apply (Hall (KindServiceAccount, _, _)). unfold argocdSteps. left.
  - apply (Hall (KindClusterRole, _, _)). unfold argocdSteps. right. left.
  - apply (Hall (KindClusterRoleBinding, _, _)). unfold argocdSteps. right. right. left.
Qed.

(** A remote phase run a second time, in the same environments, on the state
    the first run left, changes no object, local or remote.  When the first
    run returned a nil error and the remote reads are served, the second run
    returns a nil error too and makes no call to the remote cluster but the
    reads of its three objects. *)
Theorem remote_phases_idempotent :
  (∀ (E : Env) (RE : RemoteEnv) (secret : Secret) (s : World * Remote),
     let r1 := DeployRolebinding E RE secret s in
     let r2 := DeployRolebinding E RE secret r1.2 in
     sameObjects r1.2.1 r2.2.1
     ∧ remote_objects r2.2.2 = remote_objects r1.2.2
     ∧ (r1.1 = Returned ResultZero None →
        (∀ c k key, remote_fault RE c VerbGet k key = None) →
        r2.1 = Returned ResultZero None
        ∧ ∃ c clm,
            remote_calls r2.2.2
            = (remote_calls r1.2.2
               ++ CallGetRemoteK8sClientOfSecret :: stepReads c (rolebindingSteps clm))%list))
  ∧ (∀ (RE : RemoteEnv) (secret : Secret) (s : World * Remote),
       let r1 := DeployArgocdResources RE secret s in
       let r2 := DeployArgocdResources RE secret r1.2 in
       r2.2.1 = r1.2.1
       ∧ remote_objects r2.2.2 = remote_objects r1.2.2
       ∧ (r1.1 = Returned ResultZero None →
          (∀ c k key, remote_fault RE c VerbGet k key = None) →
          r2.1 = Returned ResultZero None
          ∧ ∃ c,
              remote_calls r2.2.2
              = (remote_calls r1.2.2
                 ++ CallGetRemoteK8sClientOfSecret :: stepReads c (argocdSteps RE))%list)).
Proof.
  split.
  - intros E RE secret s. cbv zeta.
    destruct (DeployRolebinding E RE secret s) as [o1 [w1 rm1]] eqn:H1.
    rewrite DeployRolebinding_steps, getClusterManager_spec in H1.
    cbv zeta in H1. cbn [fst snd] in H1.
    rewrite DeployRolebinding_steps, getClusterManager_spec. cbv zeta. cbn [fst snd].
    destruct (api_fault E VerbGet KindClusterManager (managerKey secret)) eqn:Hfault.
    { injection H1 as <- <- <-. unfold sameObjects. cbn.
      split; [repeat split |]. split; [reflexivity | discriminate]. }
    destruct (clusterManagers s.1 !! managerKey secret) as [clm |] eqn:Hclm.
    2:{ injection H1 as <- <- <-. cbn [clusterManagers]. rewrite Hclm. unfold sameObjects. cbn.
        split; [repeat split |]. split; [reflexivity | discriminate]. }
    destruct (util_GetRemoteK8sClient RE secret) as [c | err] eqn:Hclient.
    2:{ injection H1 as <- <- <-. cbn [clusterManagers]. rewrite Hclm. unfold sameObjects. cbn.
        split; [repeat split |]. split; [reflexivity | discriminate]. }
    match type of H1 with context [ensureAll RE c _ ?s0'] => set (s0 := s0') in H1 end.
    destruct (ensureAll_frame RE c (rolebindingSteps clm) s0) as (Hw & _ & _).
    apply pair_equal_spec in H1 as [Ho Hs]. rewrite Hs in Hw.
    unfold s0 in Hw. cbn [fst snd] in Hw. subst w1.
    cbn [fst snd clusterManagers]. rewrite Hclm.
    cbn [fst snd clusterRegistrations clusterManagers secrets cluster_member calls].
    match goal with |- context [ensureAll RE c _ ?t] =>
      destruct (ensureAll_again RE c (rolebindingSteps clm) s0 t) as (Hw2 & Hobj & Hread)
    end.
    { intros step _. rewrite Hs. reflexivity. }
    cbn [fst snd remote_objects remote_calls] in Hw2, Hobj, Hread.
    rewrite Hw2, Hobj. unfold sameObjects.
    cbn [fst snd clusterRegistrations clusterManagers secrets cluster_member calls].
    split; [repeat split |]. split; [reflexivity |].
    intros Hret Hserved. subst o1.
    assert (Hnone : (ensureAll RE c (rolebindingSteps clm) s0).1 = None) by congruence.
    destruct (Hread Hnone (λ step _, Hserved c step.1.1 step.1.2)) as [Hret2 Hcalls].
    rewrite Hret2, Hcalls. split; [reflexivity |]. exists c, clm.
    rewrite <- app_assoc. reflexivity.
  - intros RE secret s. cbv zeta.
    destruct (DeployArgocdResources RE secret s) as [o1 [w1 rm1]] eqn:H1.
    rewrite DeployArgocdResources_steps in H1. cbv zeta in H1.
    rewrite DeployArgocdResources_steps. cbv zeta. cbn [fst snd].
    destruct (util_GetRemoteK8sClient RE secret) as [c | err] eqn:Hclient.
    2:{ injection H1 as <- <- <-. cbn.
        split; [reflexivity |]. split; [reflexivity | discriminate]. }
    match type of H1 with context [ensureAll RE c _ ?s0'] => set (s0 := s0') in H1 end.
    apply pair_equal_spec in H1 as [Ho Hs].
    match goal with |- context [ensureAll RE c _ ?t] =>
      destruct (ensureAll_again RE c (argocdSteps RE) s0 t) as (Hw2 & Hobj & Hread)
    end.
    { intros step _. rewrite Hs. reflexivity. }
    cbn [fst snd remote_objects remote_calls] in Hw2, Hobj, Hread.
    cbn [fst snd]. split; [exact Hw2 |]. split; [exact Hobj |].
    intros Hret Hserved. subst o1.
    assert (Hnone : (ensureAll RE c (argocdSteps RE) s0).1 = None) by congruence.
    destruct (Hread Hnone (λ step _, Hserved c step.1.1 step.1.2)) as [Hret2 Hcalls].
    rewrite Hret2, Hcalls. split; [reflexivity |]. exists c.
    rewrite <- app_assoc. reflexivity.
Qed.

(** [DeployRolebinding] needs the tracking resource of the secret: when the
    read fails, and also when it answers not-found, the error is returned, no
    client is built and no call leaves for the remote cluster.  The endpoint
    phase, for the same secret and world, takes the missing tracking resource
    for no error. *)
Theorem DeployRolebinding_needs_manager (E : Env) (RE : RemoteEnv) (secret : Secret)
    (s : World * Remote) :
  let r := DeployRolebinding E RE secret s in
  (api_fault E VerbGet KindClusterManager (managerKey secret) = None →
   clusterManagers s.1 !! managerKey secret = None →
   r.1 = Returned ResultZero (Some notFound)
   ∧ r.2.2 = s.2
   ∧ sameObjects s.1 r.2.1
   ∧ ∀ kubeConfig,
       clientcmd_Load E (mapGet (Data secret) "value") = inl kubeConfig →
       (UpdateClusterManagerControlPlaneEndpoint E secret s.1).1 = Returned ResultZero None)
  ∧ (∀ e, api_fault E VerbGet KindClusterManager (managerKey secret) = Some e →
          r.1 = Returned ResultZero (Some e) ∧ r.2.2 = s.2 ∧ sameObjects s.1 r.2.1).
Proof.
  cbv zeta. rewrite DeployRolebinding_steps. cbv zeta. rewrite getClusterManager_spec.
  cbn [fst snd]. unfold sameObjects. split.
  - intros Hfault Hnone. rewrite Hfault, Hnone. cbn. repeat split.
    intros kubeConfig Hload. unfold UpdateClusterManagerControlPlaneEndpoint.
    fold (managerKey secret). unfold Load, logCall, bind, ret. simpl. rewrite Hload. simpl.
    rewrite getClusterManager_spec. simpl. rewrite Hfault, Hnone. reflexivity.
  - intros e Hfault. rewrite Hfault. cbn. repeat split.
Qed.

Lemma DeployRolebinding_needs_manager_witness :
  (DeployRolebinding Demo.healthy Demo.remote Demo.credential
     (Demo.emptyWorld, Demo.emptyRemote)).1
  = Returned ResultZero (Some notFound)
  ∧ (DeployRolebinding Demo.healthy Demo.remote Demo.credential
       (Demo.emptyWorld, Demo.emptyRemote)).2.2
    = Demo.emptyRemote.
Proof.
  destruct (proj1 (DeployRolebinding_needs_manager Demo.healthy Demo.remote Demo.credential
                     (Demo.emptyWorld, Demo.emptyRemote)) eq_refl eq_refl)
    as (Hret & Hremote & _).
  split; [exact Hret | exact Hremote].
Defined.

(** [getKubeConfig] returns a configuration exactly when the secret holds
    the key [value] and both library calls succeed on it; in every other case,
    the key missing included, it returns a nil configuration with the one
    bad-request error, whatever the library reported. *)
Theorem getKubeConfig_result (clientcmd_ClientConfig rest_Config : Type)
    (NewClientConfigFromBytes : string → clientcmd_ClientConfig + error)
    (ClientConfig : clientcmd_ClientConfig → rest_Config + error) (secret : Secret) :
  let r := getKubeConfig NewClientConfigFromBytes ClientConfig secret in
  (∀ restConfig,
     r = (Some restConfig, None)
     ↔ ∃ value clientConfig,
         Data secret !! "value" = Some value
         ∧ NewClientConfigFromBytes value = inl clientConfig
         ∧ ClientConfig clientConfig = inl restConfig)
  ∧ (r.1 = None → r = (None, Some (NewBadRequest "getClientConfig Error")))
  ∧ (Data secret !! "value" = None → r = (None, Some (NewBadRequest "getClientConfig Error"))).
Proof.
  cbv zeta. unfold getKubeConfig.
  destruct (Data secret !! "value") as [value |] eqn:Hvalue.
  2:{ repeat split; try discriminate. intros (v & c & [=] & _). }
  destruct (NewClientConfigFromBytes value) as [clientConfig | e1] eqn:Hnew.
  2:{ repeat split; try discriminate. intros (v & c & [= <-] & Hc & _). congruence. }
  destruct (ClientConfig clientConfig) as [restConfig | e2] eqn:Hcc.
  2:{ repeat split; try discriminate. intros (v & c & [= <-] & Hc & Hr). congruence. }
  split; [| split; discriminate].
  intros restConfig'. split.
  - intros [= <-]. eauto.
  - intros (v & c & [= <-] & Hc & Hr). congruence.
Qed.

Lemma getKubeConfig_result_witness :
  getKubeConfig (λ value : string, inl value)
    (λ clientConfig : string, inl (String.length clientConfig)) Demo.credentialEmpty
  = (None, Some (NewBadRequest "getClientConfig Error")).
Proof.
  apply (proj2 (proj2 (getKubeConfig_result string nat (λ value, inl value)
                         (λ clientConfig, inl (String.length clientConfig))
                         Demo.credentialEmpty))).
  reflexivity.
Defined.

Lemma remote_phases_only_add_witness :
  remote_objects Demo.emptyRemote
  ⊆ remote_objects (DeployArgocdResources Demo.remote Demo.credential
                      (Demo.emptyWorld, Demo.emptyRemote)).2.2.
Proof.
  exact (proj1 (proj2 (proj2 remote_phases_only_add Demo.remote Demo.credential
                         (Demo.emptyWorld, Demo.emptyRemote)))).
Defined.

(** On a tracking resource without an owner annotation the binding is made
    for the user with the empty name. *)
Lemma DeployRolebinding_ensures_witness :
  remote_objects (DeployRolebinding Demo.healthy Demo.remote Demo.credential
                    (Demo.tracked "", Demo.emptyRemote)).2.2
    !! (0%nat, KindClusterRoleBinding, ("", "cluster-owner-crb-"))
  = Some (ObjClusterRoleBinding
            (mkClusterRoleBinding (metaNamed "cluster-owner-crb-")
               (mkRoleRef rbacv1_GroupName "ClusterRole" "cluster-admin")
               [mkSubject rbacv1_UserKind rbacv1_GroupName "" ""])).
Proof.
  destruct (DeployRolebinding_ensures Demo.healthy Demo.remote Demo.credential
              (Demo.tracked "", Demo.emptyRemote)) as (clm & c & Hclm & Hc & Hcrb & _).
  - vm_compute. reflexivity.
  - injection Hc as <-. vm_compute in Hclm. injection Hclm as <-. exact Hcrb.
Defined.

Lemma DeployArgocdResources_ensures_witness :
  remote_objects (DeployArgocdResources Demo.remote Demo.credential
                    (Demo.emptyWorld, Demo.emptyRemote)).2.2
    !! (0%nat, KindServiceAccount, ("kube-system", "argocd-manager"))
  = Some (ObjServiceAccount (argocdManager Demo.remote)).
Proof.
  destruct (DeployArgocdResources_ensures Demo.remote Demo.credential
              (Demo.emptyWorld, Demo.emptyRemote)) as (c & Hc & Hsa & _).
  - vm_compute. reflexivity.
  - injection Hc as <-. exact Hsa.
Defined.

Lemma remote_phases_idempotent_witness :
  let r1 := DeployArgocdResources Demo.remote Demo.credential
              (Demo.emptyWorld, Demo.emptyRemote) in
  let r2 := DeployArgocdResources Demo.remote Demo.credential r1.2 in
  remote_objects r2.2.2 = remote_objects r1.2.2
  ∧ r2.1 = Returned ResultZero None.
Proof.
  destruct (proj2 remote_phases_idempotent Demo.remote Demo.credential
              (Demo.emptyWorld, Demo.emptyRemote)) as (_ & Hobj & Hread).
  split; [exact Hobj |].
  apply Hread; [vm_compute; reflexivity | intros c k key; reflexivity].
Defined.

(** From the registration to the remote cluster: the tracking resource that
    [CreateClusterManager] stores carries the registration's creator
    annotation as its owner, so the binding that [DeployRolebinding] creates
    for that tracking resource gives [cluster-admin] to the creator, and to
    the user with the empty name when the registration has no creator
    annotation. *)
Theorem binding_names_creator (E E' : Env) (RE : RemoteEnv) (cr : ClusterRegistration)
    (w : World) (clm : ClusterManager) (secret : Secret) (s : World * Remote)
    (c : Clientset) :
  let key := (Namespace (ObjectMeta cr), ClusterName (Spec cr)) in
  let creator := mapGet (Annotations (ObjectMeta cr)) AnnotationKeyCreator in
  let crbKey := (clusterOf c, KindClusterRoleBinding, ("", "cluster-owner-crb-" +:+ creator)) in
  clusterManagers w !! key = None →
  clusterManagers (CreateClusterManager E cr w).2 !! key = Some clm →
  clusterManagers s.1 !! managerKey secret = Some clm →
  util_GetRemoteK8sClient RE secret = inl c →
  remote_objects s.2 !! crbKey = None →
  (DeployRolebinding E' RE secret s).1 = Returned ResultZero None →
  remote_objects (DeployRolebinding E' RE secret s).2.2 !! crbKey
  = Some (ObjClusterRoleBinding
            (mkClusterRoleBinding (metaNamed ("cluster-owner-crb-" +:+ creator))
               (mkRoleRef rbacv1_GroupName "ClusterRole" "cluster-admin")
               [mkSubject rbacv1_UserKind rbacv1_GroupName creator ""])).
Proof.
  cbv zeta. intros Hnone Hcreated Hstored Hclient Hfree Hret.
  destruct (created_manager E cr w clm Hnone Hcreated) as (endpoint & _ & ->).
  destruct (DeployRolebinding_row E' RE secret s Hret) as (clm' & c' & Hclm & Hc & Hall).
  rewrite Hstored in Hclm. injection Hclm as <-.
  rewrite Hclient in Hc. injection Hc as <-.
  assert (Howner : mapGet (Annotations (ObjectMeta (newClusterManager E cr endpoint)))
                     AnnotationKeyOwner
                   = mapGet (Annotations (ObjectMeta cr)) AnnotationKeyCreator).
  { unfold newClusterManager, mapGet at 1. simpl.
    rewrite !lookup_insert_ne by discriminate. rewrite lookup_insert_eq. reflexivity. }
  specialize (Hall (KindClusterRoleBinding, _, _) (list_elem_of_here _ _)).
  unfold stepKey, clusterAdminCRB, metaNamed in Hall.
  cbn [fst snd Name clusterRoleBinding_ObjectMeta] in Hall.
  rewrite Howner in Hall. rewrite Hfree in Hall. exact Hall.
Qed.

Lemma binding_names_creator_witness :
  remote_objects (DeployRolebinding Demo.healthy Demo.remote Demo.credential
                    (Demo.managed, Demo.emptyRemote)).2.2
    !! (0%nat, KindClusterRoleBinding, ("", "cluster-owner-crb-alice"))
  = Some (ObjClusterRoleBinding
            (mkClusterRoleBinding (metaNamed "cluster-owner-crb-alice")
               (mkRoleRef rbacv1_GroupName "ClusterRole" "cluster-admin")
               [mkSubject rbacv1_UserKind rbacv1_GroupName "alice" ""])).
Proof.
  apply (binding_names_creator Demo.healthy Demo.healthy Demo.remote Demo.secretCreated
           Demo.emptyWorld (newClusterManager Demo.healthy Demo.secretCreated "10.0.0.1")
           Demo.credential (Demo.managed, Demo.emptyRemote) (RemoteClientset 0)).
  - reflexivity.
  - vm_compute. reflexivity.
  - vm_compute. reflexivity.
  - reflexivity.
  - reflexivity.
  - vm_compute. reflexivity.
Defined.
